(** * Invoice field extraction: the cascade of extraction strategies,
      its confidence scores and the per-field clean-up rules.

    Shallow embedding of
      - [app/services/lightweight_ai.py]  (class LightweightInvoiceProcessor),
      - [app/services/transformer_ai.py]  (class TransformerInvoiceProcessor),
      - [app/services/pdf_processor.py]   (class PDFProcessor).

    Modelling conventions.
      - A Python [str] is a [string] of 8-bit characters read as ASCII:
        the classes [\d], [\w], [\s] and the case mappings are the ASCII
        ones (characters above 127 have no class and no case).
      - A Python [float] confidence is an exact rational ([Q]); the decimal
        literals of the source are read as the rationals they denote and
        scores are compared with [==], [<] on [Q].
      - A [dict] keyed by field name is a [gmap string _].
      - The NER and QA pipelines are external models; they are components of
        the processor record, and a call that raises is [None]. *)

From Stdlib Require Import Ascii String QArith Qminmax Lia.
From stdpp Require Import gmap strings list fin_maps.

Local Open Scope string_scope.

(* ===================================================================== *)
(** ** Python string operations used by the source *)
(* ===================================================================== *)

Module Py.

Definition code (c : ascii) : nat := nat_of_ascii c.

Definition isdigit (c : ascii) : bool := (48 <=? code c)%nat && (code c <=? 57)%nat.
Definition isupper (c : ascii) : bool := (65 <=? code c)%nat && (code c <=? 90)%nat.
Definition islower (c : ascii) : bool := (97 <=? code c)%nat && (code c <=? 122)%nat.
(** [\w] *)
Definition isword (c : ascii) : bool :=
  isdigit c || isupper c || islower c || (code c =? 95)%nat.
(** [str.isspace] and [\s]: TAB..CR, FS..US and the blank. *)
Definition isspace (c : ascii) : bool :=
  ((9 <=? code c)%nat && (code c <=? 13)%nat) || ((28 <=? code c)%nat && (code c <=? 32)%nat).

Definition lower_char (c : ascii) : ascii :=
  if isupper c then ascii_of_nat (code c + 32) else c.
Definition upper_char (c : ascii) : ascii :=
  if islower c then ascii_of_nat (code c - 32) else c.

Fixpoint map_str (f : ascii -> ascii) (s : string) : string :=
  match s with
  | EmptyString => EmptyString
  | String c t => String (f c) (map_str f t)
  end.

Fixpoint filter_str (p : ascii -> bool) (s : string) : string :=
  match s with
  | EmptyString => EmptyString
  | String c t => if p c then String c (filter_str p t) else filter_str p t
  end.

Fixpoint exists_str (p : ascii -> bool) (s : string) : bool :=
  match s with
  | EmptyString => false
  | String c t => p c || exists_str p t
  end.

(** Every character of [s] satisfies [p]. *)
Fixpoint all_str (p : ascii -> bool) (s : string) : bool :=
  match s with
  | EmptyString => true
  | String c t => p c && all_str p t
  end.

(** [s.lower()], [s.upper()] *)
Definition lower : string -> string := map_str lower_char.
Definition upper : string -> string := map_str upper_char.

(** A lower-casing that is not character by character: the character [c]
    becomes the two characters [a] and [b], as U+0130 does under
    [str.lower()]; every other character as under [lower]. *)
Fixpoint lower_expanding (c a b : ascii) (s : string) : string :=
  match s with
  | EmptyString => EmptyString
  | String x t =>
      if Ascii.eqb x c then String a (String b (lower_expanding c a b t))
      else String (lower_char x) (lower_expanding c a b t)
  end.

(** [len(s)] *)
Definition len : string -> nat := String.length.

(** [s.lstrip()], [s.rstrip()], [s.strip()] *)
Fixpoint lstrip (s : string) : string :=
  match s with
  | String c t => if isspace c then lstrip t else s
  | EmptyString => EmptyString
  end.

Fixpoint rstrip (s : string) : string :=
  match s with
  | EmptyString => EmptyString
  | String c t =>
      match rstrip t with
      | EmptyString => if isspace c then EmptyString else String c EmptyString
      | t' => String c t'
      end
  end.

Definition strip (s : string) : string := rstrip (lstrip s).

(** [s] does not start with a blank. *)
Definition no_lead (s : string) : bool :=
  match s with
  | EmptyString => true
  | String c _ => negb (isspace c)
  end.

(** [s[a:b]] for [0 <= a], [0 <= b] *)
Fixpoint drop (n : nat) (s : string) : string :=
  match n, s with
  | S n', String _ t => drop n' t
  | _, _ => s
  end.

Fixpoint take (n : nat) (s : string) : string :=
  match n, s with
  | S n', String c t => String c (take n' t)
  | _, _ => EmptyString
  end.

Definition slice (a b : nat) (s : string) : string := take (b - a) (drop a s).

(** [s.startswith(p)] *)
Fixpoint startswith (p s : string) : bool :=
  match p, s with
  | EmptyString, _ => true
  | String a p', String b s' => Ascii.eqb a b && startswith p' s'
  | String _ _, EmptyString => false
  end.

(** [s.find(p)]: index of the first occurrence, [None] for -1. *)
Fixpoint find_from (p s : string) (i : nat) : option nat :=
  if startswith p s then Some i
  else match s with
       | EmptyString => None
       | String _ t => find_from p t (S i)
       end.

Definition find (s p : string) : option nat := find_from p s 0.

(** [p in s] *)
Definition contains (p s : string) : bool :=
  match find s p with Some _ => true | None => false end.

(** [s.replace(c, '')] for a one-character [c] *)
Definition remove_char (c : ascii) (s : string) : string :=
  filter_str (fun x => negb (Ascii.eqb x c)) s.

(** [s.split()]: the maximal runs of non-blank characters. *)
Fixpoint split_ws_aux (s : string) (cur : string) : list string :=
  match s with
  | EmptyString => match cur with EmptyString => [] | _ => [String.rev cur] end
  | String c t =>
      if isspace c
      then match cur with
           | EmptyString => split_ws_aux t EmptyString
           | _ => String.rev cur :: split_ws_aux t EmptyString
           end
      else split_ws_aux t (String c cur)
  end.

Definition split_ws (s : string) : list string := split_ws_aux s EmptyString.

(** [s.split(sep)] for a one-character [sep]. *)
Fixpoint split_on_aux (sep : ascii) (s : string) (cur : string) : list string :=
  match s with
  | EmptyString => [String.rev cur]
  | String c t =>
      if Ascii.eqb c sep then String.rev cur :: split_on_aux sep t EmptyString
      else split_on_aux sep t (String c cur)
  end.

Definition split_on (sep : ascii) (s : string) : list string :=
  split_on_aux sep s EmptyString.

(** [sep.join(l)] *)
Fixpoint join (sep : string) (l : list string) : string :=
  match l with
  | [] => EmptyString
  | [x] => x
  | x :: tl => x ++ sep ++ join sep tl
  end.

(** [s.capitalize()] *)
Definition capitalize (s : string) : string :=
  match s with
  | EmptyString => EmptyString
  | String c t => String (upper_char c) (lower t)
  end.

(** The first [n] characters of [s] all satisfy [p]. *)
Fixpoint all_prefix (p : ascii -> bool) (n : nat) (s : string) : bool :=
  match n, s with
  | O, _ => true
  | S n', String c t => p c && all_prefix p n' t
  | S _, EmptyString => false
  end.

(** Truth value of a string: [if s:] *)
Definition truthy (s : string) : bool :=
  match s with EmptyString => false | _ => true end.

End Py.

(* ===================================================================== *)
(** ** The fragment of Python's [re] used by the source

    A backtracking matcher with the priorities of [re]: alternatives left
    to right, greedy repetition longest first, lazy repetition shortest
    first, scan for the leftmost start.  Every repeated sub-pattern of the
    source consumes at least one character, so an unbounded repetition
    iterates at most [length rest] times. *)
(* ===================================================================== *)

Module Re.

Inductive item :=
| IChar (c : ascii)            (** a literal member *)
| IRange (lo hi : ascii)       (** [lo-hi] *)
| IDigit                       (** [\d] *)
| IWord                        (** [\w] *)
| ISpace.                      (** [\s] *)

Inductive regex :=
| Eps
| Lit (c : ascii)
| Any                                   (** [.] *)
| Set_ (neg : bool) (items : list item) (** [[...]] and [[^...]] *)
| Seq (r1 r2 : regex)
| Alt (r1 r2 : regex)
| Rep (lo : nat) (hi : option nat) (greedy : bool) (r : regex)
| Grp (n : nat) (r : regex)             (** capturing group number [n] *)
| Bol                                   (** [^] *)
| Eol                                   (** [$] *)
| WordB                                 (** [\b] *)
| Ahead (r : regex).                    (** [(?=...)] *)

Record flags := Flags { IGNORECASE : bool; MULTILINE : bool }.

Definition no_flags : flags := Flags false false.
Definition ICASE : flags := Flags true false.
Definition ICASE_MULTILINE : flags := Flags true true.

Record mstate := MState {
  m_pos : nat;                          (** offset in the subject *)
  m_prev : option ascii;                (** character before the offset *)
  m_rest : string;                      (** subject from the offset on *)
  m_caps : list (nat * (nat * nat))     (** group number, start, end *)
}.

Definition item_has (it : item) (c : ascii) : bool :=
  match it with
  | IChar x => Ascii.eqb x c
  | IRange lo hi => (Py.code lo <=? Py.code c)%nat && (Py.code c <=? Py.code hi)%nat
  | IDigit => Py.isdigit c
  | IWord => Py.isword c
  | ISpace => Py.isspace c
  end.

Definition items_have (items : list item) (c : ascii) : bool :=
  existsb (fun it => item_has it c) items.

(** Membership in a set; under IGNORECASE either case of [c] may be the member. *)
Definition in_set (fl : flags) (items : list item) (c : ascii) : bool :=
  if IGNORECASE fl
  then items_have items c || items_have items (Py.lower_char c)
       || items_have items (Py.upper_char c)
  else items_have items c.

Definition lit_eq (fl : flags) (x c : ascii) : bool :=
  if IGNORECASE fl then Ascii.eqb (Py.lower_char x) (Py.lower_char c)
  else Ascii.eqb x c.

Definition newline : ascii := "010"%char.

(** Consume one character satisfying [p]. *)
Definition step (p : ascii -> bool) (k : mstate -> option mstate) (st : mstate)
  : option mstate :=
  match m_rest st with
  | String c t =>
      if p c then k (MState (S (m_pos st)) (Some c) t (m_caps st)) else None
  | EmptyString => None
  end.

Definition set_cap (n a b : nat) (st : mstate) : mstate :=
  MState (m_pos st) (m_prev st) (m_rest st) ((n, (a, b)) :: m_caps st).

Definition at_bol (fl : flags) (st : mstate) : bool :=
  match m_prev st with
  | None => true
  | Some c => MULTILINE fl && Ascii.eqb c newline
  end.

Definition at_eol (fl : flags) (st : mstate) : bool :=
  match m_rest st with
  | EmptyString => true
  | String c t =>
      Ascii.eqb c newline
      && (MULTILINE fl || match t with EmptyString => true | _ => false end)
  end.

Definition at_wordb (st : mstate) : bool :=
  let before := match m_prev st with Some c => Py.isword c | None => false end in
  let after := match m_rest st with String c _ => Py.isword c | EmptyString => false end in
  xorb before after.

(** The loop of a repetition [r{lo,}] with at most [n] further
    iterations: [body] matches one iteration, [cnt] counts those done. *)
Fixpoint rep_loop (body : (mstate -> option mstate) -> mstate -> option mstate)
  (lo : nat) (greedy : bool) (k : mstate -> option mstate) (n cnt : nat) (st0 : mstate)
  {struct n} : option mstate :=
  match n with
  | O => if (lo <=? cnt)%nat then k st0 else None
  | S n' =>
      if greedy then
        match body (rep_loop body lo greedy k n' (S cnt)) st0 with
        | Some x => Some x
        | None => if (lo <=? cnt)%nat then k st0 else None
        end
      else
        match (if (lo <=? cnt)%nat then k st0 else None) with
        | Some x => Some x
        | None => body (rep_loop body lo greedy k n' (S cnt)) st0
        end
  end.

(** The matcher, in continuation-passing style: [rmatch fl r k st] matches
    [r] at [st] and hands the state after it to [k]; [None] makes the
    matcher backtrack. *)
Fixpoint rmatch (fl : flags) (r : regex) (k : mstate -> option mstate) (st : mstate)
  {struct r} : option mstate :=
  match r with
  | Eps => k st
  | Lit c => step (lit_eq fl c) k st
  | Any => step (fun x => negb (Ascii.eqb x newline)) k st
  | Set_ neg items => step (fun x => xorb neg (in_set fl items x)) k st
  | Seq r1 r2 => rmatch fl r1 (rmatch fl r2 k) st
  | Alt r1 r2 =>
      match rmatch fl r1 k st with
      | Some x => Some x
      | None => rmatch fl r2 k st
      end
  | Grp n r1 =>
      rmatch fl r1 (fun st1 => k (set_cap n (m_pos st) (m_pos st1) st1)) st
  | Rep lo hi greedy r1 =>
      rep_loop (rmatch fl r1) lo greedy k
        (match hi with Some h => h | None => lo + String.length (m_rest st) end)%nat
        O st
  | Bol => if at_bol fl st then k st else None
  | Eol => if at_eol fl st then k st else None
  | WordB => if at_wordb st then k st else None
  | Ahead r1 =>
      match rmatch fl r1 Some st with
      | Some _ => k st
      | None => None
      end
  end.

(** A match object: span and groups. *)
Record mobj := MObj { m_start : nat; m_end : nat; m_groups : list (nat * (nat * nat)) }.

Definition try_at (fl : flags) (r : regex) (pos : nat) (prev : option ascii) (rest : string)
  : option mobj :=
  match rmatch fl r Some (MState pos prev rest []) with
  | Some st => Some (MObj pos (m_pos st) (m_caps st))
  | None => None
  end.

(** [re.match]: at the start of the subject only. *)
Definition re_match (fl : flags) (r : regex) (s : string) : option mobj :=
  try_at fl r 0 None s.

Fixpoint search_from (fl : flags) (r : regex) (pos : nat) (prev : option ascii)
  (rest : string) : option mobj :=
  match try_at fl r pos prev rest with
  | Some m => Some m
  | None =>
      match rest with
      | String c t => search_from fl r (S pos) (Some c) t
      | EmptyString => None
      end
  end.

(** [re.search]: the leftmost match. *)
Definition re_search (fl : flags) (r : regex) (s : string) : option mobj :=
  search_from fl r 0 None s.

Definition found (o : option mobj) : bool :=
  match o with Some _ => true | None => false end.

Fixpoint cap_lookup (n : nat) (caps : list (nat * (nat * nat))) : option (nat * nat) :=
  match caps with
  | [] => None
  | (g, span) :: tl => if (g =? n)%nat then Some span else cap_lookup n tl
  end.

(** [m.group(0)] and [m.group(n)] on subject [s]; a group that did not
    take part yields the empty string, as in [findall]. *)
Definition group0 (s : string) (m : mobj) : string := Py.slice (m_start m) (m_end m) s.

Definition group (n : nat) (s : string) (m : mobj) : string :=
  match cap_lookup n (m_groups m) with
  | Some (a, b) => Py.slice a b s
  | None => EmptyString
  end.

Fixpoint has_group (r : regex) : bool :=
  match r with
  | Grp _ _ => true
  | Seq r1 r2 | Alt r1 r2 => has_group r1 || has_group r2
  | Rep _ _ _ r1 | Ahead r1 => has_group r1
  | _ => false
  end.

(** All non-overlapping matches, left to right.  [skip] counts the
    characters of the previous match still to be passed over. *)
Fixpoint matches_from (fl : flags) (r : regex) (pos : nat) (prev : option ascii)
  (rest : string) (skip : nat) : list mobj :=
  match skip with
  | S skip' =>
      match rest with
      | String c t => matches_from fl r (S pos) (Some c) t skip'
      | EmptyString => []
      end
  | O =>
      match try_at fl r pos prev rest with
      | Some m =>
          m :: match rest with
               | String c t =>
                   matches_from fl r (S pos) (Some c) t (m_end m - pos - 1)
               | EmptyString => []
               end
      | None =>
          match rest with
          | String c t => matches_from fl r (S pos) (Some c) t O
          | EmptyString => []
          end
      end
  end.

(** [re.findall] for a pattern with at most one group: the group's text
    when the pattern has one, the whole match otherwise. *)
Definition re_findall (fl : flags) (r : regex) (s : string) : list string :=
  List.map (if has_group r then group 1 s else group0 s)
           (matches_from fl r 0 None s O).

(** [re.sub] with a literal replacement. *)
Fixpoint sub_from (fl : flags) (r : regex) (repl : string) (pos : nat)
  (prev : option ascii) (rest : string) (skip : nat) : string :=
  match skip with
  | S skip' =>
      match rest with
      | String c t => sub_from fl r repl (S pos) (Some c) t skip'
      | EmptyString => EmptyString
      end
  | O =>
      match try_at fl r pos prev rest with
      | Some m =>
          repl ++
          match rest with
          | String c t =>
              if (m_end m =? pos)%nat
              then String c (sub_from fl r repl (S pos) (Some c) t O)
              else sub_from fl r repl (S pos) (Some c) t (m_end m - pos - 1)
          | EmptyString => EmptyString
          end
      | None =>
          match rest with
          | String c t => String c (sub_from fl r repl (S pos) (Some c) t O)
          | EmptyString => EmptyString
          end
      end
  end.

Definition re_sub (fl : flags) (r : regex) (repl : string) (s : string) : string :=
  sub_from fl r repl 0 None s O.

(** *** Pattern syntax *)

Definition star (r : regex) : regex := Rep 0 None true r.      (** [r*] *)
Definition plus (r : regex) : regex := Rep 1 None true r.      (** [r+] *)
Definition opt (r : regex) : regex := Rep 0 (Some 1) true r.   (** [r?] *)
Definition lazy_star (r : regex) : regex := Rep 0 None false r. (** [r*?] *)
Definition times (lo hi : nat) (r : regex) : regex := Rep lo (Some hi) true r. (** [r{lo,hi}] *)
Definition exactly (n : nat) (r : regex) : regex := Rep n (Some n) true r.     (** [r{n}] *)
Definition at_least (n : nat) (r : regex) : regex := Rep n None true r.        (** [r{n,}] *)

Fixpoint str (s : string) : regex :=                           (** a literal string *)
  match s with
  | EmptyString => Eps
  | String c EmptyString => Lit c
  | String c t => Seq (Lit c) (str t)
  end.

Fixpoint cat (l : list regex) : regex :=
  match l with
  | [] => Eps
  | [r] => r
  | r :: tl => Seq r (cat tl)
  end.

Fixpoint alt (l : list regex) : regex :=
  match l with
  | [] => Eps
  | [r] => r
  | r :: tl => Alt r (alt tl)
  end.

Definition d : regex := Set_ false [IDigit].                    (** [\d] *)
Definition w : regex := Set_ false [IWord].                     (** [\w] *)
Definition s_ : regex := Set_ false [ISpace].                   (** [\s] *)
Definition set (items : list item) : regex := Set_ false items.
Definition nset (items : list item) : regex := Set_ true items.
Definition ch (c : ascii) : item := IChar c.
Definition rg (lo hi : ascii) : item := IRange lo hi.

End Re.

(* ===================================================================== *)
(** ** Scores *)
(* ===================================================================== *)

Local Open Scope Q_scope.

(** [a > b] on scores, as a boolean. *)
Definition Qgtb (a b : Q) : bool := negb (Qle_bool a b).

(** [round(x, 2)] on an exact rational: nearest hundredth, halves to even. *)
Definition round2 (x : Q) : Q :=
  let n := (Qnum x * 100)%Z in
  let dn := Zpos (Qden x) in
  let q := (n / dn)%Z in
  let r := (n mod dn)%Z in
  let up := match (2 * r ?= dn)%Z with
            | Lt => false
            | Gt => true
            | Eq => Z.odd q
            end in
  ((if up then q + 1 else q)%Z # 100).

(** [fields[key] = v] when [o] is a hit [v], nothing otherwise. *)
Definition set_if {A} (key : string) (o : option A) (fields : gmap string A) : gmap string A :=
  match o with
  | Some v => <[key := v]> fields
  | None => fields
  end.

(** The selection step shared by the candidate loops of Tier-B and of the
    regex pass:
    [if confidence > best_confidence: best_match, best_confidence = value, confidence].
    A rule that did not match proposes nothing. *)
Definition keep_best (best : option string * Q) (candidate : option (string * Q))
  : option string * Q :=
  match candidate with
  | Some (value, confidence) =>
      if Qgtb confidence (snd best) then (Some value, confidence) else best
  | None => best
  end.

(** The result envelope of a strategy: ['extracted_fields'] and
    ['confidence_scores'], and the method label. *)
Record ai_results := AIResults {
  extracted_fields : gmap string string;
  confidence_scores : gmap string Q;
  processing_method : string
}.

(* ===================================================================== *)
(** ** lightweight_ai.py: LightweightInvoiceProcessor *)
(* ===================================================================== *)

Module Lightweight.
Import Re.

(** The [patterns] table of [extract_with_lightweight_ai]: per field, the
    rules in order, each with its base confidence. *)

Definition vendor_name_patterns : list (regex * Q) :=
  [ (* (?:from|bill\s+to|vendor|company)[:\s]+([A-Za-z\s]{3,30}) *)
    (cat [alt [str "from"; cat [str "bill"; plus s_; str "to"]; str "vendor";
               str "company"];
          plus (set [ch ":"; ISpace]);
          Grp 1 (times 3 30 (set [rg "A" "Z"; rg "a" "z"; ISpace]))], 0.8);
    (* ^([A-Za-z\s&]{3,30})(?:\s*\n|\s*address) *)
    (cat [Bol;
          Grp 1 (times 3 30 (set [rg "A" "Z"; rg "a" "z"; ISpace; ch "&"]));
          alt [cat [star s_; Lit newline]; cat [star s_; str "address"]]], 0.7);
    (* ([A-Z][a-z]+(?:\s+[A-Z][a-z]+)* )\s*\n *)
    (cat [Grp 1 (cat [set [rg "A" "Z"]; plus (set [rg "a" "z"]);
                      star (cat [plus s_; set [rg "A" "Z"]; plus (set [rg "a" "z"])])]);
          star s_; Lit newline], 0.6) ].

Definition invoice_number_patterns : list (regex * Q) :=
  [ (* (?:invoice\s+(?:number|#|no\.?)[:\s]* )([\w\-]+) *)
    (cat [str "invoice"; plus s_;
          alt [str "number"; Lit "#"; cat [str "no"; opt (Lit ".")]];
          star (set [ch ":"; ISpace]);
          Grp 1 (plus (set [IWord; ch "-"]))], 0.9);
    (* (?:inv\.?\s*#?\s* )[:\s]*([\w\-]+) *)
    (cat [str "inv"; opt (Lit "."); star s_; opt (Lit "#"); star s_;
          star (set [ch ":"; ISpace]);
          Grp 1 (plus (set [IWord; ch "-"]))], 0.8);
    (* #\s*(INV[\w\-]+) *)
    (cat [Lit "#"; star s_;
          Grp 1 (cat [str "INV"; plus (set [IWord; ch "-"])])], 0.9) ].

(** [([0-9,]+\.?[0-9]* )] *)
Definition amount_group : regex :=
  Grp 1 (cat [plus (set [rg "0" "9"; ch ","]); opt (Lit "."); star (set [rg "0" "9"])]).

Definition total_amount_patterns : list (regex * Q) :=
  [ (* (?:total\s*amount?\s*(?:due)?[:\s]* )\$?([0-9,]+\.?[0-9]* ) *)
    (cat [str "total"; star s_; str "amoun"; opt (Lit "t"); star s_;
          opt (str "due"); star (set [ch ":"; ISpace]);
          opt (Lit "$"); amount_group], 0.9);
    (* (?:amount\s*due[:\s]* )\$?([0-9,]+\.?[0-9]* ) *)
    (cat [str "amount"; star s_; str "due"; star (set [ch ":"; ISpace]);
          opt (Lit "$"); amount_group], 0.8);
    (* (?:total[:\s]* )\$?([0-9,]+\.?[0-9]* ) *)
    (cat [str "total"; star (set [ch ":"; ISpace]); opt (Lit "$"); amount_group], 0.7);
    (* \$([0-9,]+\.[0-9]{2})(?:\s*$|\s*\n) *)
    (cat [Lit "$";
          Grp 1 (cat [plus (set [rg "0" "9"; ch ","]); Lit ".";
                      exactly 2 (set [rg "0" "9"])]);
          alt [cat [star s_; Eol]; cat [star s_; Lit newline]]], 0.6) ].

Definition street_words : regex :=
  alt [str "street"; str "st"; str "avenue"; str "ave"; str "road"; str "rd";
       str "boulevard"; str "blvd"].

Definition vendor_address_patterns : list (regex * Q) :=
  [ (* (?:address[:\s]* )(.*?)(?:\n|$) *)
    (cat [str "address"; star (set [ch ":"; ISpace]);
          Grp 1 (lazy_star Any);
          alt [Lit newline; Eol]], 0.8);
    (* ([0-9]+\s+[A-Za-z\s]+(?:street|st|avenue|ave|road|rd|boulevard|blvd).*?)(?:\n|$) *)
    (cat [Grp 1 (cat [plus (set [rg "0" "9"]); plus s_;
                      plus (set [rg "A" "Z"; rg "a" "z"; ISpace]);
                      street_words; lazy_star Any]);
          alt [Lit newline; Eol]], 0.7);
    (* ([A-Za-z\s]+,\s*[A-Z]{2}\s*[0-9]{5}) *)
    (Grp 1 (cat [plus (set [rg "A" "Z"; rg "a" "z"; ISpace]); Lit ","; star s_;
                 exactly 2 (set [rg "A" "Z"]); star s_;
                 exactly 5 (set [rg "0" "9"])]), 0.9) ].

Definition patterns : list (string * list (regex * Q)) :=
  [ ("vendor_name", vendor_name_patterns);
    ("invoice_number", invoice_number_patterns);
    ("total_amount", total_amount_patterns);
    ("vendor_address", vendor_address_patterns) ].

(** The [confidence_modifiers] table of [_calculate_confidence]:
    per field, the value patterns and the boost each one earns. *)
Definition confidence_modifiers (field_name : string) : option (list regex * Q) :=
  if String.eqb field_name "invoice_number" then
    (* 'INV', '[0-9]{4}', '-' *)
    Some ([str "INV"; exactly 4 (set [rg "0" "9"]); Lit "-"], 0.1)
  else if String.eqb field_name "total_amount" then
    (* '\.[0-9]{2}$', '^[0-9,]+' *)
    Some ([cat [Lit "."; exactly 2 (set [rg "0" "9"]); Eol];
           cat [Bol; plus (set [rg "0" "9"; ch ","])]], 0.15)
  else if String.eqb field_name "vendor_name" then
    (* '^[A-Z]', '[a-z]{3,}' *)
    Some ([cat [Bol; set [rg "A" "Z"]]; at_least 3 (set [rg "a" "z"])], 0.05)
  else None.

(** [_calculate_confidence(field_name, value, full_text, base_confidence)] *)
Definition _calculate_confidence (field_name value full_text : string)
  (base_confidence : Q) : Q :=
  let confidence := base_confidence in
  (* Apply field-specific modifiers *)
  let confidence :=
    match confidence_modifiers field_name with
    | Some (pats, boost) =>
        fold_left (fun conf pattern =>
                     if found (re_search no_flags pattern value)
                     then conf + boost else conf)
                  pats confidence
    | None => confidence
    end in
  (* General validation *)
  let confidence :=
    if (Py.len (Py.strip value) <? 2)%nat then confidence * 0.5
    else if (100 <? Py.len (Py.strip value))%nat then confidence * 0.7
    else confidence in
  Qmin confidence 1.0.

(** [_clean_extracted_value(field_name, value)] *)
Definition _clean_extracted_value (field_name value : string) : string :=
  (* Remove extra whitespace *)
  let value := re_sub no_flags (plus s_) " " (Py.strip value) in
  if String.eqb field_name "total_amount" then
    let value := re_sub no_flags (nset [IDigit; ch "."]) "" value in
    if negb (Py.contains "." value) && (2 <? Py.len value)%nat
    then Py.take (Py.len value - 2) value ++ "." ++ Py.drop (Py.len value - 2) value
    else value
  else if String.eqb field_name "vendor_name" then
    Py.join " " (List.map Py.capitalize (Py.split_ws value))
  else if String.eqb field_name "invoice_number" then
    re_sub no_flags (plus s_) "" (Py.upper value)
  else value.

(** The candidate that rule [(pattern, base_confidence)] proposes on
    [clean_text]: the stripped group and its confidence. *)
Definition rule_candidate (field_name text clean_text : string) (rule : regex * Q)
  : option (string * Q) :=
  let '(pattern, base_confidence) := rule in
  match re_search ICASE_MULTILINE pattern clean_text with
  | Some m =>
      let value := Py.strip (group 1 clean_text m) in
      (* Apply confidence modifiers based on context *)
      Some (value, _calculate_confidence field_name value text base_confidence)
  | None => None
  end.

(** One pass of the inner loop of [extract_with_lightweight_ai], updating
    [(best_match, best_confidence)]. *)
Definition try_rule (field_name text clean_text : string)
  (best : option string * Q) (rule : regex * Q) : option string * Q :=
  keep_best best (rule_candidate field_name text clean_text rule).

Definition best_candidate (field_name text clean_text : string)
  (field_patterns : list (regex * Q)) : option string * Q :=
  fold_left (try_rule field_name text clean_text) field_patterns (None, 0.0).

Definition clean_text (text : string) : string :=
  re_sub no_flags (plus s_) " " (Py.strip (Py.lower text)).

(** One pass of the outer loop of [extract_with_lightweight_ai]: the entry
    [(field_name, field_patterns)] of the table, updating
    [(extracted_fields, confidence_scores)]. *)
Definition field_step (text : string) (acc : gmap string string * gmap string Q)
  (entry : string * list (regex * Q)) : gmap string string * gmap string Q :=
  let '(field_name, field_patterns) := entry in
  match best_candidate field_name text (clean_text text) field_patterns with
  | (Some best_match, best_confidence) =>
      if Py.truthy best_match then
        (* Clean up the extracted value *)
        (<[field_name := _clean_extracted_value field_name best_match]> (fst acc),
         <[field_name := round2 best_confidence]> (snd acc))
      else acc
  | (None, _) => acc
  end.

(** [extract_with_lightweight_ai(text)] *)
Definition extract_with_lightweight_ai (text : string) : ai_results :=
  let '(fields, scores) := fold_left (field_step text) patterns (∅, ∅) in
  AIResults fields scores "lightweight_nlp".

End Lightweight.

(* ===================================================================== *)
(** ** transformer_ai.py: TransformerInvoiceProcessor *)
(* ===================================================================== *)

Module Transformer.
Import Re.

(** An entity of the NER pipeline: ['word'], ['entity_group'], ['score']. *)
Record entity := Entity { word : string; entity_group : string; score : Q }.

(** An answer of the QA pipeline: ['answer'], ['score']. *)
Record qa_answer := Answer { answer : string; answer_score : Q }.

(** The processor object.  [ner_pipeline] and [qa_pipeline] are [None]
    when the model could not be loaded; a pipeline call returns [None]
    when it raises. *)
Record processor := Processor {
  use_lightweight : bool;
  ner_pipeline : option (string -> option (list entity));
  qa_pipeline : option (string -> string -> option qa_answer)
}.

(** [\d{1,2}[\/\-]\d{1,2}[\/\-]\d{2,4}] *)
Definition numeric_date : regex :=
  cat [times 1 2 d; set [ch "/"; ch "-"]; times 1 2 d; set [ch "/"; ch "-"]; times 2 4 d].

(** [\b\w+\s+\d{1,2},?\s+\d{4}\b] *)
Definition verbal_date : regex :=
  cat [WordB; plus w; plus s_; times 1 2 d; opt (Lit ","); plus s_; exactly 4 d; WordB].

(** [[A-Z0-9\-\_]{3,20}] *)
Definition invoice_token : regex :=
  times 3 20 (set [rg "A" "Z"; rg "0" "9"; ch "-"; ch "_"]).

(** [self.fallback_patterns]: per field, the rules in order. *)

Definition invoice_number_patterns : list regex :=
  [ (* (?:invoice|inv)[\s#:]*([A-Z0-9\-\_]{3,20}) *)
    cat [alt [str "invoice"; str "inv"]; star (set [ISpace; ch "#"; ch ":"]);
         Grp 1 invoice_token];
    (* (?:number|no|#)[\s:]*([A-Z0-9\-\_]{3,20}) *)
    cat [alt [str "number"; str "no"; Lit "#"]; star (set [ISpace; ch ":"]);
         Grp 1 invoice_token];
    (* (\b[A-Z]{2,4}\-\d{3,8}\b) *)
    Grp 1 (cat [WordB; times 2 4 (set [rg "A" "Z"]); Lit "-"; times 3 8 d; WordB]) ].

Definition total_amount_patterns : list regex :=
  [ (* (?:total|amount\s+due|grand\s+total)[\s:$]*([0-9,]+\.?\d{0,2}) *)
    cat [alt [str "total"; cat [str "amount"; plus s_; str "due"];
              cat [str "grand"; plus s_; str "total"]];
         star (set [ISpace; ch ":"; ch "$"]);
         Grp 1 (cat [plus (set [rg "0" "9"; ch ","]); opt (Lit "."); times 0 2 d])];
    (* \$([0-9,]+\.?\d{2}) *)
    cat [Lit "$";
         Grp 1 (cat [plus (set [rg "0" "9"; ch ","]); opt (Lit "."); exactly 2 d])];
    (* ([0-9,]+\.?\d{2})(?=\s*$) *)
    cat [Grp 1 (cat [plus (set [rg "0" "9"; ch ","]); opt (Lit "."); exactly 2 d]);
         Ahead (cat [star s_; Eol])] ].

Definition invoice_date_patterns : list regex :=
  [ (* (?:date|invoice\s+date)[\s:]*(\d{1,2}[\/\-]\d{1,2}[\/\-]\d{2,4}) *)
    cat [alt [str "date"; cat [str "invoice"; plus s_; str "date"]];
         star (set [ISpace; ch ":"]); Grp 1 numeric_date];
    (* (\d{1,2}[\/\-]\d{1,2}[\/\-]\d{2,4}) *)
    Grp 1 numeric_date;
    (* (\b\w+\s+\d{1,2},?\s+\d{4}\b) *)
    Grp 1 verbal_date ].

Definition due_date_patterns : list regex :=
  [ (* (?:due|payment\s+due)[\s:]*(\d{1,2}[\/\-]\d{1,2}[\/\-]\d{2,4}) *)
    cat [alt [str "due"; cat [str "payment"; plus s_; str "due"]];
         star (set [ISpace; ch ":"]); Grp 1 numeric_date];
    (* (?:due\s+date)[\s:]*(\d{1,2}[\/\-]\d{1,2}[\/\-]\d{2,4}) *)
    cat [str "due"; plus s_; str "date";
         star (set [ISpace; ch ":"]); Grp 1 numeric_date] ].

Definition fallback_patterns : list (string * list regex) :=
  [ ("invoice_number", invoice_number_patterns);
    ("total_amount", total_amount_patterns);
    ("invoice_date", invoice_date_patterns);
    ("due_date", due_date_patterns) ].

(** [context_keywords] of [_calculate_context_confidence] *)
Definition context_keywords (field_type : string) : option (list string) :=
  if String.eqb field_type "invoice_number" then Some ["invoice"; "number"; "inv"; "#"]
  else if String.eqb field_type "total_amount" then Some ["total"; "amount"; "due"; "$"; "sum"]
  else if String.eqb field_type "invoice_date" then Some ["date"; "invoice"; "issued"]
  else if String.eqb field_type "due_date" then Some ["due"; "payment"; "deadline"]
  else if String.eqb field_type "vendor_name" then Some ["from"; "company"; "vendor"]
  else None.

(** [_calculate_context_confidence(field_type, value, text)], with
    [str.lower()] as the parameter [lower].  Python's lower-casing is not
    always character by character: outside ASCII it can change the length
    of a text (U+0130 becomes two characters), and the code uses the offset
    it finds in the lower-cased text to slice the text itself. *)
Definition context_confidence_with (lower : string -> string)
  (field_type value text : string) : Q :=
  (* Find the position of the value in text *)
  match Py.find (lower text) (lower value) with
  | None => 0.5
  | Some value_pos =>
      (* Get context around the value *)
      let start := (value_pos - 50)%nat in
      let end_ := Nat.min (Py.len text) (value_pos + Py.len value + 50) in
      let context := lower (Py.slice start end_ text) in
      match context_keywords field_type with
      | Some keywords =>
          let keyword_count :=
            List.length (List.filter (fun keyword => Py.contains keyword context) keywords) in
          Qmin 1.0 (0.5 + inject_Z (Z.of_nat keyword_count) * 0.2)
      | None => 0.5
      end
  end.

(** The scorer on the texts of this development: 8-bit characters read as
    ASCII, lower-cased character by character. *)
Definition _calculate_context_confidence (field_type value text : string) : Q :=
  context_confidence_with Py.lower field_type value text.

(** The candidate that rule number [i] of [n] proposes on [text]: the
    first match and the average of the rule's priority and the context
    score. *)
Definition pattern_candidate (field_type text : string) (n : nat) (rule : nat * regex)
  : option (string * Q) :=
  let '(i, pattern) := rule in
  match re_findall ICASE pattern text with
  | first :: _ =>
      (* Earlier patterns = higher confidence *)
      let pattern_confidence := inject_Z (Z.of_nat (n - i)) / inject_Z (Z.of_nat n) in
      let context_confidence := _calculate_context_confidence field_type first text in
      Some (first, (pattern_confidence + context_confidence) / 2)
  | [] => None
  end.

(** One pass of the inner loop of [_extract_with_enhanced_regex], updating
    [(best_match, best_confidence)]. *)
Definition try_pattern (field_type text : string) (n : nat)
  (best : option string * Q) (rule : nat * regex) : option string * Q :=
  keep_best best (pattern_candidate field_type text n rule).

(** [enumerate(patterns)] *)
Definition enumerate {A} (l : list A) : list (nat * A) :=
  combine (List.seq 0 (List.length l)) l.

Definition best_pattern_match (field_type text : string) (patterns : list regex)
  : option string * Q :=
  fold_left (try_pattern field_type text (List.length patterns))
            (enumerate patterns) (None, 0).

(** One pass of the outer loop of [_extract_with_enhanced_regex]. *)
Definition regex_step (text : string) (results : gmap string (string * Q))
  (entry : string * list regex) : gmap string (string * Q) :=
  let '(field_type, patterns) := entry in
  match best_pattern_match field_type text patterns with
  | (Some best_match, best_confidence) =>
      if Py.truthy best_match
      then <[field_type := (best_match, best_confidence)]> results
      else results
  | (None, _) => results
  end.

(** [_extract_with_enhanced_regex(text)]: field -> (value, confidence). *)
Definition _extract_with_enhanced_regex (text : string) : gmap string (string * Q) :=
  fold_left (regex_step text) fallback_patterns ∅.

(** [[\d,]+\.?\d*] *)
Definition amount_shape : regex :=
  cat [plus (set [IDigit; ch ","]); opt (Lit "."); star d].

(** [conf.get(key, 0)] *)
Definition get0 (conf : gmap string Q) (key : string) : Q :=
  match conf !! key with Some c => c | None => 0 end.

(** [key not in fields] *)
Definition absent {A} (fields : gmap string A) (key : string) : bool :=
  match fields !! key with Some _ => false | None => true end.

(** The body of the entity loop of [_extract_with_ner]. *)
Definition ner_step (acc : gmap string string * gmap string Q) (e : entity)
  : gmap string string * gmap string Q :=
  let '(fields, confidence) := acc in
  let entity_text := word e in
  let entity_type := entity_group e in
  if String.eqb entity_type "ORG" || String.eqb entity_type "ORGANIZATION" then
    if absent fields "vendor_name" || Qgtb (score e) (get0 confidence "vendor_name")
    then (<["vendor_name" := entity_text]> fields,
          <["vendor_name" := score e]> confidence)
    else acc
  else if String.eqb entity_type "MONEY" || String.eqb entity_type "CARDINAL" then
    (* Check if it looks like a monetary amount *)
    if found (re_search no_flags amount_shape entity_text) then
      if absent fields "total_amount" || Qgtb (score e) (get0 confidence "total_amount")
      then (<["total_amount" :=
                 re_sub no_flags (nset [IDigit; ch ","; ch "."]) "" entity_text]> fields,
            (* Lower confidence for NER amounts *)
            <["total_amount" := score e * 0.8]> confidence)
      else acc
    else acc
  else if String.eqb entity_type "DATE" then
    if absent fields "invoice_date" || Qgtb (score e) (get0 confidence "invoice_date")
    then (<["invoice_date" := entity_text]> fields,
          <["invoice_date" := score e]> confidence)
    else acc
  else acc.

(** [range(0, n, k)] *)
Definition range_step (n k : nat) : list nat :=
  List.map (fun j => j * k)%nat (List.seq 0 ((n + k - 1) / k)).

(** [[text[i:i+max_length] for i in range(0, len(text), max_length)]] *)
Definition chunks (text : string) : list string :=
  let max_length := 512%nat in
  List.map (fun i => Py.slice i (i + max_length) text) (range_step (Py.len text) max_length).

(** The entities of all chunks, [None] as soon as a pipeline call raises. *)
Fixpoint all_entities (ner : string -> option (list entity)) (cs : list string)
  : option (list entity) :=
  match cs with
  | [] => Some []
  | chunk :: tl =>
      match ner chunk with
      | None => None
      | Some entities =>
          match all_entities ner tl with
          | None => None
          | Some more => Some (entities ++ more)%list
          end
      end
  end.

(** [_extract_with_ner(text)]: the ['fields'] and ['confidence'] maps. *)
Definition _extract_with_ner (ner : string -> option (list entity)) (text : string)
  : gmap string string * gmap string Q :=
  match all_entities ner (chunks text) with
  | Some entities => fold_left ner_step entities (∅, ∅)
  | None => (∅, ∅)          (* except Exception *)
  end.

(** [_post_process_qa_answer(field_type, answer)] *)
Definition _post_process_qa_answer (field_type answer : string) : option string :=
  let answer := Py.strip answer in
  if String.eqb field_type "invoice_number" then
    match re_search no_flags invoice_token (Py.upper answer) with
    | Some m => Some (group0 (Py.upper answer) m)
    | None => None
    end
  else if String.eqb field_type "total_amount" then
    let a := Py.remove_char "," answer in
    match re_search no_flags amount_shape a with
    | Some m => Some (group0 a m)
    | None => None
    end
  else if String.eqb field_type "invoice_date" || String.eqb field_type "due_date" then
    if found (re_search no_flags numeric_date answer) then Some answer
    else if found (re_search no_flags verbal_date answer) then Some answer
    else None
  else if String.eqb field_type "vendor_name" || String.eqb field_type "vendor_address" then
    if (2 <? Py.len answer)%nat && (Py.len answer <? 100)%nat then Some answer else None
  else if (0 <? Py.len answer)%nat then Some answer else None.

(** [questions] of [_extract_with_qa] *)
Definition questions : list (string * string) :=
  [ ("invoice_number", "What is the invoice number?");
    ("total_amount", "What is the total amount or total due?");
    ("invoice_date", "What is the invoice date?");
    ("due_date", "What is the due date or payment due date?");
    ("vendor_name", "What is the company name or vendor name?");
    ("vendor_address", "What is the company address?") ].

(** The body of the question loop of [_extract_with_qa]; the model is
    called on the question and the first 2000 characters of the text
    ([max_answer_len] is the model's own business). *)
Definition qa_step (qa : string -> string -> option qa_answer) (text : string)
  (results : gmap string (string * Q)) (q : string * string)
  : gmap string (string * Q) :=
  let '(field, question) := q in
  match qa question (Py.slice 0 2000 text) with
  | Some a =>
      (* Filter out low-confidence or nonsensical answers *)
      if Qgtb (answer_score a) 0.1 && (0 <? Py.len (Py.strip (answer a)))%nat then
        match _post_process_qa_answer field (answer a) with
        | Some processed_answer =>
            if Py.truthy processed_answer
            then <[field := (processed_answer, answer_score a)]> results
            else results
        | None => results
        end
      else results
  | None => results          (* except Exception: continue *)
  end.

(** [_extract_with_qa(text)] *)
Definition _extract_with_qa (qa : string -> string -> option qa_answer) (text : string)
  : gmap string (string * Q) :=
  fold_left (qa_step qa text) questions ∅.

(** [^\d{1,10}(,\d{3})*(\.\d{2})?$] *)
Definition valid_amount : regex :=
  cat [Bol; times 1 10 d; star (Grp 1 (cat [Lit ","; exactly 3 d]));
       opt (Grp 2 (cat [Lit "."; exactly 2 d])); Eol].

(** The body of the loop of [_validate_and_enhance_fields]: the
    validated value of [field], [None] when the candidate is dropped. *)
Definition validate_field (field value : string) : option string :=
  if String.eqb field "total_amount" then
    (* Clean and validate amounts *)
    let clean_amount := re_sub no_flags (nset [IDigit; ch ","; ch "."]) "" value in
    if found (re_match no_flags valid_amount clean_amount) then Some clean_amount else None
  else if String.eqb field "invoice_date" || String.eqb field "due_date" then
    (* Validate dates *)
    if found (re_search no_flags numeric_date value) then Some value else None
  else if String.eqb field "invoice_number" then
    (* Validate invoice numbers *)
    let clean_invoice := re_sub no_flags (nset [IWord; ch "-"]) "" value in
    if (3 <=? Py.len clean_invoice)%nat then Some clean_invoice else None
  else
    (* General validation *)
    if (0 <? Py.len (Py.strip value))%nat then Some (Py.strip value) else None.

(** [_validate_and_enhance_fields(fields, text)] *)
Definition _validate_and_enhance_fields (fields : gmap string string) (text : string)
  : gmap string string :=
  map_imap validate_field fields.

(** The body of the QA merge loop of [extract_with_transformers]. *)
Definition merge_qa (field : string) (data : string * Q)
  (acc : gmap string string * gmap string Q) : gmap string string * gmap string Q :=
  if absent (fst acc) field || Qgtb (snd data) (get0 (snd acc) field)
  then (<[field := fst data]> (fst acc), <[field := snd data]> (snd acc))
  else acc.

(** The body of the regex merge loop of [extract_with_transformers]. *)
Definition merge_regex (field : string) (data : string * Q)
  (acc : gmap string string * gmap string Q) : gmap string string * gmap string Q :=
  if absent (fst acc) field
  then (<[field := fst data]> (fst acc), <[field := snd data]> (snd acc))
  else acc.

(** [extract_with_transformers(text)] *)
Definition extract_with_transformers (self : processor) (text : string) : ai_results :=
  (* Use lightweight processor if heavy AI isn't available *)
  if use_lightweight self then Lightweight.extract_with_lightweight_ai text
  else
    (* Method 1: Named Entity Recognition *)
    let acc :=
      match ner_pipeline self with
      | Some ner => _extract_with_ner ner text
      | None => (∅, ∅)
      end in
    (* Method 2: Question Answering approach *)
    let acc :=
      match qa_pipeline self with
      | Some qa => map_fold merge_qa acc (_extract_with_qa qa text)
      | None => acc
      end in
    (* Method 3: Enhanced regex fallback with AI confidence scoring *)
    let acc := map_fold merge_regex acc (_extract_with_enhanced_regex text) in
    (* Post-process and validate results *)
    let validated_results := _validate_and_enhance_fields (fst acc) text in
    AIResults validated_results (snd acc) "transformers_ai".

End Transformer.

(* ===================================================================== *)
(** ** pdf_processor.py: PDFProcessor *)
(* ===================================================================== *)

Module PDF.
Import Re.

(** The coordinator object.  [ai_processor] is the bound method
    [self.ai_processor.extract_with_transformers]; a call that raises
    is [None]. *)
Record PDFProcessor := { ai_processor : string -> option ai_results }.

(** [PDFProcessor.__init__]: the processor built around a
    [TransformerInvoiceProcessor]. *)
Definition init (p : Transformer.processor) : PDFProcessor :=
  {| ai_processor := fun text => Some (Transformer.extract_with_transformers p text) |}.

(** [\b[A-Za-z0-9._%+-]+@[A-Za-z0-9.-]+\.[A-Z|a-z]{2,}\b] *)
Definition email_pattern : regex :=
  cat [WordB;
       plus (set [rg "A" "Z"; rg "a" "z"; rg "0" "9"; ch "."; ch "_"; ch "%"; ch "+"; ch "-"]);
       Lit "@";
       plus (set [rg "A" "Z"; rg "a" "z"; rg "0" "9"; ch "."; ch "-"]);
       Lit ".";
       at_least 2 (set [rg "A" "Z"; ch "|"; rg "a" "z"]);
       WordB].

(** [\b\d{3}[-.]?\d{3}[-.]?\d{4}\b] *)
Definition phone_pattern : regex :=
  cat [WordB; exactly 3 d; opt (set [ch "-"; ch "."]); exactly 3 d;
       opt (set [ch "-"; ch "."]); exactly 4 d; WordB].

Definition address_patterns : list regex :=
  [ (* \b\d+\s+[A-Za-z0-9\s,]+\s+[A-Z]{2}\s+\d{5}\b *)
    cat [WordB; plus d; plus s_;
         plus (set [rg "A" "Z"; rg "a" "z"; rg "0" "9"; ISpace; ch ","]);
         plus s_; exactly 2 (set [rg "A" "Z"]); plus s_; exactly 5 d; WordB];
    (* \d+\s+[\w\s]+(?:Street|St|Avenue|Ave|Road|Rd|Drive|Dr|Lane|Ln|Boulevard|Blvd) *)
    cat [plus d; plus s_; plus (set [IWord; ISpace]);
         alt [str "Street"; str "St"; str "Avenue"; str "Ave"; str "Road"; str "Rd";
              str "Drive"; str "Dr"; str "Lane"; str "Ln"; str "Boulevard"; str "Blvd"]] ].

(** The first match of the first pattern of [pats] that matches at all:
    [for pattern in pats: m = re.findall(...); if m: ... m[0]; break]. *)
Fixpoint first_match (fl : flags) (pats : list regex) (text : string) : option string :=
  match pats with
  | [] => None
  | pattern :: tl =>
      match re_findall fl pattern text with
      | first :: _ => Some first
      | [] => first_match fl tl text
      end
  end.

(** [_extract_additional_fields(text)] *)
Definition _extract_additional_fields (text : string) : gmap string string :=
  let fields := ∅ in
  (* Extract email addresses *)
  let fields := set_if "vendor_email" (head (re_findall no_flags email_pattern text)) fields in
  (* Extract phone numbers *)
  let fields := set_if "vendor_phone" (head (re_findall no_flags phone_pattern text)) fields in
  (* Extract addresses (enhanced pattern) *)
  set_if "vendor_address" (first_match ICASE address_patterns text) fields.

(** [patterns] of [_fallback_extraction]: per field, the rules in order. *)

Definition basic_invoice_number_patterns : list regex :=
  [ (* (?:invoice|inv)[\s#:]*([A-Z0-9\-\_]{3,20}) *)
    cat [alt [str "invoice"; str "inv"]; star (set [ISpace; ch "#"; ch ":"]);
         Grp 1 Transformer.invoice_token];
    (* (?:number|no|#)[\s:]*([A-Z0-9\-\_]{3,20}) *)
    cat [alt [str "number"; str "no"; Lit "#"]; star (set [ISpace; ch ":"]);
         Grp 1 Transformer.invoice_token] ].

Definition basic_total_amount_patterns : list regex :=
  [ (* (?:total|amount\s+due)[\s:$]*([0-9,]+\.?\d{0,2}) *)
    cat [alt [str "total"; cat [str "amount"; plus s_; str "due"]];
         star (set [ISpace; ch ":"; ch "$"]);
         Grp 1 (cat [plus (set [rg "0" "9"; ch ","]); opt (Lit "."); times 0 2 d])];
    (* \$([0-9,]+\.?\d{2}) *)
    cat [Lit "$";
         Grp 1 (cat [plus (set [rg "0" "9"; ch ","]); opt (Lit "."); exactly 2 d])] ].

Definition basic_invoice_date_patterns : list regex :=
  [ (* (?:date|invoice\s+date)[\s:]*(\d{1,2}[\/\-]\d{1,2}[\/\-]\d{2,4}) *)
    cat [alt [str "date"; cat [str "invoice"; plus s_; str "date"]];
         star (set [ISpace; ch ":"]); Grp 1 Transformer.numeric_date] ].

Definition basic_patterns : list (string * list regex) :=
  [ ("invoice_number", basic_invoice_number_patterns);
    ("total_amount", basic_total_amount_patterns);
    ("invoice_date", basic_invoice_date_patterns);
    ("vendor_name", []) ].

(** The vendor-name scan of [_fallback_extraction] over the first lines. *)
Fixpoint vendor_line (lines : list string) : option string :=
  match lines with
  | [] => None
  | line :: tl =>
      let line := Py.strip line in
      if (3 <? Py.len line)%nat && (Py.len line <? 50)%nat
         && negb (found (re_search no_flags d line))
         && negb (Py.contains "invoice" (Py.lower line))
      then Some line
      else vendor_line tl
  end.

(** [_fallback_extraction(text)] *)
Definition _fallback_extraction (text : string) : gmap string string :=
  let fields :=
    fold_left (fun fields entry =>
                 let '(field, field_patterns) := entry in
                 set_if field (first_match ICASE field_patterns text) fields)
              basic_patterns ∅ in
  (* Get vendor name from document structure *)
  if Transformer.absent fields "vendor_name"
  then set_if "vendor_name" (vendor_line (take 10 (Py.split_on newline text))) fields
  else fields.

(** [[^\w\s\-\.\,\:\;\$\%\(\)\/]]: what [preprocess_text] removes. *)
Definition special_character : regex :=
  nset [IWord; ISpace; ch "-"; ch "."; ch ","; ch ":"; ch ";"; ch "$"; ch "%";
        ch "("; ch ")"; ch "/"].

(** [preprocess_text(text)] *)
Definition preprocess_text (text : string) : string :=
  (* Remove extra whitespace *)
  let text := re_sub no_flags (plus s_) " " text in
  (* Remove special characters but keep important ones *)
  let text := re_sub no_flags special_character "" text in
  Py.strip text.

(** [extract_invoice_fields(text)] *)
Definition extract_invoice_fields (self : PDFProcessor) (text : string) : gmap string string :=
  match ai_processor self text with
  | Some ai_results =>
      let fields := extracted_fields ai_results in
      (* Add additional fields using enhanced patterns for completeness *)
      let additional_fields := _extract_additional_fields text in
      additional_fields ∪ fields          (* fields.update(additional_fields) *)
  | None =>
      (* Fallback to basic pattern matching *)
      _fallback_extraction text
  end.

(** The value shapes tested by [_calculate_heuristic_confidence]. *)

(** [^[A-Z]{2,4}\-?\d{3,8}$] *)
Definition wellformed_invoice_number : regex :=
  cat [Bol; times 2 4 (set [rg "A" "Z"]); opt (Lit "-"); times 3 8 d; Eol].

(** [^[A-Z0-9\-]{5,}$] *)
Definition alphanumeric_invoice_number : regex :=
  cat [Bol; at_least 5 (set [rg "A" "Z"; rg "0" "9"; ch "-"]); Eol].

(** [^\d{1,6}(,\d{3})*\.\d{2}$] *)
Definition grouped_amount : regex :=
  cat [Bol; times 1 6 d; star (Grp 1 (cat [Lit ","; exactly 3 d])); Lit "."; exactly 2 d; Eol].

(** [^\d+\.?\d*$] *)
Definition bare_amount : regex :=
  cat [Bol; plus d; opt (Lit "."); star d; Eol].

(** [^\d{1,2}[\/\-]\d{1,2}[\/\-]\d{4}$] *)
Definition wellformed_date : regex :=
  cat [Bol; times 1 2 d; set [ch "/"; ch "-"]; times 1 2 d; set [ch "/"; ch "-"];
       exactly 4 d; Eol].

(** [_calculate_heuristic_confidence(field_name, field_value, text)] *)
Definition _calculate_heuristic_confidence (field_name field_value text : string) : Q :=
  if String.eqb field_name "invoice_number" then
    (* Higher confidence for well-formatted invoice numbers *)
    if found (re_match no_flags wellformed_invoice_number field_value) then 0.95
    else if found (re_match no_flags alphanumeric_invoice_number field_value) then 0.85
    else 0.70
  else if String.eqb field_name "total_amount" then
    (* Higher confidence for properly formatted amounts *)
    if found (re_match no_flags grouped_amount field_value) then 0.90
    else if found (re_match no_flags bare_amount field_value) then 0.80
    else 0.60
  else if String.eqb field_name "invoice_date" || String.eqb field_name "due_date" then
    (* Confidence based on date format recognition *)
    if found (re_match no_flags wellformed_date field_value) then 0.88
    else if found (re_search no_flags Transformer.verbal_date field_value) then 0.85
    else 0.70
  else if String.eqb field_name "vendor_name" then
    (* Confidence based on context and format *)
    if (15 <? Py.len field_value)%nat && negb (found (re_search no_flags d field_value))
    then 0.85
    else if (5 <? Py.len field_value)%nat then 0.75
    else 0.60
  else if String.eqb field_name "vendor_email" || String.eqb field_name "vendor_phone" then
    (* High confidence for well-formatted contact info *)
    0.90
  else
    (* Default confidence for other fields *)
    0.75.

(** [_calculate_basic_confidence(fields)] *)
Definition _calculate_basic_confidence (fields : gmap string string) : gmap string Q :=
  (fun _ => 0.70) <$> fields.

(** [get_confidence_scores(fields, text)] *)
Definition get_confidence_scores (self : PDFProcessor) (fields : gmap string string)
  (text : string) : gmap string Q :=
  match ai_processor self text with
  | Some ai_results =>
      let ai_confidence := confidence_scores ai_results in
      map_imap (fun field_name field_value =>
                  Some (match ai_confidence !! field_name with
                        | Some score => score
                        | None => _calculate_heuristic_confidence field_name field_value text
                        end))
               fields
  | None =>
      (* Fallback to basic confidence calculation *)
      _calculate_basic_confidence fields
  end.

End PDF.

(* ===================================================================== *)
(** ** The specification's side: what the documents say, stated on its own *)
(* ===================================================================== *)

Module Spec.

(** *** Currency normalization (Field Normalizer, Tier-B clean-up) *)

Definition digit_or_dot (c : ascii) : bool := Py.isdigit c || Ascii.eqb c ".".

Definition has_dot (s : string) : bool := Py.exists_str (fun c => Ascii.eqb c ".") s.

(** Insert a dot two characters from the end. *)
Definition cents (s : string) : string :=
  Py.take (Py.len s - 2) s ++ "." ++ Py.drop (Py.len s - 2) s.

(** "Strip all non-digit/non-dot characters; if no dot is present and the
    length exceeds 2, insert a dot two characters from the end." *)
Definition normalize_currency (raw : string) : string :=
  let kept := Py.filter_str digit_or_dot raw in
  if negb (has_dot kept) && (2 <? Py.len kept)%nat then cents kept else kept.

(** *** Candidate selection *)

(** [best] is the first of the highest-scored candidates of [cands]: it is
    the candidate at some index [i], no candidate scores higher, and every
    candidate before [i] scores strictly lower.  Nothing is kept only when
    no rule proposed a candidate. *)
Definition first_best (cands : list (option (string * Q))) (best : option string * Q)
  : Prop :=
  match fst best with
  | Some v =>
      exists i : nat,
        cands !! i = Some (Some (v, snd best))
        /\ forall (j : nat) v' c', cands !! j = Some (Some (v', c')) ->
             c' <= snd best /\ ((j < i)%nat -> c' < snd best)
  | None => forall c, In c cands -> c = None
  end.

(** *** Merge of the three passes of Tier-A *)

(** What a pass that returns a pair of dicts proposes for [key]. *)
Definition proposal (maps : gmap string string * gmap string Q) (key : string)
  : option (string * Q) :=
  match fst maps !! key with
  | Some v => Some (v, Transformer.get0 (snd maps) key)
  | None => None
  end.

(** The merge rule: of the entity pass [n] and the QA pass [a] the higher
    confidence wins, the entity pass on a tie; the regex pass [r] is
    consulted only when neither proposed anything. *)
Definition merged (n a r : option (string * Q)) : option (string * Q) :=
  match n, a with
  | Some (vn, cn), Some (va, ca) => if Qgtb ca cn then Some (va, ca) else Some (vn, cn)
  | Some x, None => Some x
  | None, Some y => Some y
  | None, None => r
  end.

(** The proposals of the three passes of [self] on [text] for [key]. *)
Definition ner_proposal (self : Transformer.processor) (text key : string)
  : option (string * Q) :=
  match Transformer.ner_pipeline self with
  | Some ner => proposal (Transformer._extract_with_ner ner text) key
  | None => None
  end.

Definition qa_proposal (self : Transformer.processor) (text key : string)
  : option (string * Q) :=
  match Transformer.qa_pipeline self with
  | Some qa => Transformer._extract_with_qa qa text !! key
  | None => None
  end.

Definition regex_proposal (text key : string) : option (string * Q) :=
  Transformer._extract_with_enhanced_regex text !! key.

(** Every key filled by a pass has a confidence recorded. *)
Definition keys_scored (acc : gmap string string * gmap string Q) : Prop :=
  forall key, is_Some (fst acc !! key) -> is_Some (snd acc !! key).

(** The body of a merge loop over a dict of proposals: [taken acc key data]
    decides whether the proposal replaces what [acc] holds under [key]. *)
Definition merge_with
  (taken : gmap string string * gmap string Q -> string -> string * Q -> bool)
  (key : string) (data : string * Q) (acc : gmap string string * gmap string Q)
  : gmap string string * gmap string Q :=
  if taken acc key data
  then (<[key := fst data]> (fst acc), <[key := snd data]> (snd acc))
  else acc.

(** *** Shaped substrings *)

(** The text of a match of [r]: the group when [r] has one, else all of it. *)
Definition match_text (r : Re.regex) (text : string) (m : Re.mobj) : string :=
  if Re.has_group r then Re.group 1 text m else Re.group0 text m.

(** The first (leftmost) [r]-shaped substring of [text]. *)
Definition leftmost (fl : Re.flags) (r : Re.regex) (text : string) : option string :=
  option_map (match_text r text) (Re.re_search fl r text).

(** The leftmost match of the first pattern, in order, that occurs in
    [text] at all. *)
Fixpoint first_of (fl : Re.flags) (pats : list Re.regex) (text : string) : option string :=
  match pats with
  | [] => None
  | r :: tl =>
      match leftmost fl r text with
      | Some v => Some v
      | None => first_of fl tl text
      end
  end.

(** *** Tier-B confidence *)

(** The length rule: halved below two characters, times 0.7 above one
    hundred, measured on the trimmed value. *)
Definition length_penalty (value : string) (confidence : Q) : Q :=
  if (Py.len (Py.strip value) <? 2)%nat then confidence * 0.5
  else if (100 <? Py.len (Py.strip value))%nat then confidence * 0.7
  else confidence.

(** The modifiers as the documents state them: one boost per field. *)
Definition stated_boost (field value : string) : Q :=
  if String.eqb field "invoice_number" then
    (* a digit run and a hyphen *)
    if Re.found (Re.re_search Re.no_flags (Re.exactly 4 (Re.set [Re.rg "0" "9"])) value)
       && Re.found (Re.re_search Re.no_flags (Re.Lit "-") value)
    then 0.1 else 0
  else if String.eqb field "total_amount" then
    (* a two-decimal currency tail *)
    if Re.found (Re.re_search Re.no_flags
                   (Re.cat [Re.Lit "."; Re.exactly 2 (Re.set [Re.rg "0" "9"]); Re.Eol]) value)
    then 0.15 else 0
  else if String.eqb field "vendor_name" then
    (* capitalization *)
    if Re.found (Re.re_search Re.no_flags (Re.cat [Re.Bol; Re.set [Re.rg "A" "Z"]]) value)
    then 0.05 else 0
  else 0.

Definition stated_confidence (field value : string) (base_confidence : Q) : Q :=
  Qmin (length_penalty value (base_confidence + stated_boost field value)) 1.

(** The modifiers as the code has them: the field's boost, once for each
    of the field's value patterns found in the value. *)
Definition boost_of (field : string) : Q :=
  match Lightweight.confidence_modifiers field with
  | Some (_, boost) => boost
  | None => 0
  end.

Definition pattern_hits (field value : string) : nat :=
  match Lightweight.confidence_modifiers field with
  | Some (pats, _) =>
      List.length (List.filter (fun pattern => Re.found (Re.re_search Re.no_flags pattern value))
                               pats)
  | None => 0
  end.

(** *** Context Scorer *)

(** [value] stands in [text] at offset [i], letter case ignored. *)
Definition occurs_at_ci (text value : string) (i : nat) : bool :=
  String.eqb (Py.lower (Py.slice i (i + Py.len value) text)) (Py.lower value).

(** The first case-insensitive occurrence of [value] in [text]. *)
Definition first_occurrence_ci (text value : string) : option nat :=
  List.find (occurs_at_ci text value) (List.seq 0 (S (Py.len text))).

(** The window: 50 characters before the occurrence at [pos] of a value of
    [n] characters, the occurrence, and 50 characters after it; a slice
    stops at the bounds of the text. *)
Definition window (text : string) (pos n : nat) : string :=
  Py.slice (pos - 50) (pos + n + 50) text.

(** [keyword] occurs somewhere in [ctx]. *)
Definition occurs (keyword ctx : string) : bool :=
  existsb (fun i => String.eqb (Py.slice i (i + Py.len keyword) ctx) keyword)
          (List.seq 0 (S (Py.len ctx))).

(** The number of keywords of the set that occur in [ctx]: a keyword
    counts once, however often it occurs. *)
Definition keyword_hit_count (keywords : list string) (ctx : string) : nat :=
  List.length (List.filter (fun keyword => occurs keyword ctx) keywords).

(** "Returns 0.5 when the value has no case-insensitive occurrence or the
    field has no keyword set; otherwise min(1.0, 0.5 + 0.2 x hits) over the
    lower-cased window", with the keywords present as hits. *)
Definition score_context (field value text : string) : Q :=
  match first_occurrence_ci text value, Transformer.context_keywords field with
  | Some pos, Some keywords =>
      Qmin 1 (0.5 + 0.2 * inject_Z (Z.of_nat
                (keyword_hit_count keywords (Py.lower (window text pos (Py.len value))))))
  | _, _ => 0.5
  end.

(** The occurrences of [keyword] in [ctx]: the offsets at which it stands. *)
Definition occurrences (keyword ctx : string) : nat :=
  List.length
    (List.filter (fun i => String.eqb (Py.slice i (i + Py.len keyword) ctx) keyword)
                 (List.seq 0 (S (Py.len ctx)))).

(** "Counts the occurrences of the field's fixed keywords in that window." *)
Definition occurrence_count (keywords : list string) (ctx : string) : nat :=
  list_sum (List.map (fun keyword => occurrences keyword ctx) keywords).

(** The scorer as the documents state it, every occurrence of a keyword
    being a hit. *)
Definition stated_score_context (field value text : string) : Q :=
  match first_occurrence_ci text value, Transformer.context_keywords field with
  | Some pos, Some keywords =>
      Qmin 1 (0.5 + 0.2 * inject_Z (Z.of_nat
                (occurrence_count keywords (Py.lower (window text pos (Py.len value))))))
  | _, _ => 0.5
  end.

(** The first offset at which the lower-cased [value] stands in the
    lower-cased [text], for a lower-casing [lower] of any kind. *)
Definition first_lowered_occurrence (lower : string -> string) (text value : string)
  : option nat :=
  List.find (fun i => String.eqb (Py.slice i (i + Py.len (lower value)) (lower text))
                                 (lower value))
            (List.seq 0 (S (Py.len (lower text)))).

End Spec.

(* ===================================================================== *)
(** ** learning_service.py: the list handling of LearningService

    A query is outside the model: a function takes what its query returned.
    The row that [update_model_training] changes is a mapped object of the
    session; its [training_data] is a plain [Column(JSON)] (models.py), so
    the attribute refers to a Python list object that the code can change
    in place, and the commit decides by comparison what it writes. *)
(* ===================================================================== *)

Module Learning.

(** A [ModelTraining] row in the session: the list objects by address,
    the object that the attribute [training_data] refers to ([None] for
    null), the object that was loaded for it, and [version]. *)
Record ModelTraining (E : Type) := Training {
  objects : gmap nat (list E);
  training_data : option nat;
  loaded_training_data : option nat;
  version : nat
}.

Arguments Training {E} _ _ _ _.
Arguments objects {E} _.
Arguments training_data {E} _.
Arguments loaded_training_data {E} _.
Arguments version {E} _.

(** [l[-n:]] for [n > 0] *)
Definition last_n {E} (n : nat) (l : list E) : list E := skipn (List.length l - n) l.

(** The elements of the list object at address [a]. *)
Definition list_at {E} (h : gmap nat (list E)) (a : nat) : list E :=
  match h !! a with Some l => l | None => [] end.

(** The elements of the list object that [r] refers to. *)
Definition deref {E} (h : gmap nat (list E)) (r : option nat) : option (list E) :=
  match r with Some a => h !! a | None => None end.

(** A new list object. *)
Definition new_list {E} (l : list E) (h : gmap nat (list E)) : nat * gmap nat (list E) :=
  let a := fresh (dom h) in (a, <[a := l]> h).

(** The row as the query loads it from a column that holds [stored]. *)
Definition load {E} (stored : list E) (v : nat) : ModelTraining E :=
  Training {[ 0%nat := stored ]} (Some 0%nat) (Some 0%nat) v.

(** [update_model_training]: [existing] is the active row of the field, if
    any, [training_example] the new example; the result is the row in the
    session when [db.commit()] is reached. *)
Definition update_model_training {E} (existing : option (ModelTraining E))
  (training_example : E) : ModelTraining E :=
  match existing with
  | Some existing_training =>
      let h := objects existing_training in
      (* Add to existing training data:
         [current_data = existing_training.training_data or []] is the
         attribute's own list object unless that is null or empty *)
      let '(current_data, h) :=
        match training_data existing_training with
        | Some a =>
            match list_at h a with
            | _ :: _ => (a, h)
            | [] => new_list [] h
            end
        | None => new_list [] h
        end in
      (* [current_data.append(training_example)], in place *)
      let h := <[current_data := (list_at h current_data ++ [training_example])%list]> h in
      (* Keep only last 100 examples to prevent data from growing too large:
         the slice is a new list object *)
      let '(current_data, h) :=
        if (100 <? List.length (list_at h current_data))%nat
        then new_list (last_n 100 (list_at h current_data)) h
        else (current_data, h) in
      Training h (Some current_data) (loaded_training_data existing_training)
               (version existing_training + 1)
  | None =>
      (* Create new training record *)
      let '(a, h) := new_list [training_example] ∅ in
      Training h (Some a) None 1
  end.

(** What [db.commit()] leaves in the [training_data] column of a row that
    was loaded from a column holding [stored]: the unit of work writes the
    value of the attribute when it is not equal ([==]) to the object that
    was loaded, both taken as they are at the commit; otherwise the column
    is not part of the UPDATE and keeps [stored]. *)
Definition committed_training_data {E} `{EqDecision E} (stored : list E)
  (row : ModelTraining E) : option (list E) :=
  let value := deref (objects row) (training_data row) in
  let original := deref (objects row) (loaded_training_data row) in
  if decide (value = original) then Some stored else value.

(** The loop of [improve_field_extraction] over [patterns[-10:]]; a pattern
    is given by its ['value'] entry, [None] when the key is missing. *)
Fixpoint first_known_value (patterns : list (option string)) (text : string)
  : option string :=
  match patterns with
  | [] => None
  | pattern :: tl =>
      let value := match pattern with Some v => v | None => EmptyString end in
      if Py.truthy value && (2 <? Py.len value)%nat
         && Py.contains (Py.lower value) (Py.lower text)
      then Some value
      else first_known_value tl text
  end.

(** [improve_field_extraction(text, field_name)], on the patterns that
    [get_field_patterns(field_name)] returned. *)
Definition improve_field_extraction (patterns : list (option string)) (text : string)
  : option string :=
  match patterns with
  | [] => None
  | _ => first_known_value (last_n 10 patterns) text
  end.

End Learning.

(** Decide the comparisons of two literal field names in the goal. *)
Ltac eval_eqb :=
  repeat match goal with
         | |- context [String.eqb ?a ?b] =>
             let v := eval vm_compute in (String.eqb a b) in
             lazymatch v with
             | true => change (String.eqb a b) with true
             | false => change (String.eqb a b) with false
             end
         end;
  cbv iota.

(* ===================================================================== *)
(** ** Worked examples *)
(* ===================================================================== *)

Definition sample_lines : string :=
  "Invoice Number: INV-2024-12345" ++ String Re.newline
  ("Total Amount Due: $2,165.00" ++ String Re.newline "").

(** The matcher on patterns of the source. *)
Example findall_email :
  Re.re_findall Re.no_flags PDF.email_pattern "Contact: support@acme.com, or sales@acme.co.uk."
  = ["support@acme.com"; "sales@acme.co.uk"].
Proof. vm_compute. reflexivity. Qed.

Example findall_end_of_text_amount :
  Re.re_findall Re.ICASE
    (Re.cat [Re.Grp 1 (Re.cat [Re.plus (Re.set [Re.rg "0" "9"; Re.ch ","]);
                               Re.opt (Re.Lit "."); Re.exactly 2 Re.d]);
             Re.Ahead (Re.cat [Re.star Re.s_; Re.Eol])])
    ("a 12.50" ++ String Re.newline ("b 3.75" ++ String Re.newline ""))
  = ["3.75"].
Proof. vm_compute. reflexivity. Qed.

Example sub_collapses_blanks :
  Lightweight.clean_text ("  Hello   World" ++ String Re.newline " x  ") = "hello world x".
Proof. vm_compute. reflexivity. Qed.

(** Tier-B on the two lines of the end-to-end scenario. *)
Example lightweight_on_sample :
  let result := Lightweight.extract_with_lightweight_ai sample_lines in
  extracted_fields result
  = {[ "invoice_number" := "INV-2024-12345"; "total_amount" := "2165.00" ]}
  /\ confidence_scores result !! "invoice_number" = Some 1.00
  /\ confidence_scores result !! "total_amount" = Some 1.00.
Proof. cbv zeta. repeat split; vm_compute; reflexivity. Qed.

(** The regex pass and the context scorer on a short text. *)
Example context_on_total :
  Transformer._calculate_context_confidence "total_amount" "5.00" "total 5.00" == 0.7.
Proof. vm_compute. reflexivity. Qed.

Example regex_pass_on_total :
  fst <$> Transformer._extract_with_enhanced_regex "total 5.00"
  = {[ "total_amount" := "5.00" ]}.
Proof. vm_compute. reflexivity. Qed.

(** The heavy path without any model loaded, then the coordinator: the
    first invoice-number rule, case-insensitive, takes the word after
    "Invoice". *)
Example coordinator_on_sample :
  PDF.extract_invoice_fields
    (PDF.init (Transformer.Processor false None None))
    (sample_lines ++ "Phone: 555-123-4567")
  = {[ "invoice_number" := "Number"; "total_amount" := "2,165.00";
       "vendor_phone" := "555-123-4567" ]}.
Proof. vm_compute. reflexivity. Qed.

(** Under a lower-casing that lengthens the text, the offset found in the
    lower-cased text lies beyond the value in the text itself: after sixty
    characters that double, the slice is empty and the keyword "total"
    next to the value is not seen. *)
Example context_under_lengthening_lower :
  let dotted := Ascii.ascii_of_nat 200 in
  let text := string_of_list_ascii (List.repeat dotted 60) ++ " total 5.00" in
  Py.find (Py.lower_expanding dotted "i" "'" text) "5.00" = Some 127%nat
  /\ Py.slice (127 - 50) (Nat.min (Py.len text) (127 + 4 + 50)) text = ""
  /\ Transformer.context_confidence_with (Py.lower_expanding dotted "i" "'")
       "total_amount" "5.00" text == 0.5
  /\ Transformer._calculate_context_confidence "total_amount" "5.00" text == 0.7.
Proof. cbv zeta. repeat split; vm_compute; reflexivity. Qed.

(** A row that holds one example: the second example reaches the list in
    the session and the version, not the column. *)
Example training_row_on_one_entry :
  let row := Learning.update_model_training (Some (Learning.load ["a"] 1)) "b" in
  Learning.deref (Learning.objects row) (Learning.training_data row) = Some ["a"; "b"]
  /\ Learning.training_data row = Learning.loaded_training_data row
  /\ Learning.version row = 2%nat
  /\ Learning.committed_training_data ["a"] row = Some ["a"].
Proof. cbv zeta. repeat split; vm_compute; reflexivity. Qed.


(* ===================================================================== *)
(** ** Facts about the string operations and the matcher *)
(* ===================================================================== *)

Section StringFacts.

Variable p : ascii -> bool.

Lemma filter_str_ext (q : ascii -> bool) (s : string) :
  (forall c, p c = q c) -> Py.filter_str p s = Py.filter_str q s.
Proof.
  intros E. induction s as [|c t IH]; simpl; [reflexivity|].
  rewrite E, IH. reflexivity.
Qed.

Lemma filter_str_app (a b : string) :
  Py.filter_str p (a ++ b) = Py.filter_str p a ++ Py.filter_str p b.
Proof.
  induction a as [|c t IH]; simpl; [reflexivity|].
  rewrite IH. destruct (p c); reflexivity.
Qed.

(** From here on [p] rejects every blank character. *)
Hypothesis p_blank : forall c, Py.isspace c = true -> p c = false.

Lemma filter_lstrip (s : string) : Py.filter_str p (Py.lstrip s) = Py.filter_str p s.
Proof.
  induction s as [|c t IH]; simpl; [reflexivity|].
  destruct (Py.isspace c) eqn:E; [|reflexivity].
  rewrite (p_blank c E). exact IH.
Qed.

Lemma filter_rstrip (s : string) : Py.filter_str p (Py.rstrip s) = Py.filter_str p s.
Proof.
  induction s as [|c t IH]; simpl; [reflexivity|].
  destruct (Py.rstrip t) as [|c' t'] eqn:R.
  - simpl in IH. rewrite <- IH.
    destruct (Py.isspace c) eqn:E; simpl.
    + rewrite (p_blank c E). reflexivity.
    + reflexivity.
  - change (Py.filter_str p (String c (String c' t')))
      with (if p c then String c (Py.filter_str p (String c' t'))
            else Py.filter_str p (String c' t')).
    rewrite IH. reflexivity.
Qed.

Lemma filter_strip (s : string) : Py.filter_str p (Py.strip s) = Py.filter_str p s.
Proof. unfold Py.strip. rewrite filter_rstrip. apply filter_lstrip. Qed.

End StringFacts.

Lemma find_from_cons (q : string) (c : ascii) (t : string) (i : nat) :
  Py.find_from q (String c t) i
  = if Py.startswith q (String c t) then Some i else Py.find_from q t (S i).
Proof. reflexivity. Qed.

Lemma contains_dot (s : string) : Py.contains "." s = Spec.has_dot s.
Proof.
  unfold Py.contains, Py.find, Spec.has_dot. generalize 0%nat.
  induction s as [|c t IH]; intros i; [reflexivity|].
  rewrite find_from_cons.
  change (Py.startswith "." (String c t)) with (Ascii.eqb "." c && true).
  change (Py.exists_str (fun c0 => Ascii.eqb c0 ".") (String c t))
    with (Ascii.eqb c "." || Py.exists_str (fun c0 => Ascii.eqb c0 ".") t).
  rewrite andb_true_r, (Ascii.eqb_sym c "."%char).
  destruct (Ascii.eqb "." c); [reflexivity|]. apply IH.
Qed.

Section MatcherFacts.

Import Re.

(** A greedy run of a one-character pattern consumes characters of the
    class only, and as many as the lower bound asks for. *)
Lemma rep_loop_step (p : ascii -> bool)
  (body : (mstate -> option mstate) -> mstate -> option mstate)
  (lo n cnt : nat) (st st' : mstate) :
  (forall k s, body k s = step p k s) ->
  rep_loop body lo true Some n cnt st = Some st' ->
  exists j, m_pos st' = (m_pos st + j)%nat
            /\ Py.all_prefix p j (m_rest st) = true /\ (lo <= cnt + j)%nat.
Proof.
  intros Hb. revert cnt st.
  induction n as [|n IH]; intros cnt st; simpl.
  - destruct (lo <=? cnt)%nat eqn:E; [|discriminate].
    intros [= <-]. exists 0%nat. apply Nat.leb_le in E. repeat split; lia.
  - rewrite Hb. unfold step at 1.
    destruct (m_rest st) as [|c t] eqn:R.
    + destruct (lo <=? cnt)%nat eqn:E; [|discriminate].
      intros [= <-]. exists 0%nat. apply Nat.leb_le in E. try rewrite R. repeat split; lia.
    + destruct (p c) eqn:Pc.
      * destruct (rep_loop body lo true Some n (S cnt) _) as [x|] eqn:L.
        -- intros [= <-]. apply IH in L. destruct L as (j & Hpos & Hall & Hlo).
           simpl in Hpos, Hall. exists (S j). try rewrite R. simpl. rewrite Pc, Hall.
           repeat split; lia.
        -- destruct (lo <=? cnt)%nat eqn:E; [|discriminate].
           intros [= <-]. exists 0%nat. apply Nat.leb_le in E. try rewrite R.
           repeat split; lia.
      * destruct (lo <=? cnt)%nat eqn:E; [|discriminate].
        intros [= <-]. exists 0%nat. apply Nat.leb_le in E. try rewrite R.
        repeat split; lia.
Qed.

Lemma sub_from_cons (fl : flags) (r : regex) (repl : string) (pos : nat)
  (prev : option ascii) (c : ascii) (t : string) :
  sub_from fl r repl pos prev (String c t) 0
  = match try_at fl r pos prev (String c t) with
    | Some m =>
        repl ++ (if (m_end m =? pos)%nat
                 then String c (sub_from fl r repl (S pos) (Some c) t 0)
                 else sub_from fl r repl (S pos) (Some c) t (m_end m - pos - 1))
    | None => String c (sub_from fl r repl (S pos) (Some c) t 0)
    end.
Proof. reflexivity. Qed.

Lemma sub_from_nil (fl : flags) (r : regex) (repl : string) (pos : nat)
  (prev : option ascii) :
  sub_from fl r repl pos prev EmptyString 0
  = match try_at fl r pos prev EmptyString with
    | Some m => repl ++ EmptyString
    | None => EmptyString
    end.
Proof. reflexivity. Qed.

Lemma try_at_set (fl : flags) (neg : bool) (items : list item) (pos : nat)
  (prev : option ascii) (c : ascii) (t : string) :
  try_at fl (Set_ neg items) pos prev (String c t)
  = if xorb neg (in_set fl items c) then Some (MObj pos (S pos) []) else None.
Proof.
  unfold try_at. cbn [rmatch]. unfold step. cbn [m_rest m_pos m_caps].
  destruct (xorb neg (in_set fl items c)); reflexivity.
Qed.

(** [re.sub] of a one-character set by the empty string keeps exactly the
    characters outside the set. *)
Lemma sub_set_empty (neg : bool) (items : list item) (s : string) (pos : nat)
  (prev : option ascii) :
  sub_from no_flags (Set_ neg items) "" pos prev s 0
  = Py.filter_str (fun c => negb (xorb neg (in_set no_flags items c))) s.
Proof.
  revert pos prev. induction s as [|c t IH]; intros pos prev; [reflexivity|].
  rewrite sub_from_cons, try_at_set. cbn [Py.filter_str].
  destruct (xorb neg (in_set no_flags items c)); cbn [negb m_end].
  - replace (S pos =? pos)%nat with false by (symmetry; apply Nat.eqb_neq; lia).
    replace (S pos - pos - 1)%nat with 0%nat by lia. apply IH.
  - rewrite IH. reflexivity.
Qed.

(** A match of [\s+] spans blanks only, and at least one. *)
Lemma try_at_blanks (pos : nat) (prev : option ascii) (rest : string) (m : mobj) :
  try_at no_flags (plus s_) pos prev rest = Some m ->
  exists j, m_end m = (pos + S j)%nat /\ Py.all_prefix Py.isspace (S j) rest = true.
Proof.
  unfold try_at.
  destruct (rmatch no_flags (plus s_) Some (MState pos prev rest [])) as [st|] eqn:M;
    [|discriminate].
  intros [= <-]. cbn [m_end].
  unfold plus in M. cbn [rmatch] in M.
  apply (rep_loop_step Py.isspace) in M.
  - destruct M as (j & Hpos & Hall & Hlo). cbn [m_pos m_rest] in Hpos, Hall.
    destruct j as [|j]; [lia|]. exists j. split; [exact Hpos | exact Hall].
  - intros k s. unfold s_. cbn [rmatch]. unfold step.
    destruct (m_rest s) as [|c t]; [reflexivity|].
    replace (xorb false (in_set no_flags [ISpace] c)) with (Py.isspace c); [reflexivity|].
    unfold in_set, items_have. cbn [IGNORECASE no_flags existsb item_has].
    rewrite orb_false_r. reflexivity.
Qed.

Section Collapse.

Variable p : ascii -> bool.
Hypothesis p_blank : forall c, Py.isspace c = true -> p c = false.

(** Replacing each run of blanks by [repl], itself rejected by [p], does
    not change what [p] keeps. *)
Lemma filter_sub_blanks (repl : string) (s : string) (pos : nat) (prev : option ascii)
  (skip : nat) :
  Py.filter_str p repl = EmptyString ->
  Py.all_prefix Py.isspace skip s = true ->
  Py.filter_str p (sub_from no_flags (plus s_) repl pos prev s skip) = Py.filter_str p s.
Proof.
  intros Hrepl. revert pos prev skip.
  induction s as [|c t IH]; intros pos prev skip Hskip.
  - destruct skip as [|skip]; [|discriminate].
    rewrite sub_from_nil.
    destruct (try_at no_flags (plus s_) pos prev EmptyString) as [m|] eqn:M; [|reflexivity].
    apply try_at_blanks in M. destruct M as (j & _ & Hall). discriminate.
  - destruct skip as [|skip].
    + rewrite sub_from_cons.
      destruct (try_at no_flags (plus s_) pos prev (String c t)) as [m|] eqn:M.
      * apply try_at_blanks in M. destruct M as (j & Hend & Hall).
        cbn [Py.all_prefix] in Hall. apply andb_true_iff in Hall. destruct Hall as [Hc Hall].
        rewrite (filter_str_app p), Hrepl.
        replace (m_end m =? pos)%nat with false by (symmetry; apply Nat.eqb_neq; lia).
        replace (m_end m - pos - 1)%nat with j by lia.
        rewrite IH by exact Hall.
        cbn [Py.filter_str]. rewrite (p_blank c Hc). reflexivity.
      * cbn [Py.filter_str]. rewrite IH by reflexivity. reflexivity.
    + cbn [Py.all_prefix] in Hskip. apply andb_true_iff in Hskip. destruct Hskip as [Hc Hall].
      cbn [sub_from Py.filter_str]. rewrite (p_blank c Hc). apply IH. exact Hall.
Qed.

End Collapse.

End MatcherFacts.

(* ===================================================================== *)
(** ** Currency clean-up of Tier-B *)
(* ===================================================================== *)

Lemma digit_or_dot_blank (c : ascii) : Py.isspace c = true -> Spec.digit_or_dot c = false.
Proof.
  destruct c as [[] [] [] [] [] [] [] []]; vm_compute; congruence.
Qed.

Lemma clean_total_amount (value : string) :
  Lightweight._clean_extracted_value "total_amount" value = Spec.normalize_currency value.
Proof.
  unfold Lightweight._clean_extracted_value, Spec.normalize_currency.
  change (String.eqb "total_amount" "total_amount") with true. cbv iota.
  unfold Re.re_sub, Re.nset. rewrite sub_set_empty.
  rewrite (filter_str_ext _ Spec.digit_or_dot).
  2:{ intros c. unfold Re.in_set, Re.items_have, Re.no_flags, Spec.digit_or_dot.
      cbn [Re.IGNORECASE existsb Re.item_has Re.ch xorb negb].
      rewrite orb_false_r, (Ascii.eqb_sym c "."%char).
      destruct (Py.isdigit c || Ascii.eqb "." c); reflexivity. }
  rewrite (filter_sub_blanks Spec.digit_or_dot digit_or_dot_blank)
    by reflexivity.
  rewrite (filter_strip Spec.digit_or_dot digit_or_dot_blank).
  rewrite contains_dot. reflexivity.
Qed.

(** C4.  Currency normalization of [_clean_extracted_value]: for every raw
    value, the result keeps exactly the digits and dots of the value, in
    order, and, when no dot is among them and more than two characters are
    left, has a dot inserted two characters from the end; "1,234.50"
    becomes "1234.50" and "123450" becomes "1234.50". *)
Theorem C4_currency_normalization :
  (forall value : string,
     Lightweight._clean_extracted_value "total_amount" value
     = (let kept := Py.filter_str Spec.digit_or_dot value in
        if negb (Spec.has_dot kept) && (2 <? Py.len kept)%nat
        then Py.take (Py.len kept - 2) kept ++ "." ++ Py.drop (Py.len kept - 2) kept
        else kept))
  /\ Lightweight._clean_extracted_value "total_amount" "1,234.50" = "1234.50"
  /\ Lightweight._clean_extracted_value "total_amount" "123450" = "1234.50".
Proof.
  split; [|split].
  - intros value. apply clean_total_amount.
  - vm_compute. reflexivity.
  - vm_compute. reflexivity.
Qed.

(* ===================================================================== *)
(** ** The Context Scorer *)
(* ===================================================================== *)

Section ScorerFacts.

Lemma len_map_str (f : ascii -> ascii) (s : string) : Py.len (Py.map_str f s) = Py.len s.
Proof. induction s as [|c t IH]; simpl; [reflexivity|]. f_equal. exact IH. Qed.

Lemma drop_map_str (f : ascii -> ascii) (n : nat) (s : string) :
  Py.drop n (Py.map_str f s) = Py.map_str f (Py.drop n s).
Proof.
  revert s. induction n as [|n IH]; intros [|c t]; simpl; try reflexivity. apply IH.
Qed.

Lemma take_map_str (f : ascii -> ascii) (n : nat) (s : string) :
  Py.take n (Py.map_str f s) = Py.map_str f (Py.take n s).
Proof.
  revert s. induction n as [|n IH]; intros [|c t]; simpl; try reflexivity.
  f_equal. apply IH.
Qed.

Lemma len_drop (n : nat) (s : string) : Py.len (Py.drop n s) = (Py.len s - n)%nat.
Proof.
  revert s. induction n as [|n IH]; intros [|c t]; simpl; try reflexivity. apply IH.
Qed.

Lemma take_all (n : nat) (s : string) : (Py.len s <= n)%nat -> Py.take n s = s.
Proof.
  revert s. induction n as [|n IH]; intros [|c t]; simpl; intros H;
    try reflexivity; try lia.
  f_equal. apply IH. lia.
Qed.

(** A slice written with its end clipped to the text is the same slice. *)
Lemma slice_clip (a b : nat) (s : string) :
  Py.slice a (Nat.min (Py.len s) b) s = Py.slice a b s.
Proof.
  unfold Py.slice. destruct (Nat.le_gt_cases b (Py.len s)) as [H|H].
  - rewrite Nat.min_r by exact H. reflexivity.
  - rewrite Nat.min_l by lia.
    rewrite !take_all; [reflexivity | rewrite len_drop; lia | rewrite len_drop; lia].
Qed.

(** [p] is a prefix of [s] exactly when the first [len p] characters of [s]
    are [p]. *)
Lemma startswith_take (q s : string) :
  Py.startswith q s = String.eqb (Py.take (Py.len q) s) q.
Proof.
  revert s. induction q as [|a q IH]; intros [|b s]; simpl; try reflexivity.
  rewrite IH, (Ascii.eqb_sym a b). reflexivity.
Qed.

Lemma find_ext {A} (f g : A -> bool) (l : list A) :
  (forall x, f x = g x) -> List.find f l = List.find g l.
Proof.
  intros E. induction l as [|x l IH]; simpl; [reflexivity|].
  rewrite E, IH. reflexivity.
Qed.

Lemma find_map_S (f : nat -> bool) (l : list nat) :
  List.find f (List.map S l) = option_map S (List.find (fun j => f (S j)) l).
Proof.
  induction l as [|x l IH]; simpl; [reflexivity|].
  destruct (f (S x)); [reflexivity | exact IH].
Qed.

(** [str.find] returns the least offset at which the pattern is a prefix
    of the rest. *)
Lemma find_from_least (q s : string) (i : nat) :
  Py.find_from q s i
  = option_map (Nat.add i)
      (List.find (fun j => Py.startswith q (Py.drop j s)) (List.seq 0 (S (Py.len s)))).
Proof.
  revert i. induction s as [|c t IH]; intros i.
  - cbn [Py.find_from Py.len String.length List.seq List.find Py.drop].
    destruct (Py.startswith q ""); simpl; [f_equal; lia | reflexivity].
  - rewrite find_from_cons.
    change (Py.len (String c t)) with (S (Py.len t)).
    rewrite <- cons_seq, <- seq_shift. cbn [List.find].
    change (Py.drop 0 (String c t)) with (String c t).
    destruct (Py.startswith q (String c t)); [simpl; f_equal; lia|].
    rewrite find_map_S, IH. cbn [Py.drop].
    destruct (List.find _ _); simpl; [f_equal; lia | reflexivity].
Qed.

Lemma find_is_first (s q : string) :
  Py.find s q
  = List.find (fun j => String.eqb (Py.slice j (j + Py.len q) s) q)
              (List.seq 0 (S (Py.len s))).
Proof.
  unfold Py.find. rewrite find_from_least.
  rewrite (find_ext _ (fun j => String.eqb (Py.slice j (j + Py.len q) s) q)).
  - destruct (List.find _ _); reflexivity.
  - intros j. rewrite startswith_take. unfold Py.slice.
    replace (j + Py.len q - j)%nat with (Py.len q) by lia. reflexivity.
Qed.

Lemma find_lower (text value : string) :
  Py.find (Py.lower text) (Py.lower value) = Spec.first_occurrence_ci text value.
Proof.
  rewrite find_is_first. unfold Spec.first_occurrence_ci, Py.lower.
  rewrite !len_map_str. apply find_ext. intros j.
  unfold Spec.occurs_at_ci, Py.slice, Py.lower.
  rewrite drop_map_str, take_map_str. reflexivity.
Qed.

Lemma contains_occurs (keyword ctx : string) :
  Py.contains keyword ctx = Spec.occurs keyword ctx.
Proof.
  unfold Py.contains, Spec.occurs. rewrite find_is_first.
  induction (List.seq 0 (S (Py.len ctx))) as [|x l IH]; simpl; [reflexivity|].
  destruct (String.eqb _ _); [reflexivity | exact IH].
Qed.

End ScorerFacts.

(** C3 as stated fails: in the text "total total total 5.00" the keyword
    "total" occurs three times around the value "5.00", which would give
    min(1.0, 0.5 + 0.2 x 3) = 1.0; the code counts the keyword once and
    returns 0.7. *)
Lemma C3_counterexample :
  let text := "total total total 5.00" in
  Spec.first_occurrence_ci text "5.00" = Some 18%nat
  /\ Py.lower (Spec.window text 18 (Py.len "5.00")) = text
  /\ Spec.occurrence_count ["total"; "amount"; "due"; "$"; "sum"] text = 3%nat
  /\ Spec.keyword_hit_count ["total"; "amount"; "due"; "$"; "sum"] text = 1%nat
  /\ Transformer._calculate_context_confidence "total_amount" "5.00" text == 0.7
  /\ Spec.stated_score_context "total_amount" "5.00" text == 1
  /\ ~ Transformer._calculate_context_confidence "total_amount" "5.00" text
       == Spec.stated_score_context "total_amount" "5.00" text.
Proof.
  cbv zeta. repeat (split; [vm_compute; reflexivity|]). vm_compute. discriminate.
Qed.

(** C3 (amended).  The Context Scorer, for every field, candidate value
    and text, and whatever the lower-casing does to the length of a text:
    the score is 0.5 when the lower-cased value does not occur in the
    lower-cased text or the field has no keyword set; otherwise, with [pos]
    the offset of the first such occurrence in the lower-cased text, it is
    min(1.0, 0.5 + 0.2 x hits), where hits is the number of the field's
    keywords that occur (each counted once) in the lower-cased slice of the
    text itself from 50 characters before [pos] to 50 characters after
    [pos + len(value)], clipped to the text.  With a lower-casing character
    by character, as [_calculate_context_confidence] has on ASCII text,
    [pos] is the first case-insensitive occurrence of the value in the text
    and the slice is the window of 50 characters before and after it. *)
Theorem C3_context_scorer (lower : string -> string) (field_type value text : string) :
  Transformer.context_confidence_with lower field_type value text
  == match Spec.first_lowered_occurrence lower text value,
           Transformer.context_keywords field_type with
     | Some pos, Some keywords =>
         Qmin 1 (0.5 + 0.2 * inject_Z (Z.of_nat
                  (Spec.keyword_hit_count keywords
                     (lower (Spec.window text pos (Py.len value))))))
     | _, _ => 0.5
     end
  /\ Transformer._calculate_context_confidence field_type value text
     == match Spec.first_occurrence_ci text value, Transformer.context_keywords field_type with
        | Some pos, Some keywords =>
            Qmin 1 (0.5 + 0.2 * inject_Z (Z.of_nat
                     (Spec.keyword_hit_count keywords
                        (Py.lower (Spec.window text pos (Py.len value))))))
        | _, _ => 0.5
        end.
Proof.
  split.
  - unfold Transformer.context_confidence_with.
    rewrite find_is_first. fold (Spec.first_lowered_occurrence lower text value).
    destruct (Spec.first_lowered_occurrence lower text value) as [pos|]; [|reflexivity].
    destruct (Transformer.context_keywords field_type) as [keywords|]; [|reflexivity].
    rewrite slice_clip. unfold Spec.window, Spec.keyword_hit_count.
    erewrite filter_ext by (intros k; apply contains_occurs).
    apply Q.min_compat; [reflexivity|].
    rewrite (Qmult_comm (inject_Z _)). reflexivity.
  - unfold Transformer._calculate_context_confidence, Transformer.context_confidence_with.
    rewrite find_lower.
    destruct (Spec.first_occurrence_ci text value) as [pos|]; [|reflexivity].
    destruct (Transformer.context_keywords field_type) as [keywords|]; [|reflexivity].
    rewrite slice_clip. unfold Spec.window, Spec.keyword_hit_count.
    erewrite filter_ext by (intros k; apply contains_occurs).
    apply Q.min_compat; [reflexivity|].
    rewrite (Qmult_comm (inject_Z _)). reflexivity.
Qed.

(* ===================================================================== *)
(** ** Candidate selection: highest score, first found on ties *)
(* ===================================================================== *)

Section Selection.

Lemma Qgtb_true (a b : Q) : Qgtb a b = true <-> b < a.
Proof.
  unfold Qgtb. rewrite negb_true_iff, <- not_true_iff_false, Qle_bool_iff.
  split; [apply Qnot_le_lt | apply Qlt_not_le].
Qed.

Lemma Qgtb_false (a b : Q) : Qgtb a b = false <-> a <= b.
Proof.
  unfold Qgtb. rewrite negb_false_iff. apply Qle_bool_iff.
Qed.

Lemma fold_keep_best_map {A} (g : A -> option (string * Q)) (l : list A)
  (best : option string * Q) :
  fold_left (fun b r => keep_best b (g r)) l best = fold_left keep_best (List.map g l) best.
Proof.
  revert best. induction l as [|x l IH]; intros best; simpl; [reflexivity | apply IH].
Qed.

(** The loop keeps the first of the highest-scored candidates, when every
    candidate scores above the initial threshold [z = 0]. *)
Lemma keep_best_first (z : Q) (cands : list (option (string * Q))) :
  z == 0 ->
  (forall v c, In (Some (v, c)) cands -> 0 < c) ->
  let best := fold_left keep_best cands (None, z) in
  (fst best = None -> best = (None, z)) /\ Spec.first_best cands best.
Proof.
  intros Hz. induction cands as [|x cands IH] using rev_ind; intros Hpos.
  - simpl. split; [reflexivity|]. intros c [].
  - cbv zeta. rewrite fold_left_app. cbn [fold_left].
    destruct IH as [IHn IHb].
    { intros v c Hin. apply (Hpos v c). apply in_or_app. left. exact Hin. }
    set (best := fold_left keep_best cands (None, z)) in *.
    destruct x as [[v c]|]; cbn [keep_best].
    + assert (Hc : 0 < c) by (apply (Hpos v c), in_or_app; right; left; reflexivity).
      unfold Spec.first_best in IHb.
      destruct (Qgtb c (snd best)) eqn:G.
      * apply Qgtb_true in G. split; [discriminate|].
        unfold Spec.first_best. cbn [fst snd].
        exists (length cands). split.
        { rewrite lookup_app_r by lia. rewrite Nat.sub_diag. reflexivity. }
        intros j v' c' Hj. apply lookup_app_Some in Hj.
        destruct Hj as [Hj | [Hlen Hj]].
        -- destruct (fst best) as [v0|] eqn:F.
           ++ destruct IHb as (i & _ & Hall). destruct (Hall j v' c' Hj) as [Hle _].
              split; [apply Qlt_le_weak|intros _]; apply (Qle_lt_trans _ (snd best)); assumption.
           ++ apply list_elem_of_lookup_2, list_elem_of_In, IHb in Hj. discriminate.
        -- destruct (j - length cands)%nat as [|k] eqn:K; [|destruct k; discriminate].
           injection Hj as <- <-. split; [apply Qle_refl | lia].
      * apply Qgtb_false in G.
        destruct (fst best) as [v0|] eqn:F.
        -- split; [intros E; congruence|].
           unfold Spec.first_best. try rewrite F.
           destruct IHb as (i & Hi & Hall). exists i. split.
           { apply lookup_app_l_Some. exact Hi. }
           intros j v' c' Hj. apply lookup_app_Some in Hj.
           destruct Hj as [Hj | [Hlen Hj]]; [apply (Hall j v' c' Hj)|].
           destruct (j - length cands)%nat as [|k] eqn:K; [|destruct k; discriminate].
           injection Hj as <- <-. split; [exact G|].
           apply lookup_lt_Some in Hi. lia.
        -- exfalso. rewrite (IHn eq_refl) in G. cbn [snd] in G. rewrite Hz in G.
           exact (Qlt_not_le _ _ Hc G).
    + split; [exact IHn|].
      unfold Spec.first_best in *. destruct (fst best) as [v0|].
      * destruct IHb as (i & Hi & Hall). exists i. split.
        { apply lookup_app_l_Some. exact Hi. }
        intros j v' c' Hj. apply lookup_app_Some in Hj.
        destruct Hj as [Hj | [Hlen Hj]]; [apply (Hall j v' c' Hj)|].
        destruct (j - length cands)%nat as [|k]; [discriminate | destruct k; discriminate].
      * intros c Hin. apply in_app_or in Hin. destruct Hin as [Hin | [<- | []]];
          [apply IHb; exact Hin | reflexivity].
Qed.

End Selection.

(* ===================================================================== *)
(** ** Tier-B confidence *)
(* ===================================================================== *)

Section TierBConfidence.

Lemma fold_boost (boost : Q) (pats : list Re.regex) (value : string) (conf : Q) :
  fold_left (fun conf pattern =>
               if Re.found (Re.re_search Re.no_flags pattern value)
               then conf + boost else conf) pats conf
  == conf + boost * inject_Z (Z.of_nat (List.length
       (List.filter (fun pattern => Re.found (Re.re_search Re.no_flags pattern value)) pats))).
Proof.
  revert conf. induction pats as [|r pats IH]; intros conf; cbn [fold_left List.filter].
  - simpl. ring.
  - rewrite IH. destruct (Re.found _); [|reflexivity].
    cbn [List.length]. rewrite Nat2Z.inj_succ. unfold Z.succ. rewrite inject_Z_plus. ring.
Qed.

Lemma length_penalty_compat (value : string) (a b : Q) :
  a == b -> Spec.length_penalty value a == Spec.length_penalty value b.
Proof.
  intros E. unfold Spec.length_penalty.
  destruct (_ <? 2)%nat; [rewrite E; reflexivity|].
  destruct (100 <? _)%nat; [rewrite E; reflexivity | exact E].
Qed.

Lemma length_penalty_pos (value : string) (a : Q) : 0 < a -> 0 < Spec.length_penalty value a.
Proof.
  intros H. unfold Spec.length_penalty.
  destruct (_ <? 2)%nat; [|destruct (100 <? _)%nat]; try exact H;
    apply Qmult_lt_0_compat; try exact H; reflexivity.
Qed.

Lemma calculate_confidence_eq (field_name value full_text : string) (base_confidence : Q) :
  Lightweight._calculate_confidence field_name value full_text base_confidence
  == Qmin (Spec.length_penalty value
             (base_confidence
              + Spec.boost_of field_name
                * inject_Z (Z.of_nat (Spec.pattern_hits field_name value)))) 1.
Proof.
  unfold Lightweight._calculate_confidence, Spec.boost_of, Spec.pattern_hits.
  change (Qmin ?x 1.0) with (Qmin x 1.0).
  apply Q.min_compat; [|reflexivity].
  apply length_penalty_compat.
  destruct (Lightweight.confidence_modifiers field_name) as [[pats boost]|].
  - apply fold_boost.
  - simpl. ring.
Qed.

Lemma boost_of_nonneg (field_name : string) : 0 <= Spec.boost_of field_name.
Proof.
  unfold Spec.boost_of, Lightweight.confidence_modifiers.
  repeat (destruct (String.eqb field_name _); [discriminate|]). discriminate.
Qed.

Lemma calculate_confidence_pos (field_name value full_text : string) (base_confidence : Q) :
  0 < base_confidence ->
  0 < Lightweight._calculate_confidence field_name value full_text base_confidence.
Proof.
  intros H. rewrite calculate_confidence_eq.
  apply Q.min_glb_lt; [|reflexivity].
  apply length_penalty_pos.
  apply (Qlt_le_trans _ (base_confidence + 0)); [rewrite Qplus_0_r; exact H|].
  apply Qplus_le_r. apply Qmult_le_0_compat; [apply boost_of_nonneg|].
  change 0 with (inject_Z 0). rewrite <- Zle_Qle. lia.
Qed.

End TierBConfidence.

(* ===================================================================== *)
(** ** Loops that fill a dict from a table of rules *)
(* ===================================================================== *)

Section TableLoops.

Context {A V : Type} (key : A -> string) (g : A -> option V).

Lemma fold_set_if_other (table : list A) (m : gmap string V) (k : string) :
  ~ In k (List.map key table) ->
  fold_left (fun m e => set_if (key e) (g e) m) table m !! k = m !! k.
Proof.
  revert m. induction table as [|e table IH]; intros m Hk; [reflexivity|].
  cbn [fold_left]. rewrite IH.
  - unfold set_if. destruct (g e); [|reflexivity].
    apply lookup_insert_ne. intros E. apply Hk. left. exact E.
  - intros Hin. apply Hk. right. exact Hin.
Qed.

(** With distinct keys, the entry of a key alone decides what the loop
    leaves under that key. *)
Lemma fold_set_if_lookup (table : list A) (m : gmap string V) (e : A) :
  List.NoDup (List.map key table) -> In e table ->
  fold_left (fun m e => set_if (key e) (g e) m) table m !! key e
  = match g e with Some v => Some v | None => m !! key e end.
Proof.
  revert m. induction table as [|x table IH]; intros m Hnd Hin; [destruct Hin|].
  cbn [List.map] in Hnd. apply List.NoDup_cons_iff in Hnd. destruct Hnd as [Hx Hnd].
  cbn [fold_left]. destruct Hin as [-> | Hin].
  - rewrite fold_set_if_other by exact Hx.
    unfold set_if. destruct (g e); [apply lookup_insert_eq | reflexivity].
  - rewrite IH by assumption.
    destruct (g e); [reflexivity|].
    unfold set_if. destruct (g x); [|reflexivity].
    apply lookup_insert_ne. intros E. apply Hx. rewrite E.
    apply List.in_map. exact Hin.
Qed.

End TableLoops.

Section TierBLoop.

(** What the Tier-B loop leaves under a field: the cleaned best candidate,
    when there is one and it is not the empty string. *)
Lemma field_step_fst (text : string) (acc : gmap string string * gmap string Q)
  (entry : string * list (Re.regex * Q)) :
  fst (Lightweight.field_step text acc entry)
  = set_if (fst entry)
      (match fst (Lightweight.best_candidate (fst entry) text (Lightweight.clean_text text)
                    (snd entry)) with
       | Some v =>
           if Py.truthy v then Some (Lightweight._clean_extracted_value (fst entry) v)
           else None
       | None => None
       end)
      (fst acc).
Proof.
  destruct entry as [field rules]. unfold Lightweight.field_step. cbn [fst snd].
  destruct (Lightweight.best_candidate _ _ _ _) as [[v|] c]; cbn [fst]; [|reflexivity].
  destruct (Py.truthy v); reflexivity.
Qed.

Lemma fold_field_step_fst (text : string) (table : list (string * list (Re.regex * Q)))
  (acc : gmap string string * gmap string Q) :
  fst (fold_left (Lightweight.field_step text) table acc)
  = fold_left (fun m entry =>
                 set_if (fst entry)
                   (match fst (Lightweight.best_candidate (fst entry) text
                                 (Lightweight.clean_text text) (snd entry)) with
                    | Some v =>
                        if Py.truthy v
                        then Some (Lightweight._clean_extracted_value (fst entry) v)
                        else None
                    | None => None
                    end) m)
      table (fst acc).
Proof.
  revert acc. induction table as [|e table IH]; intros acc; [reflexivity|].
  cbn [fold_left]. rewrite IH, field_step_fst. reflexivity.
Qed.

Lemma lightweight_keys_distinct : List.NoDup (List.map fst Lightweight.patterns).
Proof.
  repeat (apply List.NoDup_cons; [cbn; intuition discriminate|]). apply List.NoDup_nil.
Qed.

Lemma regex_step_set_if (text : string) (results : gmap string (string * Q))
  (entry : string * list Re.regex) :
  Transformer.regex_step text results entry
  = set_if (fst entry)
      (let best := Transformer.best_pattern_match (fst entry) text (snd entry) in
       match fst best with
       | Some v => if Py.truthy v then Some (v, snd best) else None
       | None => None
       end)
      results.
Proof.
  destruct entry as [field pats]. unfold Transformer.regex_step. cbn [fst snd].
  destruct (Transformer.best_pattern_match _ _ _) as [[v|] c]; cbn [fst snd]; [|reflexivity].
  destruct (Py.truthy v); reflexivity.
Qed.

Lemma fold_regex_step (text : string) (table : list (string * list Re.regex))
  (results : gmap string (string * Q)) :
  fold_left (Transformer.regex_step text) table results
  = fold_left (fun m entry =>
                 set_if (fst entry)
                   (let best := Transformer.best_pattern_match (fst entry) text (snd entry) in
                    match fst best with
                    | Some v => if Py.truthy v then Some (v, snd best) else None
                    | None => None
                    end) m)
      table results.
Proof.
  revert results. induction table as [|e table IH]; intros results; [reflexivity|].
  cbn [fold_left]. rewrite IH, regex_step_set_if. reflexivity.
Qed.

Lemma fallback_keys_distinct : List.NoDup (List.map fst Transformer.fallback_patterns).
Proof.
  repeat (apply List.NoDup_cons; [cbn; intuition discriminate|]). apply List.NoDup_nil.
Qed.

(** The regex pass leaves under a field of its table the best candidate of
    that field's rules, and nothing under any other key. *)
Lemma enhanced_regex_lookup (text : string) (entry : string * list Re.regex) :
  In entry Transformer.fallback_patterns ->
  Transformer._extract_with_enhanced_regex text !! fst entry
  = (let best := Transformer.best_pattern_match (fst entry) text (snd entry) in
     match fst best with
     | Some v => if Py.truthy v then Some (v, snd best) else None
     | None => None
     end).
Proof.
  intros Hin. unfold Transformer._extract_with_enhanced_regex.
  rewrite fold_regex_step.
  rewrite (fold_set_if_lookup fst _ _ _ entry fallback_keys_distinct Hin).
  cbv zeta. destruct (fst (Transformer.best_pattern_match _ _ _)) as [v|]; [|reflexivity].
  destruct (Py.truthy v); reflexivity.
Qed.

Lemma enhanced_regex_other (text key : string) :
  ~ In key (List.map fst Transformer.fallback_patterns) ->
  Transformer._extract_with_enhanced_regex text !! key = None.
Proof.
  intros Hk. unfold Transformer._extract_with_enhanced_regex.
  rewrite fold_regex_step, fold_set_if_other by exact Hk. apply lookup_empty.
Qed.

End TierBLoop.

Section SelectionOfBothTiers.

Lemma context_confidence_pos (field_type value text : string) :
  0 < Transformer._calculate_context_confidence field_type value text.
Proof.
  unfold Transformer._calculate_context_confidence, Transformer.context_confidence_with.
  destruct (Py.find _ _); [|reflexivity].
  destruct (Transformer.context_keywords field_type); [|reflexivity].
  apply Q.min_glb_lt; [reflexivity|].
  apply (Qlt_le_trans _ (0.5 + 0)); [reflexivity|].
  apply Qplus_le_r. apply Qmult_le_0_compat; [|discriminate].
  change 0 with (inject_Z 0). rewrite <- Zle_Qle. lia.
Qed.

Lemma pattern_candidate_pos (field_type text : string) (n : nat) (rule : nat * Re.regex)
  (v : string) (c : Q) :
  Transformer.pattern_candidate field_type text n rule = Some (v, c) -> 0 < c.
Proof.
  destruct rule as [i pattern]. unfold Transformer.pattern_candidate.
  destruct (Re.re_findall _ _ _) as [|first rest]; [discriminate|].
  intros [= <- <-].
  apply Qlt_shift_div_l; [reflexivity|]. rewrite Qmult_0_l.
  apply (Qlt_le_trans _ (0 + Transformer._calculate_context_confidence field_type first text)).
  - rewrite Qplus_0_l. apply context_confidence_pos.
  - apply Qplus_le_l. apply Qmult_le_0_compat.
    + change 0 with (inject_Z 0). rewrite <- Zle_Qle. lia.
    + apply Qinv_le_0_compat. change 0 with (inject_Z 0). rewrite <- Zle_Qle. lia.
Qed.

Lemma rule_candidate_pos (field_name text clean : string) (rule : Re.regex * Q)
  (v : string) (c : Q) :
  0 < snd rule ->
  Lightweight.rule_candidate field_name text clean rule = Some (v, c) -> 0 < c.
Proof.
  destruct rule as [pattern base]. cbn [snd]. intros Hb.
  unfold Lightweight.rule_candidate.
  destruct (Re.re_search _ _ _); [|discriminate].
  intros [= <- <-]. apply calculate_confidence_pos. exact Hb.
Qed.

Lemma lightweight_bases_pos :
  Forall (fun entry : string * list (Re.regex * Q) => Forall (fun r => 0 < snd r) (snd entry))
         Lightweight.patterns.
Proof.
  unfold Lightweight.patterns, Lightweight.vendor_name_patterns,
    Lightweight.invoice_number_patterns, Lightweight.total_amount_patterns,
    Lightweight.vendor_address_patterns.
  repeat (apply List.Forall_cons;
          [cbn [snd]; repeat (apply List.Forall_cons; [reflexivity|]); apply List.Forall_nil|]).
  apply List.Forall_nil.
Qed.

Lemma best_candidate_first (field_name text clean : string) (rules : list (Re.regex * Q)) :
  Forall (fun r => 0 < snd r) rules ->
  Spec.first_best (List.map (Lightweight.rule_candidate field_name text clean) rules)
                  (Lightweight.best_candidate field_name text clean rules).
Proof.
  intros Hb. unfold Lightweight.best_candidate, Lightweight.try_rule.
  rewrite fold_keep_best_map.
  apply (keep_best_first 0.0); [reflexivity|].
  intros v c Hin. apply List.in_map_iff in Hin. destruct Hin as (r & Hr & Hin).
  apply (rule_candidate_pos field_name text clean r v c); [|exact Hr].
  rewrite List.Forall_forall in Hb. apply Hb. exact Hin.
Qed.

Lemma best_pattern_first (field_type text : string) (pats : list Re.regex) :
  Spec.first_best
    (List.map (Transformer.pattern_candidate field_type text (List.length pats))
              (Transformer.enumerate pats))
    (Transformer.best_pattern_match field_type text pats).
Proof.
  unfold Transformer.best_pattern_match, Transformer.try_pattern.
  rewrite fold_keep_best_map.
  apply (keep_best_first 0); [reflexivity|].
  intros v c Hin. apply List.in_map_iff in Hin. destruct Hin as (r & Hr & _).
  exact (pattern_candidate_pos _ _ _ _ _ _ Hr).
Qed.

End SelectionOfBothTiers.

(** C5.  Candidate selection of Tier-B ([extract_with_lightweight_ai]) and
    of the regex pass ([_extract_with_enhanced_regex]): for every text and
    every field of the rule table, the candidate kept is the one of some
    rule [i] such that no rule's candidate has a higher confidence and
    every matching rule before [i] has a strictly lower one (on equal
    confidence the earlier rule wins); the value emitted for the field is
    that candidate's (cleaned, in Tier-B). *)
Theorem C5_first_found_wins (text : string) :
  Forall (fun entry : string * list (Re.regex * Q) =>
            let best := Lightweight.best_candidate (fst entry) text
                          (Lightweight.clean_text text) (snd entry) in
            Spec.first_best
              (List.map (Lightweight.rule_candidate (fst entry) text
                           (Lightweight.clean_text text)) (snd entry)) best
            /\ extracted_fields (Lightweight.extract_with_lightweight_ai text) !! fst entry
               = match fst best with
                 | Some v =>
                     if Py.truthy v
                     then Some (Lightweight._clean_extracted_value (fst entry) v)
                     else None
                 | None => None
                 end)
         Lightweight.patterns
  /\ Forall (fun entry : string * list Re.regex =>
               let best := Transformer.best_pattern_match (fst entry) text (snd entry) in
               Spec.first_best
                 (List.map (Transformer.pattern_candidate (fst entry) text
                              (List.length (snd entry)))
                           (Transformer.enumerate (snd entry))) best
               /\ Transformer._extract_with_enhanced_regex text !! fst entry
                  = match fst best with
                    | Some v => if Py.truthy v then Some (v, snd best) else None
                    | None => None
                    end)
            Transformer.fallback_patterns.
Proof.
  split; apply List.Forall_forall; intros entry Hin; cbv zeta; split.
  - apply best_candidate_first.
    pose proof lightweight_bases_pos as H. rewrite List.Forall_forall in H.
    exact (H entry Hin).
  - unfold Lightweight.extract_with_lightweight_ai.
    destruct (fold_left _ _ _) as [fields scores] eqn:F.
    cbn [extracted_fields].
    change fields with (fst (fields, scores)). rewrite <- F, fold_field_step_fst.
    rewrite (fold_set_if_lookup fst _ _ _ entry lightweight_keys_distinct Hin).
    cbn [fst]. rewrite lookup_empty.
    destruct (fst (Lightweight.best_candidate _ _ _ _)) as [v|]; [|reflexivity].
    destruct (Py.truthy v); reflexivity.
  - apply best_pattern_first.
  - apply (enhanced_regex_lookup text entry Hin).
Qed.

(** C6 as stated fails: the rule [(?:total[:\s]* )\$?([0-9,]+\.?[0-9]* )]
    (base 0.7) proposes the value "100" on the text "total: 100"; the value
    has no two-decimal tail, yet its confidence is 0.85, not 0.7: the
    leading run of digits earns the boost of 0.15 too. *)
Lemma C6_counterexample :
  let text := "total: 100" in
  let c := Lightweight._calculate_confidence "total_amount" "100" text 0.7 in
  nth_error Lightweight.total_amount_patterns 2
    = Some (Re.cat [Re.str "total"; Re.star (Re.set [Re.ch ":"; Re.ISpace]);
                    Re.opt (Re.Lit "$"); Lightweight.amount_group], 0.7)
  /\ List.map (Lightweight.rule_candidate "total_amount" text (Lightweight.clean_text text))
              Lightweight.total_amount_patterns
     = [None; None; Some ("100", c); None]
  /\ c == 0.85
  /\ Spec.stated_confidence "total_amount" "100" 0.7 == 0.7
  /\ ~ c == Spec.stated_confidence "total_amount" "100" 0.7.
Proof.
  cbv zeta. split; [reflexivity|]. split; [vm_compute; reflexivity|].
  split; [vm_compute; reflexivity|]. split; [vm_compute; reflexivity|].
  vm_compute. discriminate.
Qed.

(** C6 (amended).  For every candidate of Tier-B, [_calculate_confidence]
    returns the rule's base confidence plus the field's boost once for each
    of the field's value patterns found in the value (invoice number: 0.1
    each for "INV", a run of four digits, a hyphen; total amount: 0.15 each
    for a two-decimal tail and for a leading run of digits or commas; vendor
    name: 0.05 each for a leading capital and for three lower-case letters
    in a row); the sum is halved if the trimmed value is shorter than 2,
    multiplied by 0.7 if it is longer than 100, and the result is capped at
    1.0. *)
Theorem C6_confidence_modifiers (field_name value full_text : string) (base_confidence : Q) :
  Lightweight._calculate_confidence field_name value full_text base_confidence
  == Qmin (Spec.length_penalty value
             (base_confidence
              + Spec.boost_of field_name
                * inject_Z (Z.of_nat (Spec.pattern_hits field_name value)))) 1
  /\ Lightweight._calculate_confidence field_name value full_text base_confidence <= 1
  /\ (Spec.boost_of "invoice_number" = 0.1 /\ Spec.boost_of "total_amount" = 0.15
      /\ Spec.boost_of "vendor_name" = 0.05).
Proof.
  split; [apply calculate_confidence_eq|]. split.
  - rewrite calculate_confidence_eq. apply Q.le_min_r.
  - repeat split.
Qed.

(* ===================================================================== *)
(** ** The regex pass on a text without an invoice number *)
(* ===================================================================== *)

Lemma fold_keep_best_none {A} (g : A -> option (string * Q)) (l : list A)
  (best : option string * Q) :
  (forall r, In r l -> g r = None) ->
  fold_left (fun b r => keep_best b (g r)) l best = best.
Proof.
  revert best. induction l as [|x l IH]; intros best H; [reflexivity|].
  cbn [fold_left]. rewrite (H x) by (left; reflexivity). cbn [keep_best].
  apply IH. intros r Hr. apply H. right. exact Hr.
Qed.

Lemma in_enumerate {A} (l : list A) (i : nat) (x : A) :
  In (i, x) (Transformer.enumerate l) -> In x l.
Proof. unfold Transformer.enumerate. apply in_combine_r. Qed.

Lemma best_pattern_match_none (field_type text : string) (pats : list Re.regex) :
  (forall pattern, In pattern pats -> Re.re_findall Re.ICASE pattern text = []) ->
  Transformer.best_pattern_match field_type text pats = (None, 0).
Proof.
  intros H. unfold Transformer.best_pattern_match, Transformer.try_pattern.
  apply fold_keep_best_none.
  intros [i pattern] Hin. apply in_enumerate in Hin.
  unfold Transformer.pattern_candidate. rewrite (H pattern Hin). reflexivity.
Qed.

Lemma regex_fold_none (text : string) (table : list (string * list Re.regex))
  (results : gmap string (string * Q)) :
  (forall entry pattern, In entry table -> In pattern (snd entry) ->
                         Re.re_findall Re.ICASE pattern text = []) ->
  fold_left (Transformer.regex_step text) table results = results.
Proof.
  revert results. induction table as [|[field pats] table IH]; intros results H;
    [reflexivity|].
  cbn [fold_left]. unfold Transformer.regex_step at 2.
  rewrite best_pattern_match_none.
  - apply IH. intros entry pattern He Hp. apply (H entry pattern); [right|]; assumption.
  - intros pattern Hp. apply (H (field, pats) pattern); [left; reflexivity | exact Hp].
Qed.

(** C9.  For every text on which no invoice-number rule of the regex pass
    matches, [_extract_with_enhanced_regex] (a total function: it returns
    on every text) returns a result without the key [invoice_number]; and
    on a text on which no rule of any field matches it returns the empty
    result. *)
Theorem C9_no_invoice_number (text : string) :
  (forall pattern, In pattern Transformer.invoice_number_patterns ->
                   Re.re_findall Re.ICASE pattern text = []) ->
  Transformer._extract_with_enhanced_regex text !! "invoice_number" = None
  /\ ((forall entry pattern, In entry Transformer.fallback_patterns ->
                             In pattern (snd entry) ->
                             Re.re_findall Re.ICASE pattern text = []) ->
      Transformer._extract_with_enhanced_regex text = ∅).
Proof.
  intros H. split.
  - pose proof (enhanced_regex_lookup text
                  ("invoice_number", Transformer.invoice_number_patterns)
                  (or_introl eq_refl)) as E.
    cbn [fst snd] in E. rewrite E. clear E. cbv zeta.
    rewrite (best_pattern_match_none _ _ _ H). reflexivity.
  - intros Hall. apply regex_fold_none. exact Hall.
Qed.

Lemma C9_witness :
  let text := "Thank you for your business!" in
  (forall pattern, In pattern Transformer.invoice_number_patterns ->
                   Re.re_findall Re.ICASE pattern text = [])
  /\ Transformer._extract_with_enhanced_regex text !! "invoice_number" = None
  /\ Transformer._extract_with_enhanced_regex text = ∅.
Proof.
  cbv zeta.
  assert (Hall : forall entry pattern, In entry Transformer.fallback_patterns ->
                   In pattern (snd entry) ->
                   Re.re_findall Re.ICASE pattern "Thank you for your business!" = []).
  { intros entry pattern He Hp.
    repeat (destruct He as [<- | He];
            [repeat (destruct Hp as [<- | Hp]; [vm_compute; reflexivity|]); destruct Hp|]).
    destruct He. }
  assert (H : forall pattern, In pattern Transformer.invoice_number_patterns ->
                Re.re_findall Re.ICASE pattern "Thank you for your business!" = []).
  { intros pattern Hp.
    exact (Hall ("invoice_number", Transformer.invoice_number_patterns) pattern
                (or_introl eq_refl) Hp). }
  destruct (C9_no_invoice_number "Thank you for your business!" H) as [H1 H2].
  split; [exact H|]. split; [exact H1 | exact (H2 Hall)].
Defined.

(* ===================================================================== *)
(** ** The additional regex pass of the coordinator *)
(* ===================================================================== *)

Section AdditionalFields.

Lemma head_matches_from (fl : Re.flags) (r : Re.regex) (rest : string) (pos : nat)
  (prev : option ascii) :
  head (Re.matches_from fl r pos prev rest 0) = Re.search_from fl r pos prev rest.
Proof.
  revert pos prev. induction rest as [|c t IH]; intros pos prev;
    cbn [Re.matches_from Re.search_from].
  - destruct (Re.try_at fl r pos prev ""); reflexivity.
  - destruct (Re.try_at fl r pos prev (String c t)); [reflexivity | apply IH].
Qed.

(** The first element of [re.findall] is the leftmost match. *)
Lemma head_findall (fl : Re.flags) (r : Re.regex) (text : string) :
  head (Re.re_findall fl r text) = Spec.leftmost fl r text.
Proof.
  unfold Re.re_findall, Spec.leftmost, Re.re_search, Spec.match_text.
  rewrite <- head_matches_from.
  destruct (Re.has_group r); destruct (Re.matches_from fl r 0 None text 0); reflexivity.
Qed.

Lemma first_match_first_of (fl : Re.flags) (pats : list Re.regex) (text : string) :
  PDF.first_match fl pats text = Spec.first_of fl pats text.
Proof.
  induction pats as [|r pats IH]; cbn [PDF.first_match Spec.first_of]; [reflexivity|].
  rewrite <- head_findall.
  destruct (Re.re_findall fl r text); [exact IH | reflexivity].
Qed.

Lemma additional_fields_lookup (text key : string) :
  PDF._extract_additional_fields text !! key
  = if String.eqb key "vendor_address" then Spec.first_of Re.ICASE PDF.address_patterns text
    else if String.eqb key "vendor_phone" then Spec.leftmost Re.no_flags PDF.phone_pattern text
    else if String.eqb key "vendor_email" then Spec.leftmost Re.no_flags PDF.email_pattern text
    else None.
Proof.
  unfold PDF._extract_additional_fields.
  rewrite first_match_first_of, !head_findall.
  destruct (String.eqb_spec key "vendor_address") as [-> | Ha].
  { unfold set_if at 1. destruct (Spec.first_of _ _ _).
    - apply lookup_insert_eq.
    - unfold set_if. destruct (Spec.leftmost _ PDF.phone_pattern _);
        [rewrite lookup_insert_ne by discriminate|];
        (destruct (Spec.leftmost _ PDF.email_pattern _);
         [rewrite lookup_insert_ne by discriminate|]); apply lookup_empty. }
  assert (Ea : forall (o : option string) (m : gmap string string),
             set_if "vendor_address" o m !! key = m !! key).
  { intros [v|] m; [|reflexivity]. apply lookup_insert_ne. congruence. }
  rewrite Ea.
  destruct (String.eqb_spec key "vendor_phone") as [-> | Hp].
  { unfold set_if at 1. destruct (Spec.leftmost _ PDF.phone_pattern _).
    - apply lookup_insert_eq.
    - unfold set_if. destruct (Spec.leftmost _ PDF.email_pattern _);
        [rewrite lookup_insert_ne by discriminate|]; apply lookup_empty. }
  assert (Ep : forall (o : option string) (m : gmap string string),
             set_if "vendor_phone" o m !! key = m !! key).
  { intros [v|] m; [|reflexivity]. apply lookup_insert_ne. congruence. }
  rewrite Ep.
  destruct (String.eqb_spec key "vendor_email") as [-> | He].
  { unfold set_if. destruct (Spec.leftmost _ PDF.email_pattern _);
      [apply lookup_insert_eq | apply lookup_empty]. }
  unfold set_if. destruct (Spec.leftmost _ PDF.email_pattern _);
    [rewrite lookup_insert_ne by congruence|]; apply lookup_empty.
Qed.

End AdditionalFields.

(** C10.  For every text on which the active strategy returns, the fields
    returned by [extract_invoice_fields] are the strategy's fields
    overwritten by a further regex pass: under [vendor_email] the first
    email-shaped substring of the text, under [vendor_phone] the first
    phone-shaped substring, under [vendor_address] the first match of the
    first address pattern that occurs; a key for which the pass finds
    nothing, and every other key, keeps what the strategy produced. *)
Theorem C10_additional_fields_overwrite (self : PDF.PDFProcessor) (text : string)
  (ai : ai_results) :
  PDF.ai_processor self text = Some ai ->
  forall key : string,
    PDF.extract_invoice_fields self text !! key
    = match (if String.eqb key "vendor_address"
             then Spec.first_of Re.ICASE PDF.address_patterns text
             else if String.eqb key "vendor_phone"
             then Spec.leftmost Re.no_flags PDF.phone_pattern text
             else if String.eqb key "vendor_email"
             then Spec.leftmost Re.no_flags PDF.email_pattern text
             else None) with
      | Some found => Some found
      | None => extracted_fields ai !! key
      end.
Proof.
  intros Hai key. unfold PDF.extract_invoice_fields. rewrite Hai.
  rewrite lookup_union, additional_fields_lookup.
  destruct (if String.eqb key "vendor_address" then _ else _) as [v|].
  - destruct (extracted_fields ai !! key); reflexivity.
  - destruct (extracted_fields ai !! key); reflexivity.
Qed.

Lemma C10_witness :
  let P := Transformer.Processor false None None in
  let text := "Contact: support@acme.com Phone: 555-123-4567" in
  PDF.ai_processor (PDF.init P) text = Some (Transformer.extract_with_transformers P text)
  /\ PDF.extract_invoice_fields (PDF.init P) text !! "vendor_email" = Some "support@acme.com"
  /\ PDF.extract_invoice_fields (PDF.init P) text !! "vendor_phone" = Some "555-123-4567".
Proof.
  cbv zeta. split; [reflexivity|].
  split.
  - rewrite (C10_additional_fields_overwrite
               (PDF.init (Transformer.Processor false None None))
               "Contact: support@acme.com Phone: 555-123-4567" _ eq_refl "vendor_email").
    vm_compute. reflexivity.
  - rewrite (C10_additional_fields_overwrite
               (PDF.init (Transformer.Processor false None None))
               "Contact: support@acme.com Phone: 555-123-4567" _ eq_refl "vendor_phone").
    vm_compute. reflexivity.
Defined.

(* ===================================================================== *)
(** ** The fallback of the coordinator *)
(* ===================================================================== *)

Lemma lookup_set_if {V} (k k' : string) (o : option V) (m : gmap string V) :
  set_if k o m !! k'
  = if String.eqb k' k then match o with Some v => Some v | None => m !! k' end
    else m !! k'.
Proof.
  destruct (String.eqb_spec k' k) as [-> | Hne]; destruct o as [v|]; cbn [set_if];
    try reflexivity.
  - apply lookup_insert_eq.
  - apply lookup_insert_ne. congruence.
Qed.

(** What [_fallback_extraction] leaves under each key. *)
Lemma fallback_extraction_lookup (text key : string) :
  PDF._fallback_extraction text !! key
  = if String.eqb key "invoice_number"
    then Spec.first_of Re.ICASE PDF.basic_invoice_number_patterns text
    else if String.eqb key "total_amount"
    then Spec.first_of Re.ICASE PDF.basic_total_amount_patterns text
    else if String.eqb key "invoice_date"
    then Spec.first_of Re.ICASE PDF.basic_invoice_date_patterns text
    else if String.eqb key "vendor_name"
    then PDF.vendor_line (take 10 (Py.split_on Re.newline text))
    else None.
Proof.
  unfold PDF._fallback_extraction, PDF.basic_patterns. cbn [fold_left].
  set (fields := set_if "vendor_name" _ _).
  assert (Hv : fields !! "vendor_name" = None).
  { unfold fields. rewrite !lookup_set_if, lookup_empty. eval_eqb. reflexivity. }
  unfold Transformer.absent. rewrite Hv.
  rewrite lookup_set_if. unfold fields. rewrite !lookup_set_if, lookup_empty.
  rewrite !first_match_first_of.
  destruct (String.eqb_spec key "invoice_number") as [-> | H1];
    [eval_eqb; destruct (Spec.first_of _ _ _); reflexivity|].
  destruct (String.eqb_spec key "total_amount") as [-> | H2];
    [eval_eqb; destruct (Spec.first_of _ _ _); reflexivity|].
  destruct (String.eqb_spec key "invoice_date") as [-> | H3];
    [eval_eqb; destruct (Spec.first_of _ _ _); reflexivity|].
  destruct (String.eqb_spec key "vendor_name") as [-> | H4];
    [eval_eqb; destruct (PDF.vendor_line _); reflexivity|].
  reflexivity.
Qed.

(** C2 as stated fails: on the text "due 01/02/2024", with a strategy that
    raises, the coordinator's fallback returns no field at all, while the
    regex strategy called on the same text returns [invoice_date],
    [due_date] and [total_amount]. *)
Lemma C2_counterexample :
  let self := {| PDF.ai_processor := fun _ => None |} in
  let text := "due 01/02/2024" in
  PDF.ai_processor self text = None
  /\ PDF.extract_invoice_fields self text = ∅
  /\ fst <$> Transformer._extract_with_enhanced_regex text
     = {[ "invoice_date" := "01/02/2024"; "due_date" := "01/02/2024";
          "total_amount" := "2024" ]}
  /\ PDF.extract_invoice_fields self text
     <> fst <$> Transformer._extract_with_enhanced_regex text.
Proof.
  cbv zeta. split; [reflexivity|]. split; [vm_compute; reflexivity|].
  split; [vm_compute; reflexivity|].
  intros E.
  assert (H : PDF.extract_invoice_fields {| PDF.ai_processor := fun _ => None |}
                "due 01/02/2024" !! "due_date"
              = (fst <$> Transformer._extract_with_enhanced_regex "due 01/02/2024")
                  !! "due_date") by (rewrite E; reflexivity).
  vm_compute in H. discriminate H.
Qed.

(** C2 (amended).  For every text, if the active strategy raises during
    [extract_invoice_fields], the coordinator catches it and returns the
    result of its own basic pattern extraction ([_fallback_extraction]) on
    the same text: under [invoice_number], [total_amount] and
    [invoice_date] the first match of the first basic rule of the field
    that matches, under [vendor_name] the first of the first ten lines
    that looks like a name, and nothing else. *)
Theorem C2_fallback_is_basic_extraction (self : PDF.PDFProcessor) (text : string) :
  PDF.ai_processor self text = None ->
  PDF.extract_invoice_fields self text = PDF._fallback_extraction text
  /\ forall key : string,
       PDF.extract_invoice_fields self text !! key
       = if String.eqb key "invoice_number"
         then Spec.first_of Re.ICASE PDF.basic_invoice_number_patterns text
         else if String.eqb key "total_amount"
         then Spec.first_of Re.ICASE PDF.basic_total_amount_patterns text
         else if String.eqb key "invoice_date"
         then Spec.first_of Re.ICASE PDF.basic_invoice_date_patterns text
         else if String.eqb key "vendor_name"
         then PDF.vendor_line (take 10 (Py.split_on Re.newline text))
         else None.
Proof.
  intros H. unfold PDF.extract_invoice_fields. rewrite H.
  split; [reflexivity|]. intros key. apply fallback_extraction_lookup.
Qed.

Lemma C2_witness :
  let self := {| PDF.ai_processor := fun _ => None |} in
  let text := "Acme Corp" ++ String Re.newline "Invoice: INV-77 total $5.00" in
  PDF.ai_processor self text = None
  /\ PDF.extract_invoice_fields self text !! "invoice_number" = Some "INV-77"
  /\ PDF.extract_invoice_fields self text !! "vendor_name" = Some "Acme Corp".
Proof.
  cbv zeta.
  pose proof (C2_fallback_is_basic_extraction
                {| PDF.ai_processor := fun _ => None |}
                ("Acme Corp" ++ String Re.newline "Invoice: INV-77 total $5.00")
                eq_refl) as [_ H].
  split; [reflexivity|]. split.
  - rewrite (H "invoice_number"). vm_compute. reflexivity.
  - rewrite (H "vendor_name"). vm_compute. reflexivity.
Defined.

(* ===================================================================== *)
(** ** The entity pass of Tier-A *)
(* ===================================================================== *)

(** Where the confidence of [total_amount] in the entity pass comes from:
    an amount-shaped entity of type MONEY or CARDINAL, whose score is
    discounted. *)
Lemma ner_fold_total_amount (entities : list Transformer.entity) (c : Q) :
  snd (fold_left Transformer.ner_step entities (∅, ∅)) !! "total_amount" = Some c ->
  exists e : Transformer.entity,
    In e entities
    /\ (Transformer.entity_group e = "MONEY" \/ Transformer.entity_group e = "CARDINAL")
    /\ Re.found (Re.re_search Re.no_flags Transformer.amount_shape (Transformer.word e)) = true
    /\ c = Transformer.score e * 0.8.
Proof.
  revert c. induction entities as [|x entities IH] using rev_ind; intros c.
  - cbn. rewrite lookup_empty. discriminate.
  - rewrite fold_left_app. cbn [fold_left].
    destruct (fold_left Transformer.ner_step entities (∅, ∅)) as [fields confidence].
    cbn [snd] in IH.
    assert (Keep : confidence !! "total_amount" = Some c ->
                   exists e, In e (entities ++ [x])
                     /\ (Transformer.entity_group e = "MONEY"
                         \/ Transformer.entity_group e = "CARDINAL")
                     /\ Re.found (Re.re_search Re.no_flags Transformer.amount_shape
                                    (Transformer.word e)) = true
                     /\ c = Transformer.score e * 0.8).
    { intros H. destruct (IH c H) as (e & Hin & He). exists e.
      split; [apply in_or_app; left; exact Hin | exact He]. }
    unfold Transformer.ner_step.
    destruct (String.eqb (Transformer.entity_group x) "ORG"
              || String.eqb (Transformer.entity_group x) "ORGANIZATION").
    { destruct (Transformer.absent _ _ || _); cbn [snd];
        [rewrite lookup_insert_ne by discriminate|]; exact Keep. }
    destruct (String.eqb (Transformer.entity_group x) "MONEY"
              || String.eqb (Transformer.entity_group x) "CARDINAL") eqn:T.
    { destruct (Re.found _) eqn:F; [|exact Keep].
      destruct (Transformer.absent _ _ || _); [|exact Keep].
      cbn [snd]. rewrite lookup_insert_eq. intros [= <-].
      exists x. split; [apply in_or_app; right; left; reflexivity|].
      split; [|split; [exact F | reflexivity]].
      apply orb_true_iff in T. destruct T as [T | T]; apply String.eqb_eq in T; auto. }
    destruct (String.eqb (Transformer.entity_group x) "DATE"); [|exact Keep].
    destruct (Transformer.absent _ _ || _); cbn [snd];
      [rewrite lookup_insert_ne by discriminate|]; exact Keep.
Qed.

(** C7 as stated fails: an amount entity of the dedicated type MONEY with
    probability 0.9 is recorded with confidence 0.9 x 0.8 = 0.72. *)
Lemma C7_counterexample :
  let ner := fun _ : string => Some [Transformer.Entity "$100.00" "MONEY" 0.9] in
  let result := Transformer._extract_with_ner ner "Total $100.00" in
  fst result !! "total_amount" = Some "100.00"
  /\ snd result !! "total_amount" = Some (0.9 * 0.8)
  /\ 0.9 * 0.8 == 0.72
  /\ ~ 0.9 * 0.8 == 0.9.
Proof.
  cbv zeta. split; [vm_compute; reflexivity|]. split; [vm_compute; reflexivity|].
  split; [reflexivity|]. vm_compute. discriminate.
Qed.

(** C7 (amended).  In the entity pass [_extract_with_ner], the x0.8
    discount is applied to every amount entity, whether its type is the
    dedicated money category (MONEY) or the generic numeric one
    (CARDINAL): whenever the pass records a confidence for [total_amount],
    that confidence is 0.8 times the probability of an amount-shaped
    entity of one of the two types. *)
Theorem C7_amounts_always_discounted (ner : string -> option (list Transformer.entity))
  (text : string) (c : Q) :
  snd (Transformer._extract_with_ner ner text) !! "total_amount" = Some c ->
  exists (entities : list Transformer.entity) (e : Transformer.entity),
    Transformer.all_entities ner (Transformer.chunks text) = Some entities
    /\ In e entities
    /\ (Transformer.entity_group e = "MONEY" \/ Transformer.entity_group e = "CARDINAL")
    /\ Re.found (Re.re_search Re.no_flags Transformer.amount_shape (Transformer.word e)) = true
    /\ c = Transformer.score e * 0.8.
Proof.
  unfold Transformer._extract_with_ner.
  destruct (Transformer.all_entities ner (Transformer.chunks text)) as [entities|].
  - intros H. apply ner_fold_total_amount in H. destruct H as (e & He).
    exists entities, e. split; [reflexivity | exact He].
  - cbn. rewrite lookup_empty. discriminate.
Qed.

Lemma C7_witness :
  let ner := fun _ : string => Some [Transformer.Entity "12,500" "CARDINAL" 0.6] in
  snd (Transformer._extract_with_ner ner "Pay 12,500") !! "total_amount" = Some (0.6 * 0.8)
  /\ exists (entities : list Transformer.entity) (e : Transformer.entity),
       Transformer.all_entities ner (Transformer.chunks "Pay 12,500") = Some entities
       /\ In e entities
       /\ (Transformer.entity_group e = "MONEY" \/ Transformer.entity_group e = "CARDINAL")
       /\ Re.found (Re.re_search Re.no_flags Transformer.amount_shape (Transformer.word e))
          = true
       /\ 0.6 * 0.8 = Transformer.score e * 0.8.
Proof.
  cbv zeta.
  assert (H : snd (Transformer._extract_with_ner
                     (fun _ : string => Some [Transformer.Entity "12,500" "CARDINAL" 0.6])
                     "Pay 12,500") !! "total_amount" = Some (0.6 * 0.8))
    by (vm_compute; reflexivity).
  split; [exact H|].
  exact (C7_amounts_always_discounted _ "Pay 12,500" (0.6 * 0.8) H).
Defined.

(* ===================================================================== *)
(** ** Heuristic confidence of the coordinator *)
(* ===================================================================== *)





(* ===================================================================== *)
(** ** The merge of the three passes of Tier-A *)
(* ===================================================================== *)

Section Merge.

(** [taken acc key data] decides from what [acc] holds under [key] alone. *)
Variable taken : gmap string string * gmap string Q -> string -> string * Q -> bool.

Hypothesis taken_local :
  forall acc acc' key data,
    fst acc !! key = fst acc' !! key -> snd acc !! key = snd acc' !! key ->
    taken acc key data = taken acc' key data.

Lemma merge_fold_lookup (proposals : gmap string (string * Q))
  (acc : gmap string string * gmap string Q) (key : string) :
  let out := map_fold (Spec.merge_with taken) acc proposals in
  (fst out !! key, snd out !! key)
  = match proposals !! key with
    | Some data =>
        if taken acc key data then (Some (fst data), Some (snd data))
        else (fst acc !! key, snd acc !! key)
    | None => (fst acc !! key, snd acc !! key)
    end.
Proof.
  cbv zeta. revert key.
  apply (map_fold_weak_ind
           (fun out proposals => forall key,
              (fst out !! key, snd out !! key)
              = match proposals !! key with
                | Some data =>
                    if taken acc key data then (Some (fst data), Some (snd data))
                    else (fst acc !! key, snd acc !! key)
                | None => (fst acc !! key, snd acc !! key)
                end)).
  - intros key. rewrite lookup_empty. reflexivity.
  - intros i x m r Hi IH key.
    destruct (decide (i = key)) as [-> | Hne].
    + rewrite lookup_insert_eq.
      specialize (IH key). rewrite Hi in IH. injection IH as IH1 IH2.
      unfold Spec.merge_with. rewrite (taken_local r acc key x IH1 IH2).
      destruct (taken acc key x); cbn [fst snd].
      * rewrite !lookup_insert_eq. reflexivity.
      * rewrite IH1, IH2. reflexivity.
    + rewrite lookup_insert_ne by exact Hne. rewrite <- IH.
      unfold Spec.merge_with. destruct (taken r i x); cbn [fst snd]; [|reflexivity].
      rewrite !lookup_insert_ne by exact Hne. reflexivity.
Qed.

End Merge.

Section TierAMerge.

Lemma ner_step_keys (acc : gmap string string * gmap string Q) (e : Transformer.entity) :
  Spec.keys_scored acc -> Spec.keys_scored (Transformer.ner_step acc e).
Proof.
  intros Inv. destruct acc as [fields confidence].
  assert (Ins : forall k (v : string) (c : Q),
             Spec.keys_scored (<[k := v]> fields, <[k := c]> confidence)).
  { intros k v c key. cbn [fst snd]. destruct (decide (k = key)) as [-> | Hne].
    - rewrite !lookup_insert_eq. eauto.
    - rewrite !lookup_insert_ne by exact Hne. apply Inv. }
  unfold Transformer.ner_step.
  repeat match goal with
         | |- Spec.keys_scored (if ?b then _ else _) => destruct b
         end; auto.
Qed.

Lemma ner_fold_keys (entities : list Transformer.entity)
  (acc : gmap string string * gmap string Q) :
  Spec.keys_scored acc -> Spec.keys_scored (fold_left Transformer.ner_step entities acc).
Proof.
  revert acc. induction entities as [|e entities IH]; intros acc Inv; [exact Inv|].
  cbn [fold_left]. apply IH, ner_step_keys, Inv.
Qed.

Lemma empty_keys_scored : Spec.keys_scored (∅, ∅).
Proof. intros key [v Hv]. cbn in Hv. rewrite lookup_empty in Hv. discriminate. Qed.

Lemma extract_with_ner_keys (ner : string -> option (list Transformer.entity))
  (text : string) :
  Spec.keys_scored (Transformer._extract_with_ner ner text).
Proof.
  unfold Transformer._extract_with_ner.
  destruct (Transformer.all_entities _ _); [apply ner_fold_keys|]; apply empty_keys_scored.
Qed.

Lemma merge_qa_lookup (proposals : gmap string (string * Q))
  (acc : gmap string string * gmap string Q) (key : string) :
  let out := map_fold Transformer.merge_qa acc proposals in
  (fst out !! key, snd out !! key)
  = match proposals !! key with
    | Some data =>
        if Transformer.absent (fst acc) key
           || Qgtb (snd data) (Transformer.get0 (snd acc) key)
        then (Some (fst data), Some (snd data))
        else (fst acc !! key, snd acc !! key)
    | None => (fst acc !! key, snd acc !! key)
    end.
Proof.
  apply (merge_fold_lookup
           (fun acc key data =>
              Transformer.absent (fst acc) key
              || Qgtb (snd data) (Transformer.get0 (snd acc) key))).
  intros a a' k data H1 H2. unfold Transformer.absent, Transformer.get0.
  rewrite H1, H2. reflexivity.
Qed.

Lemma merge_regex_lookup (proposals : gmap string (string * Q))
  (acc : gmap string string * gmap string Q) (key : string) :
  let out := map_fold Transformer.merge_regex acc proposals in
  (fst out !! key, snd out !! key)
  = match proposals !! key with
    | Some data =>
        if Transformer.absent (fst acc) key
        then (Some (fst data), Some (snd data))
        else (fst acc !! key, snd acc !! key)
    | None => (fst acc !! key, snd acc !! key)
    end.
Proof.
  apply (merge_fold_lookup (fun acc key data => Transformer.absent (fst acc) key)).
  intros a a' k data H1 H2. unfold Transformer.absent. rewrite H1. reflexivity.
Qed.

(** The two dicts after the three passes, key by key. *)
Lemma merged_passes_lookup (self : Transformer.processor) (text key : string) :
  let acc0 := match Transformer.ner_pipeline self with
              | Some ner => Transformer._extract_with_ner ner text
              | None => (∅, ∅)
              end in
  let acc1 := match Transformer.qa_pipeline self with
              | Some qa =>
                  map_fold Transformer.merge_qa acc0 (Transformer._extract_with_qa qa text)
              | None => acc0
              end in
  let acc2 := map_fold Transformer.merge_regex acc1
                (Transformer._extract_with_enhanced_regex text) in
  let w := Spec.merged (Spec.ner_proposal self text key) (Spec.qa_proposal self text key)
             (Spec.regex_proposal text key) in
  fst acc2 !! key = fst <$> w /\ (is_Some w -> snd acc2 !! key = snd <$> w).
Proof.
  cbv zeta.
  set (acc0 := match Transformer.ner_pipeline self with
               | Some ner => Transformer._extract_with_ner ner text
               | None => (∅, ∅)
               end).
  assert (Inv : Spec.keys_scored acc0).
  { unfold acc0. destruct (Transformer.ner_pipeline self);
      [apply extract_with_ner_keys | apply empty_keys_scored]. }
  assert (Hn : Spec.ner_proposal self text key = Spec.proposal acc0 key).
  { unfold Spec.ner_proposal, acc0. destruct (Transformer.ner_pipeline self); [reflexivity|].
    unfold Spec.proposal. cbn [fst]. rewrite lookup_empty. reflexivity. }
  rewrite Hn. clear Hn.
  set (acc1 := match Transformer.qa_pipeline self with
               | Some qa => map_fold Transformer.merge_qa acc0
                              (Transformer._extract_with_qa qa text)
               | None => acc0
               end).
  assert (H1 : (fst acc1 !! key, snd acc1 !! key)
               = match Spec.qa_proposal self text key with
                 | Some data =>
                     if Transformer.absent (fst acc0) key
                        || Qgtb (snd data) (Transformer.get0 (snd acc0) key)
                     then (Some (fst data), Some (snd data))
                     else (fst acc0 !! key, snd acc0 !! key)
                 | None => (fst acc0 !! key, snd acc0 !! key)
                 end).
  { unfold acc1, Spec.qa_proposal. destruct (Transformer.qa_pipeline self);
      [apply merge_qa_lookup | reflexivity]. }
  pose proof (merge_regex_lookup (Transformer._extract_with_enhanced_regex text) acc1 key)
    as H2.
  cbv zeta in H2. fold (Spec.regex_proposal text key) in H2.
  specialize (Inv key).
  unfold Spec.proposal, Spec.merged, Transformer.absent, Transformer.get0 in *.
  destruct (fst acc0 !! key) as [vn|] eqn:F0.
  - destruct (Inv (ltac:(eauto))) as [cn Hcn]. rewrite Hcn in *.
    destruct (Spec.qa_proposal self text key) as [[va ca]|]; cbn [fst snd orb] in H1.
    + destruct (Qgtb ca cn); injection H1 as E1 E2; rewrite E1 in H2;
        destruct (Spec.regex_proposal text key) as [[vr cr]|];
        injection H2 as E3 E4; rewrite E3, E4, ?E2; split; reflexivity.
    + injection H1 as E1 E2. rewrite E1 in H2.
      destruct (Spec.regex_proposal text key) as [[vr cr]|];
        injection H2 as E3 E4; rewrite E3, E4, ?E2; split; reflexivity.
  - destruct (Spec.qa_proposal self text key) as [[va ca]|]; cbn [fst snd orb] in H1.
    + injection H1 as E1 E2. rewrite E1 in H2.
      destruct (Spec.regex_proposal text key) as [[vr cr]|];
        injection H2 as E3 E4; rewrite E3, E4, ?E2; split; reflexivity.
    + injection H1 as E1 E2. rewrite E1 in H2.
      destruct (Spec.regex_proposal text key) as [[vr cr]|]; cbn [fst snd] in H2;
        injection H2 as E3 E4; rewrite E3; split; try reflexivity.
      * intros _. exact E4.
      * intros [x Hx]. discriminate Hx.
Qed.

End TierAMerge.

Lemma merged_bounds (n a r : option (string * Q)) (raw : string) (c : Q) :
  Spec.merged n a r = Some (raw, c) ->
  (forall vn cn, n = Some (vn, cn) -> cn <= c)
  /\ (forall va ca, a = Some (va, ca) -> ca <= c)
  /\ (n = None -> a = None -> r = Some (raw, c)).
Proof.
  unfold Spec.merged. destruct n as [[vn cn]|], a as [[va ca]|].
  - destruct (Qgtb ca cn) eqn:G; intros [= <- <-]; repeat split;
      try (intros ? ? [= <- <-]); try discriminate; try apply Qle_refl.
    + apply Qlt_le_weak, Qgtb_true, G.
    + apply Qgtb_false, G.
  - intros [= <- <-]. repeat split; try (intros ? ? [= <- <-]); try discriminate.
    apply Qle_refl.
  - intros [= <- <-]. repeat split; try (intros ? ? [= <- <-]); try discriminate.
    apply Qle_refl.
  - intros H. repeat split; try discriminate. intros _ _. exact H.
Qed.

(** C1 as stated fails: on the text "total 5.00" the QA pass proposes
    "5.00" with confidence 0.3 and the regex pass proposes "5.00" with
    confidence 0.85; both values pass normalization, and the emitted
    confidence is 0.3, not the maximum 0.85.  On the text
    "January 15, 2024" the regex pass proposes an [invoice_date] that
    validation rejects, and [confidence_scores] keeps its key. *)
Lemma C1_counterexample :
  let qa := fun question _ : string =>
              if String.eqb question "What is the total amount or total due?"
              then Some (Transformer.Answer "5.00" 0.3) else None in
  let self := Transformer.Processor false None (Some qa) in
  let result := Transformer.extract_with_transformers self "total 5.00" in
  let bare := Transformer.Processor false None None in
  let dated := Transformer.extract_with_transformers bare "January 15, 2024" in
  (extracted_fields result !! "total_amount" = Some "5.00"
   /\ confidence_scores result !! "total_amount" = Some 0.3
   /\ Spec.qa_proposal self "total 5.00" "total_amount" = Some ("5.00", 0.3)
   /\ Transformer.validate_field "total_amount" "5.00" = Some "5.00"
   /\ exists c, Spec.regex_proposal "total 5.00" "total_amount" = Some ("5.00", c)
                /\ c == 0.85 /\ 0.3 < c)
  /\ (extracted_fields dated !! "invoice_date" = None
      /\ Transformer.validate_field "invoice_date" "January 15, 2024" = None
      /\ exists c, Spec.regex_proposal "January 15, 2024" "invoice_date"
                   = Some ("January 15, 2024", c)
                   /\ confidence_scores dated !! "invoice_date" = Some c).
Proof.
  cbv zeta. split.
  - repeat (split; [vm_compute; reflexivity|]).
    eexists. split; [vm_compute; reflexivity|]. split; vm_compute; reflexivity.
  - repeat (split; [vm_compute; reflexivity|]).
    eexists. split; vm_compute; reflexivity.
Qed.

(** C1 (amended).  For every text and every field present in the
    [extracted_fields] returned by the heavy path of
    [extract_with_transformers], the value is the normalized candidate of
    the winning pass and [confidence_scores] holds that candidate's
    confidence: when the entity pass or the QA pass proposed the field,
    the winner is the one of the two with the higher confidence (the
    entity pass on a tie), whether or not the other's value would pass
    normalization, and the regex pass does not contribute; the regex
    pass's candidate wins only for a field that neither proposed.  The
    emitted confidence is thus the maximum over the entity and QA passes
    that proposed the field. *)
Theorem C1_merged_confidence (self : Transformer.processor) (text key value : string) :
  Transformer.use_lightweight self = false ->
  extracted_fields (Transformer.extract_with_transformers self text) !! key = Some value ->
  exists (raw : string) (c : Q),
    Spec.merged (Spec.ner_proposal self text key) (Spec.qa_proposal self text key)
                (Spec.regex_proposal text key) = Some (raw, c)
    /\ Transformer.validate_field key raw = Some value
    /\ confidence_scores (Transformer.extract_with_transformers self text) !! key = Some c
    /\ (forall vn cn, Spec.ner_proposal self text key = Some (vn, cn) -> cn <= c)
    /\ (forall va ca, Spec.qa_proposal self text key = Some (va, ca) -> ca <= c)
    /\ (Spec.ner_proposal self text key = None -> Spec.qa_proposal self text key = None ->
        Spec.regex_proposal text key = Some (raw, c)).
Proof.
  intros Hlw. unfold Transformer.extract_with_transformers. rewrite Hlw.
  cbn [extracted_fields confidence_scores].
  unfold Transformer._validate_and_enhance_fields. rewrite map_lookup_imap.
  destruct (merged_passes_lookup self text key) as [Hf Hc]. cbv zeta in Hf, Hc.
  rewrite Hf.
  destruct (Spec.merged _ _ _) as [[raw c]|] eqn:W; [|discriminate].
  cbn [fmap option_fmap option_map mbind option_bind fst]. intros Hv.
  exists raw, c. split; [reflexivity|]. split; [exact Hv|].
  split; [apply Hc; eauto|].
  apply (merged_bounds _ _ _ raw c W).
Qed.

Lemma C1_witness :
  let qa := fun question _ : string =>
              if String.eqb question "What is the total amount or total due?"
              then Some (Transformer.Answer "5.00" 0.3) else None in
  let self := Transformer.Processor false None (Some qa) in
  Transformer.use_lightweight self = false
  /\ extracted_fields (Transformer.extract_with_transformers self "total 5.00")
       !! "total_amount" = Some "5.00"
  /\ exists (raw : string) (c : Q),
       Spec.merged (Spec.ner_proposal self "total 5.00" "total_amount")
                   (Spec.qa_proposal self "total 5.00" "total_amount")
                   (Spec.regex_proposal "total 5.00" "total_amount") = Some (raw, c)
       /\ Transformer.validate_field "total_amount" raw = Some "5.00"
       /\ confidence_scores (Transformer.extract_with_transformers self "total 5.00")
            !! "total_amount" = Some c.
Proof.
  cbv zeta.
  set (self := Transformer.Processor false None
                 (Some (fun question _ : string =>
                          if String.eqb question "What is the total amount or total due?"
                          then Some (Transformer.Answer "5.00" 0.3) else None))).
  assert (H : extracted_fields (Transformer.extract_with_transformers self "total 5.00")
                !! "total_amount" = Some "5.00") by (vm_compute; reflexivity).
  split; [reflexivity|]. split; [exact H|].
  destruct (C1_merged_confidence self "total 5.00" "total_amount" "5.00" eq_refl H)
    as (raw & c & Hw & Hv & Hc & _).
  exists raw, c. split; [exact Hw|]. split; [exact Hv | exact Hc].
Defined.

(* ===================================================================== *)
(** * Further properties of the code *)
(* ===================================================================== *)

(* ===================================================================== *)
(** ** More facts about strings and the matcher *)
(* ===================================================================== *)

Section MoreStringFacts.

Variable p : ascii -> bool.

Lemma all_str_filter (s : string) : Py.all_str p (Py.filter_str p s) = true.
Proof.
  induction s as [|c t IH]; simpl; [reflexivity|].
  destruct (p c) eqn:E; simpl; [rewrite E|]; exact IH.
Qed.

Lemma filter_all (s : string) : Py.all_str p s = true -> Py.filter_str p s = s.
Proof.
  induction s as [|c t IH]; simpl; [reflexivity|].
  intros H. apply andb_true_iff in H. destruct H as [Hc Ht].
  rewrite Hc, (IH Ht). reflexivity.
Qed.

Lemma filter_idem (s : string) :
  Py.filter_str p (Py.filter_str p s) = Py.filter_str p s.
Proof. apply filter_all, all_str_filter. Qed.

Lemma all_str_app (a b : string) :
  Py.all_str p (a ++ b) = Py.all_str p a && Py.all_str p b.
Proof.
  induction a as [|c t IH]; simpl; [reflexivity|].
  rewrite IH, andb_assoc. reflexivity.
Qed.

Lemma all_str_take (n : nat) (s : string) :
  Py.all_str p s = true -> Py.all_str p (Py.take n s) = true.
Proof.
  revert s. induction n as [|n IH]; intros [|c t]; simpl; try reflexivity.
  intros H. apply andb_true_iff in H. destruct H as [Hc Ht]. rewrite Hc. apply IH, Ht.
Qed.

Lemma all_str_drop (n : nat) (s : string) :
  Py.all_str p s = true -> Py.all_str p (Py.drop n s) = true.
Proof.
  revert s. induction n as [|n IH]; intros [|c t]; simpl; try reflexivity; try tauto.
  intros H. apply andb_true_iff in H. apply IH, H.
Qed.

Lemma all_str_weaken (q : ascii -> bool) (s : string) :
  (forall c, p c = true -> q c = true) ->
  Py.all_str p s = true -> Py.all_str q s = true.
Proof.
  intros Hpq. induction s as [|c t IH]; simpl; [reflexivity|].
  intros H. apply andb_true_iff in H. destruct H as [Hc Ht].
  rewrite (Hpq c Hc), (IH Ht). reflexivity.
Qed.

Lemma len_filter_le (s : string) : (Py.len (Py.filter_str p s) <= Py.len s)%nat.
Proof.
  induction s as [|c t IH]; simpl; [lia|].
  destruct (p c); simpl; unfold Py.len in *; lia.
Qed.

End MoreStringFacts.

Section StripFacts.

Lemma lstrip_no_lead (s : string) : Py.no_lead (Py.lstrip s) = true.
Proof.
  induction s as [|c t IH]; simpl; [reflexivity|].
  destruct (Py.isspace c) eqn:E; [exact IH|]. simpl. rewrite E. reflexivity.
Qed.

Lemma lstrip_id (s : string) : Py.no_lead s = true -> Py.lstrip s = s.
Proof.
  destruct s as [|c t]; simpl; [reflexivity|].
  intros H. apply negb_true_iff in H. rewrite H. reflexivity.
Qed.

Lemma rstrip_no_lead (s : string) : Py.no_lead s = true -> Py.no_lead (Py.rstrip s) = true.
Proof.
  destruct s as [|c t]; simpl; [reflexivity|].
  intros H. destruct (Py.rstrip t).
  - apply negb_true_iff in H. rewrite H. simpl. rewrite H. reflexivity.
  - exact H.
Qed.

Lemma rstrip_cons (c : ascii) (t : string) :
  Py.rstrip (String c t)
  = match Py.rstrip t with
    | EmptyString => if Py.isspace c then EmptyString else String c EmptyString
    | t' => String c t'
    end.
Proof. reflexivity. Qed.

Lemma rstrip_idem (s : string) : Py.rstrip (Py.rstrip s) = Py.rstrip s.
Proof.
  induction s as [|c t IH]; [reflexivity|].
  rewrite rstrip_cons. destruct (Py.rstrip t) as [|c' t'] eqn:R.
  - destruct (Py.isspace c) eqn:E; [reflexivity|].
    rewrite rstrip_cons. cbn [Py.rstrip]. rewrite E. reflexivity.
  - rewrite rstrip_cons, IH. reflexivity.
Qed.

(** [s.strip().strip() == s.strip()] *)
Lemma strip_idem (s : string) : Py.strip (Py.strip s) = Py.strip s.
Proof.
  unfold Py.strip.
  rewrite (lstrip_id (Py.rstrip (Py.lstrip s))).
  - apply rstrip_idem.
  - apply rstrip_no_lead, lstrip_no_lead.
Qed.

End StripFacts.

(* ===================================================================== *)
(** ** Validation of the heavy path *)
(* ===================================================================== *)

Lemma re_sub_set (neg : bool) (items : list Re.item) (s : string) :
  Re.re_sub Re.no_flags (Re.Set_ neg items) "" s
  = Py.filter_str (fun c => negb (xorb neg (Re.in_set Re.no_flags items c))) s.
Proof. apply sub_set_empty. Qed.

(** A validated value validates to itself. *)
Lemma validate_field_idem (field value v : string) :
  Transformer.validate_field field value = Some v ->
  Transformer.validate_field field v = Some v.
Proof.
  unfold Transformer.validate_field, Re.nset. cbv zeta. rewrite !re_sub_set.
  destruct (String.eqb field "total_amount").
  { destruct (Re.found _) eqn:F; [|discriminate]. intros E; apply (inj Some) in E; subst v.
    rewrite filter_idem, F. reflexivity. }
  destruct (String.eqb field "invoice_date" || String.eqb field "due_date").
  { destruct (Re.found _) eqn:F; [|discriminate]. intros E; apply (inj Some) in E; subst v. rewrite F. reflexivity. }
  destruct (String.eqb field "invoice_number").
  { destruct (3 <=? _)%nat eqn:L; [|discriminate]. intros E; apply (inj Some) in E; subst v.
    rewrite filter_idem, L. reflexivity. }
  destruct (0 <? _)%nat eqn:L; [|discriminate]. intros E; apply (inj Some) in E; subst v.
  rewrite strip_idem, L. reflexivity.
Qed.

(** X1.  [_validate_and_enhance_fields] is idempotent: validating an
    already validated dict, against any text, changes nothing. *)
Theorem X1_validation_idempotent (fields : gmap string string) (text text' : string) :
  Transformer._validate_and_enhance_fields
    (Transformer._validate_and_enhance_fields fields text) text'
  = Transformer._validate_and_enhance_fields fields text.
Proof.
  unfold Transformer._validate_and_enhance_fields. apply map_eq. intros key.
  rewrite !map_lookup_imap.
  destruct (fields !! key) as [value|]; cbn [mbind option_bind]; [|reflexivity].
  destruct (Transformer.validate_field key value) as [v|] eqn:V; cbn [mbind option_bind];
    [|reflexivity].
  apply (validate_field_idem key value v V).
Qed.

(** X2.  Every value that the heavy path of [extract_with_transformers]
    returns passes the validation of its field unchanged. *)
Theorem X2_returned_values_are_valid (self : Transformer.processor)
  (text key value : string) :
  Transformer.use_lightweight self = false ->
  extracted_fields (Transformer.extract_with_transformers self text) !! key = Some value ->
  Transformer.validate_field key value = Some value.
Proof.
  intros Hlw. unfold Transformer.extract_with_transformers. rewrite Hlw.
  cbn [extracted_fields]. unfold Transformer._validate_and_enhance_fields.
  rewrite map_lookup_imap.
  destruct (_ !! key) as [raw|]; cbn [mbind option_bind]; [|discriminate].
  apply validate_field_idem.
Qed.

Lemma X2_witness :
  let self := Transformer.Processor false None None in
  let text := "Invoice: INV-77 total $5.00" in
  Transformer.use_lightweight self = false
  /\ extracted_fields (Transformer.extract_with_transformers self text) !! "total_amount"
     = Some "5.00"
  /\ Transformer.validate_field "total_amount" "5.00" = Some "5.00".
Proof.
  cbv zeta.
  assert (H : extracted_fields
                (Transformer.extract_with_transformers
                   (Transformer.Processor false None None) "Invoice: INV-77 total $5.00")
                !! "total_amount" = Some "5.00") by (vm_compute; reflexivity).
  split; [reflexivity|]. split; [exact H|].
  exact (X2_returned_values_are_valid (Transformer.Processor false None None)
           "Invoice: INV-77 total $5.00" "total_amount" "5.00" eq_refl H).
Defined.

(* ===================================================================== *)
(** ** Runs of blanks under [re.sub] *)
(* ===================================================================== *)

Section BlankRuns.

Import Re.

Lemma rep_loop_some (body : (mstate -> option mstate) -> mstate -> option mstate)
  (lo n cnt : nat) (st : mstate) :
  (lo <= cnt)%nat -> exists x, rep_loop body lo true Some n cnt st = Some x.
Proof.
  intros H. apply Nat.leb_le in H. destruct n as [|n]; cbn [rep_loop]; rewrite H.
  - eauto.
  - destruct (body _ st); eauto.
Qed.

Lemma rep_loop_head (p : ascii -> bool)
  (body : (mstate -> option mstate) -> mstate -> option mstate)
  (lo n cnt : nat) (st : mstate) (c : ascii) (t : string) :
  (forall k s, body k s = step p k s) ->
  m_rest st = String c t -> p c = true -> (lo <= S cnt)%nat ->
  rep_loop body lo true Some (S n) cnt st <> None.
Proof.
  intros Hb Hrest Hp Hlo. cbn [rep_loop]. rewrite Hb. unfold step. rewrite Hrest, Hp.
  destruct (rep_loop_some body lo n (S cnt)
              (MState (S (m_pos st)) (Some c) t (m_caps st)) Hlo) as [x Hx].
  rewrite Hx. discriminate.
Qed.

Lemma rmatch_blank (k : mstate -> option mstate) (s : mstate) :
  rmatch no_flags s_ k s = step Py.isspace k s.
Proof.
  unfold s_. cbn [rmatch]. unfold step.
  destruct (m_rest s) as [|c t]; [reflexivity|].
  replace (xorb false (in_set no_flags [ISpace] c)) with (Py.isspace c); [reflexivity|].
  unfold in_set, items_have. cbn [IGNORECASE no_flags existsb item_has].
  rewrite orb_false_r. reflexivity.
Qed.

(** [\s+] matches wherever a blank stands. *)
Lemma try_at_blank_head (pos : nat) (prev : option ascii) (c : ascii) (t : string) :
  Py.isspace c = true -> try_at no_flags (plus s_) pos prev (String c t) <> None.
Proof.
  intros Hc. unfold try_at, plus. cbn [rmatch].
  change (1 + String.length (m_rest (MState pos prev (String c t) [])))%nat
    with (S (String.length (String c t))).
  destruct (rep_loop _ _ _ _ _ _ _) eqn:R; [discriminate|].
  exfalso. revert R.
  apply (rep_loop_head Py.isspace _ 1 _ 0 (MState pos prev (String c t) []) c t
           rmatch_blank eq_refl Hc). lia.
Qed.

(** [re.sub(r'\s+', '', s)] removes exactly the blanks. *)
Lemma sub_blanks_empty (s : string) (pos : nat) (prev : option ascii) (skip : nat) :
  Py.all_prefix Py.isspace skip s = true ->
  sub_from no_flags (plus s_) "" pos prev s skip
  = Py.filter_str (fun c => negb (Py.isspace c)) s.
Proof.
  revert pos prev skip. induction s as [|c t IH]; intros pos prev skip Hskip.
  - destruct skip as [|skip]; [|discriminate].
    rewrite sub_from_nil.
    destruct (try_at no_flags (plus s_) pos prev EmptyString); reflexivity.
  - destruct skip as [|skip].
    + rewrite sub_from_cons.
      destruct (try_at no_flags (plus s_) pos prev (String c t)) as [m|] eqn:M.
      * apply try_at_blanks in M. destruct M as (j & Hend & Hall).
        cbn [Py.all_prefix] in Hall. apply andb_true_iff in Hall. destruct Hall as [Hc Hall].
        replace (m_end m =? pos)%nat with false by (symmetry; apply Nat.eqb_neq; lia).
        replace (m_end m - pos - 1)%nat with j by lia.
        rewrite (IH _ _ _ Hall). cbn [Py.filter_str]. rewrite Hc. reflexivity.
      * cbn [Py.filter_str].
        destruct (Py.isspace c) eqn:Hc.
        -- exfalso. exact (try_at_blank_head pos prev c t Hc M).
        -- cbn [negb]. rewrite (IH (S pos) (Some c) 0%nat eq_refl). reflexivity.
    + cbn [Py.all_prefix] in Hskip. apply andb_true_iff in Hskip.
      destruct Hskip as [Hc Hall].
      cbn [sub_from Py.filter_str]. rewrite Hc. cbn [negb]. apply IH. exact Hall.
Qed.

(** After [re.sub(r'\s+', repl, s)] every character is one of [repl] or a
    character of [s] that is not a blank. *)
Lemma sub_blanks_all (q : ascii -> bool) (repl : string) (s : string) (pos : nat)
  (prev : option ascii) (skip : nat) :
  Py.all_str q repl = true ->
  (forall c, Py.isspace c = false -> q c = true) ->
  Py.all_prefix Py.isspace skip s = true ->
  Py.all_str q (sub_from no_flags (plus s_) repl pos prev s skip) = true.
Proof.
  intros Hrepl Hq. revert pos prev skip.
  induction s as [|c t IH]; intros pos prev skip Hskip.
  - destruct skip as [|skip]; [|discriminate].
    rewrite sub_from_nil.
    destruct (try_at no_flags (plus s_) pos prev EmptyString); [|reflexivity].
    rewrite all_str_app, Hrepl. reflexivity.
  - destruct skip as [|skip].
    + rewrite sub_from_cons.
      destruct (try_at no_flags (plus s_) pos prev (String c t)) as [m|] eqn:M.
      * apply try_at_blanks in M. destruct M as (j & Hend & Hall).
        cbn [Py.all_prefix] in Hall. apply andb_true_iff in Hall. destruct Hall as [Hc Hall].
        replace (m_end m =? pos)%nat with false by (symmetry; apply Nat.eqb_neq; lia).
        replace (m_end m - pos - 1)%nat with j by lia.
        rewrite all_str_app, Hrepl, (IH _ _ _ Hall). reflexivity.
      * cbn [Py.all_str].
        destruct (Py.isspace c) eqn:Hc.
        -- exfalso. exact (try_at_blank_head pos prev c t Hc M).
        -- rewrite (Hq c Hc), (IH (S pos) (Some c) 0%nat eq_refl). reflexivity.
    + cbn [Py.all_prefix] in Hskip. apply andb_true_iff in Hskip.
      destruct Hskip as [Hc Hall]. cbn [sub_from]. apply IH. exact Hall.
Qed.

End BlankRuns.

Section MoreFilters.

Lemma exists_str_app (p : ascii -> bool) (a b : string) :
  Py.exists_str p (a ++ b) = Py.exists_str p a || Py.exists_str p b.
Proof.
  induction a as [|c t IH]; simpl; [reflexivity|].
  rewrite IH, orb_assoc. reflexivity.
Qed.

Lemma filter_map_commute (p : ascii -> bool) (f : ascii -> ascii) (s : string) :
  (forall c, p (f c) = p c) ->
  Py.filter_str p (Py.map_str f s) = Py.map_str f (Py.filter_str p s).
Proof.
  intros H. induction s as [|c t IH]; simpl; [reflexivity|].
  rewrite H, IH. destruct (p c); reflexivity.
Qed.

Lemma map_str_idem (f : ascii -> ascii) (s : string) :
  (forall c, f (f c) = f c) -> Py.map_str f (Py.map_str f s) = Py.map_str f s.
Proof.
  intros H. induction s as [|c t IH]; simpl; [reflexivity|]. rewrite H, IH. reflexivity.
Qed.

Lemma all_str_map (p : ascii -> bool) (f : ascii -> ascii) (s : string) :
  (forall c, p (f c) = true) -> Py.all_str p (Py.map_str f s) = true.
Proof.
  intros H. induction s as [|c t IH]; simpl; [reflexivity|]. rewrite H, IH. reflexivity.
Qed.

Lemma all_str_and (p q : ascii -> bool) (s : string) :
  Py.all_str p s = true -> Py.all_str q s = true ->
  Py.all_str (fun c => p c && q c) s = true.
Proof.
  induction s as [|c t IH]; simpl; [reflexivity|].
  intros Hp Hq. apply andb_true_iff in Hp, Hq.
  destruct Hp as [-> Hp], Hq as [-> Hq]. rewrite (IH Hp Hq). reflexivity.
Qed.

Lemma all_str_filter_keeps (p q : ascii -> bool) (s : string) :
  Py.all_str q s = true -> Py.all_str q (Py.filter_str p s) = true.
Proof.
  induction s as [|c t IH]; simpl; [reflexivity|].
  intros H. apply andb_true_iff in H. destruct H as [Hc Ht].
  destruct (p c); simpl; [rewrite Hc|]; apply IH, Ht.
Qed.

Lemma all_str_lstrip (q : ascii -> bool) (s : string) :
  Py.all_str q s = true -> Py.all_str q (Py.lstrip s) = true.
Proof.
  induction s as [|c t IH]; simpl; [reflexivity|].
  intros H. destruct (Py.isspace c); [|exact H].
  apply andb_true_iff in H. apply IH, H.
Qed.

Lemma all_str_rstrip (q : ascii -> bool) (s : string) :
  Py.all_str q s = true -> Py.all_str q (Py.rstrip s) = true.
Proof.
  induction s as [|c t IH]; [reflexivity|].
  rewrite rstrip_cons. cbn [Py.all_str].
  intros H. apply andb_true_iff in H. destruct H as [Hc Ht]. specialize (IH Ht).
  destruct (Py.rstrip t) as [|c' t'].
  - destruct (Py.isspace c); simpl; [reflexivity | rewrite Hc; reflexivity].
  - cbn [Py.all_str] in *. rewrite Hc, IH. reflexivity.
Qed.

Lemma all_str_strip (q : ascii -> bool) (s : string) :
  Py.all_str q s = true -> Py.all_str q (Py.strip s) = true.
Proof. intros H. apply all_str_rstrip, all_str_lstrip, H. Qed.

Lemma isspace_upper (c : ascii) : Py.isspace (Py.upper_char c) = Py.isspace c.
Proof. destruct c as [[] [] [] [] [] [] [] []]; vm_compute; reflexivity. Qed.

Lemma upper_char_idem (c : ascii) : Py.upper_char (Py.upper_char c) = Py.upper_char c.
Proof. destruct c as [[] [] [] [] [] [] [] []]; vm_compute; reflexivity. Qed.

Lemma upper_char_not_lower (c : ascii) : Py.islower (Py.upper_char c) = false.
Proof. destruct c as [[] [] [] [] [] [] [] []]; vm_compute; reflexivity. Qed.

Lemma not_blank_blank (c : ascii) : Py.isspace c = true -> negb (Py.isspace c) = false.
Proof. intros ->. reflexivity. Qed.

End MoreFilters.

(* ===================================================================== *)
(** ** Clean-up of Tier-B values *)
(* ===================================================================== *)

Lemma clean_invoice_number (value : string) :
  Lightweight._clean_extracted_value "invoice_number" value
  = Py.upper (Py.filter_str (fun c => negb (Py.isspace c)) value).
Proof.
  unfold Lightweight._clean_extracted_value.
  change (String.eqb "invoice_number" "total_amount") with false.
  change (String.eqb "invoice_number" "vendor_name") with false.
  change (String.eqb "invoice_number" "invoice_number") with true. cbv iota.
  unfold Re.re_sub. rewrite sub_blanks_empty by reflexivity.
  unfold Py.upper. rewrite filter_map_commute by (intros c; rewrite isspace_upper; reflexivity).
  rewrite (filter_sub_blanks (fun c => negb (Py.isspace c)) not_blank_blank) by reflexivity.
  rewrite (filter_strip (fun c => negb (Py.isspace c)) not_blank_blank).
  reflexivity.
Qed.

(** X3.  The clean-up of an invoice number: the value upper-cased with
    every blank removed; so the result holds no blank and no lower-case
    letter, and cleaning it again changes nothing. *)
Theorem X3_invoice_number_cleanup (value : string) :
  let cleaned := Lightweight._clean_extracted_value "invoice_number" value in
  cleaned = Py.upper (Py.filter_str (fun c => negb (Py.isspace c)) value)
  /\ Py.all_str (fun c => negb (Py.isspace c) && negb (Py.islower c)) cleaned = true
  /\ Lightweight._clean_extracted_value "invoice_number" cleaned = cleaned.
Proof.
  cbv zeta. rewrite !clean_invoice_number. split; [reflexivity|]. split.
  - apply all_str_and.
    + unfold Py.upper.
      rewrite <- filter_map_commute by (intros c; rewrite isspace_upper; reflexivity).
      apply all_str_filter.
    + apply all_str_map. intros c. rewrite upper_char_not_lower. reflexivity.
  - unfold Py.upper.
    rewrite filter_map_commute by (intros c; rewrite isspace_upper; reflexivity).
    rewrite filter_idem. apply map_str_idem, upper_char_idem.
Qed.

(** X4.  The clean-up of a total amount: the result holds digits and dots
    only, has a dot as soon as it is longer than two characters, and
    cleaning it again changes nothing. *)
Theorem X4_total_amount_cleanup (value : string) :
  let cleaned := Lightweight._clean_extracted_value "total_amount" value in
  Py.all_str Spec.digit_or_dot cleaned = true
  /\ (Spec.has_dot cleaned = true \/ (Py.len cleaned <= 2)%nat)
  /\ Lightweight._clean_extracted_value "total_amount" cleaned = cleaned.
Proof.
  cbv zeta. rewrite !clean_total_amount. unfold Spec.normalize_currency. cbv zeta.
  set (kept := Py.filter_str Spec.digit_or_dot value).
  assert (Hk : Py.all_str Spec.digit_or_dot kept = true) by apply all_str_filter.
  assert (Hc : Py.all_str Spec.digit_or_dot (Spec.cents kept) = true).
  { unfold Spec.cents. rewrite !all_str_app.
    rewrite (all_str_take _ _ _ Hk), (all_str_drop _ _ _ Hk). reflexivity. }
  assert (Hd : Spec.has_dot (Spec.cents kept) = true).
  { unfold Spec.cents, Spec.has_dot. rewrite !exists_str_app.
    cbn [Py.exists_str]. change (Ascii.eqb "." ".") with true.
    rewrite orb_true_r. reflexivity. }
  destruct (negb (Spec.has_dot kept) && (2 <? Py.len kept)%nat) eqn:C.
  - split; [exact Hc|]. split; [left; exact Hd|].
    rewrite (filter_all _ _ Hc), Hd. reflexivity.
  - split; [exact Hk|]. split.
    + apply andb_false_iff in C. destruct C as [C | C].
      * left. apply negb_false_iff, C.
      * right. apply Nat.ltb_ge, C.
    + rewrite (filter_all _ _ Hk), C. reflexivity.
Qed.

(* ===================================================================== *)
(** ** Text preprocessing of the coordinator *)
(* ===================================================================== *)

Lemma kept_character (c : ascii) :
  negb (xorb true (Re.in_set Re.no_flags
                     [Re.IWord; Re.ISpace; Re.ch "-"; Re.ch "."; Re.ch ","; Re.ch ":";
                      Re.ch ";"; Re.ch "$"; Re.ch "%"; Re.ch "("; Re.ch ")"; Re.ch "/"] c))
  && (negb (Py.isspace c) || Ascii.eqb c " ") = true ->
  Py.isword c || Ascii.eqb c " "
  || existsb (Ascii.eqb c) ["-"; "."; ","; ":"; ";"; "$"; "%"; "("; ")"; "/"]%char = true.
Proof. destruct c as [[] [] [] [] [] [] [] []]; vm_compute; congruence. Qed.

(** X5.  [preprocess_text] returns a text made only of word characters,
    single-character blanks [' '] and the punctuation [-.,:;$%()/], and
    without a blank at either end. *)
Theorem X5_preprocess_text_alphabet (text : string) :
  Py.all_str (fun c => Py.isword c || Ascii.eqb c " "
                       || existsb (Ascii.eqb c)
                            ["-"; "."; ","; ":"; ";"; "$"; "%"; "("; ")"; "/"]%char)
             (PDF.preprocess_text text) = true
  /\ Py.strip (PDF.preprocess_text text) = PDF.preprocess_text text.
Proof.
  unfold PDF.preprocess_text, PDF.special_character, Re.nset. cbv zeta.
  rewrite re_sub_set. split; [|apply strip_idem].
  apply all_str_strip.
  eapply all_str_weaken; [exact kept_character|].
  apply all_str_and; [apply all_str_filter|].
  apply all_str_filter_keeps.
  unfold Re.re_sub. apply sub_blanks_all; [reflexivity| |reflexivity].
  intros c Hc. rewrite Hc. reflexivity.
Qed.

(* ===================================================================== *)
(** ** What the regex pass can return *)
(* ===================================================================== *)

Lemma context_confidence_bounds (field_type value text : string) :
  0.5 <= Transformer._calculate_context_confidence field_type value text <= 1.
Proof.
  unfold Transformer._calculate_context_confidence, Transformer.context_confidence_with.
  destruct (Py.find _ _); [|split; discriminate].
  destruct (Transformer.context_keywords field_type); [|split; discriminate].
  split.
  - apply Q.min_glb; [discriminate|].
    apply (Qle_trans _ (0.5 + 0)); [discriminate|].
    apply Qplus_le_r. apply Qmult_le_0_compat; [|discriminate].
    change 0 with (inject_Z 0). rewrite <- Zle_Qle. lia.
  - apply (Qle_trans _ 1.0); [apply Q.le_min_l | discriminate].
Qed.

Lemma enumerate_index {A} (l : list A) (i : nat) (x : A) :
  In (i, x) (Transformer.enumerate l) -> (i < List.length l)%nat.
Proof.
  unfold Transformer.enumerate. intros H. apply in_combine_l in H.
  apply List.in_seq in H. lia.
Qed.

Lemma pattern_candidate_bounds (field_type text : string) (pats : list Re.regex)
  (rule : nat * Re.regex) (v : string) (c : Q) :
  In rule (Transformer.enumerate pats) ->
  Transformer.pattern_candidate field_type text (List.length pats) rule = Some (v, c) ->
  0.25 < c /\ c <= 1.
Proof.
  destruct rule as [i pattern]. intros Hin. apply enumerate_index in Hin.
  unfold Transformer.pattern_candidate.
  destruct (Re.re_findall _ _ _) as [|first rest]; [discriminate|].
  intros E. apply (inj Some) in E. injection E as _ <-.
  destruct (context_confidence_bounds field_type first text) as [Hlo Hhi].
  set (ctx := Transformer._calculate_context_confidence field_type first text) in *.
  set (n := List.length pats) in *.
  assert (Hn : 0 < inject_Z (Z.of_nat n)).
  { change 0 with (inject_Z 0). rewrite <- Zlt_Qlt. lia. }
  assert (Hp : 0 < inject_Z (Z.of_nat (n - i)) / inject_Z (Z.of_nat n)).
  { apply Qlt_shift_div_l; [exact Hn|]. rewrite Qmult_0_l.
    change 0 with (inject_Z 0). rewrite <- Zlt_Qlt. lia. }
  assert (Hq : inject_Z (Z.of_nat (n - i)) / inject_Z (Z.of_nat n) <= 1).
  { apply Qle_shift_div_r; [exact Hn|]. rewrite Qmult_1_l.
    rewrite <- Zle_Qle. lia. }
  split.
  - apply Qlt_shift_div_l; [reflexivity|].
    apply (Qle_lt_trans _ (0 + 0.5)); [discriminate|].
    apply Qplus_lt_le_compat; assumption.
  - apply Qle_shift_div_r; [reflexivity|].
    apply (Qle_trans _ (1 + 1)); [|discriminate].
    apply Qplus_le_compat; assumption.
Qed.

(** X6.  Whatever the text, the regex pass [_extract_with_enhanced_regex]
    returns values only under [invoice_number], [total_amount],
    [invoice_date] and [due_date]; a returned value is never empty and
    its confidence lies above 0.25 and at most at 1. *)
Theorem X6_regex_pass_range (text key value : string) (c : Q) :
  Transformer._extract_with_enhanced_regex text !! key = Some (value, c) ->
  In key ["invoice_number"; "total_amount"; "invoice_date"; "due_date"]
  /\ value <> EmptyString
  /\ 0.25 < c /\ c <= 1.
Proof.
  intros H.
  destruct (in_dec string_dec key (List.map fst Transformer.fallback_patterns)) as [Hin | Hout].
  2:{ rewrite (enhanced_regex_other text key Hout) in H. discriminate. }
  split; [exact Hin|].
  apply List.in_map_iff in Hin. destruct Hin as ([field pats] & Hk & Hin).
  cbn [fst] in Hk. subst field.
  pose proof (enhanced_regex_lookup text (key, pats) Hin) as E.
  cbn [fst snd] in E. cbv zeta in E. rewrite H in E.
  pose proof (best_pattern_first key text pats) as B.
  destruct (Transformer.best_pattern_match key text pats) as [[v|] c'];
    cbn [fst snd] in E; [|discriminate].
  destruct (Py.truthy v) eqn:T; [|discriminate].
  apply (inj Some) in E. injection E as <- <-.
  split; [destruct value; [discriminate T | discriminate]|].
  unfold Spec.first_best in B. cbn [fst snd] in B.
  destruct B as (i & Hi & _).
  rewrite list_lookup_fmap in Hi.
  destruct (Transformer.enumerate pats !! i) as [rule|] eqn:R; [|discriminate].
  cbn in Hi. apply (inj Some) in Hi.
  apply (pattern_candidate_bounds key text pats rule value c); [|exact Hi].
  apply list_elem_of_In, (list_elem_of_lookup_2 _ i), R.
Qed.

Lemma X6_witness :
  (exists c, Transformer._extract_with_enhanced_regex "total 5.00" !! "total_amount"
             = Some ("5.00", c) /\ 0.25 < c /\ c <= 1).
Proof.
  destruct (Transformer._extract_with_enhanced_regex "total 5.00" !! "total_amount")
    as [[v c]|] eqn:E; [|vm_compute in E; discriminate E].
  assert (Hv : v = "5.00") by (vm_compute in E; congruence).
  subst v. exists c. split; [reflexivity|].
  exact (proj2 (proj2 (X6_regex_pass_range "total 5.00" "total_amount" "5.00" c E))).
Defined.

(* ===================================================================== *)
(** ** What the QA pass can return *)
(* ===================================================================== *)

Lemma fold_left_invariant {A B} (P : A -> Prop) (f : A -> B -> A) (l : list B) (init : A) :
  P init -> (forall acc x, In x l -> P acc -> P (f acc x)) -> P (fold_left f l init).
Proof.
  revert init. induction l as [|x l IH]; intros init H0 Hstep; [exact H0|].
  cbn [fold_left]. apply IH.
  - apply Hstep; [left; reflexivity | exact H0].
  - intros acc y Hy. apply Hstep. right. exact Hy.
Qed.

Lemma len_take_le (n : nat) (s : string) : (Py.len (Py.take n s) <= n)%nat.
Proof.
  revert s. induction n as [|n IH]; intros [|c t]; simpl; try lia.
  specialize (IH t). unfold Py.len in *. lia.
Qed.

(** X7.  The QA pass [_extract_with_qa] fills a field only from the answer
    to that field's own question, asked on the first 2000 characters of
    the text at most, and only when the answer's score exceeds 0.1, the
    answer is not blank and its post-processed form is not empty; the
    recorded confidence is the answer's score. *)
Theorem X7_qa_pass_accepts (qa : string -> string -> option Transformer.qa_answer)
  (text key value : string) (c : Q) :
  Transformer._extract_with_qa qa text !! key = Some (value, c) ->
  (Py.len (Py.slice 0 2000 text) <= 2000)%nat
  /\ exists (question : string) (a : Transformer.qa_answer),
       In (key, question) Transformer.questions
       /\ qa question (Py.slice 0 2000 text) = Some a
       /\ 0.1 < Transformer.answer_score a
       /\ c = Transformer.answer_score a
       /\ Py.strip (Transformer.answer a) <> EmptyString
       /\ Transformer._post_process_qa_answer key (Transformer.answer a) = Some value
       /\ value <> EmptyString.
Proof.
  intros H. split; [apply len_take_le|]. revert key value c H.
  unfold Transformer._extract_with_qa.
  apply (fold_left_invariant
           (fun results : gmap string (string * Q) =>
              forall key value c, results !! key = Some (value, c) ->
                exists question a,
                  In (key, question) Transformer.questions
                  /\ qa question (Py.slice 0 2000 text) = Some a
                  /\ 0.1 < Transformer.answer_score a
                  /\ c = Transformer.answer_score a
                  /\ Py.strip (Transformer.answer a) <> EmptyString
                  /\ Transformer._post_process_qa_answer key (Transformer.answer a)
                     = Some value
                  /\ value <> EmptyString)).
  - intros key value c H. rewrite lookup_empty in H. discriminate.
  - intros results [field question] Hin IH key value c.
    unfold Transformer.qa_step.
    destruct (qa question (Py.slice 0 2000 text)) as [a|] eqn:A; [|apply IH].
    destruct (Qgtb (Transformer.answer_score a) 0.1) eqn:G; cbn [andb]; [|apply IH].
    destruct (0 <? Py.len (Py.strip (Transformer.answer a)))%nat eqn:L; [|apply IH].
    destruct (Transformer._post_process_qa_answer field (Transformer.answer a))
      as [processed|] eqn:Pp; [|apply IH].
    destruct (Py.truthy processed) eqn:T; [|apply IH].
    destruct (decide (field = key)) as [-> | Hne].
    + rewrite lookup_insert_eq. intros E. apply (inj Some) in E. injection E as <- <-.
      exists question, a. split; [exact Hin|]. split; [exact A|].
      split; [apply Qgtb_true, G|]. split; [reflexivity|].
      split; [|split; [exact Pp|]].
      * intros E. rewrite E in L. discriminate L.
      * intros E. rewrite E in T. discriminate T.
    + rewrite lookup_insert_ne by exact Hne. apply IH.
Qed.

Lemma X7_witness :
  let qa := fun question _ : string =>
              if String.eqb question "What is the invoice number?"
              then Some (Transformer.Answer " inv-2024-7 " 0.42) else None in
  Transformer._extract_with_qa qa "Invoice inv-2024-7" !! "invoice_number"
  = Some ("INV-2024-7", 0.42)
  /\ exists (question : string) (a : Transformer.qa_answer),
       In ("invoice_number", question) Transformer.questions
       /\ qa question (Py.slice 0 2000 "Invoice inv-2024-7") = Some a
       /\ 0.1 < Transformer.answer_score a.
Proof.
  cbv zeta.
  set (qa := fun question _ : string =>
               if String.eqb question "What is the invoice number?"
               then Some (Transformer.Answer " inv-2024-7 " 0.42) else None).
  assert (H : Transformer._extract_with_qa qa "Invoice inv-2024-7" !! "invoice_number"
              = Some ("INV-2024-7", 0.42)) by (vm_compute; reflexivity).
  split; [exact H|].
  destruct (X7_qa_pass_accepts qa "Invoice inv-2024-7" "invoice_number" "INV-2024-7" 0.42 H)
    as (_ & question & a & H1 & H2 & H3 & _).
  exists question, a. split; [exact H1|]. split; [exact H2 | exact H3].
Defined.

(* ===================================================================== *)
(** ** The invoice number that the QA pass keeps *)
(* ===================================================================== *)

Section BoundedRuns.

Import Re.

(** A greedy run of a one-character pattern with at most [n] iterations
    consumes between [lo - cnt] and [n] characters of the class. *)
Lemma rep_loop_step_bound (p : ascii -> bool)
  (body : (mstate -> option mstate) -> mstate -> option mstate)
  (lo n cnt : nat) (st st' : mstate) :
  (forall k s, body k s = step p k s) ->
  rep_loop body lo true Some n cnt st = Some st' ->
  exists j, m_pos st' = (m_pos st + j)%nat
            /\ Py.all_prefix p j (m_rest st) = true
            /\ (lo <= cnt + j)%nat /\ (j <= n)%nat.
Proof.
  intros Hb. revert cnt st.
  induction n as [|n IH]; intros cnt st; cbn [rep_loop].
  - destruct (lo <=? cnt)%nat eqn:E; [|discriminate].
    intros H. apply (inj Some) in H. subst st'. exists 0%nat.
    apply Nat.leb_le in E. repeat split; lia.
  - rewrite Hb. unfold step at 1.
    assert (Stop : (if (lo <=? cnt)%nat then Some st else None) = Some st' ->
                   exists j, m_pos st' = (m_pos st + j)%nat
                             /\ Py.all_prefix p j (m_rest st) = true
                             /\ (lo <= cnt + j)%nat /\ (j <= S n)%nat).
    { destruct (lo <=? cnt)%nat eqn:E; [|discriminate].
      intros H. apply (inj Some) in H. subst st'. exists 0%nat.
      apply Nat.leb_le in E. repeat split; lia. }
    destruct (m_rest st) as [|c t] eqn:R; [exact Stop|].
    destruct (p c) eqn:Pc; [|exact Stop].
    destruct (rep_loop body lo true Some n (S cnt) _) as [x|] eqn:L; [|exact Stop].
    intros H. apply (inj Some) in H. subst x.
    apply IH in L. destruct L as (j & Hpos & Hall & Hlo & Hn).
    cbn [m_pos m_rest] in Hpos, Hall. exists (S j).
    cbn [Py.all_prefix]. rewrite Pc, Hall. repeat split; lia.
Qed.

(** [re.search] returns a match that the pattern has at some offset. *)
Lemma search_from_try (fl : flags) (r : regex) (rest : string) (pos : nat)
  (prev : option ascii) (m : mobj) :
  search_from fl r pos prev rest = Some m ->
  exists (i : nat) (prev' : option ascii),
    try_at fl r (pos + i) prev' (Py.drop i rest) = Some m.
Proof.
  revert pos prev. induction rest as [|c t IH]; intros pos prev; cbn [search_from].
  - destruct (try_at fl r pos prev "") as [m'|] eqn:T; [|discriminate].
    intros H. exists 0%nat, prev. rewrite Nat.add_0_r. cbn [Py.drop].
    rewrite T. exact H.
  - destruct (try_at fl r pos prev (String c t)) as [m'|] eqn:T.
    + intros H. exists 0%nat, prev. rewrite Nat.add_0_r. cbn [Py.drop].
      rewrite T. exact H.
    + intros H. apply IH in H. destruct H as (i & prev' & H).
      exists (S i), prev'. cbn [Py.drop]. rewrite Nat.add_succ_r. exact H.
Qed.

Lemma all_prefix_take (p : ascii -> bool) (j : nat) (s : string) :
  Py.all_prefix p j s = true ->
  Py.len (Py.take j s) = j /\ Py.all_str p (Py.take j s) = true.
Proof.
  revert s. induction j as [|j IH]; intros [|c t]; cbn; try discriminate; try (split; reflexivity).
  intros H. apply andb_true_iff in H. destruct H as [Hc Ht].
  destruct (IH t Ht) as [Hl Ha]. unfold Py.len in *. rewrite Hc, Ha, Hl. split; reflexivity.
Qed.

(** What a match of a bounded run [[...]{lo,hi}] of a set spans. *)
Lemma search_bounded_run (items : list item) (lo hi : nat) (s : string) (m : mobj) :
  re_search no_flags (times lo hi (Set_ false items)) s = Some m ->
  exists i j : nat,
    group0 s m = Py.take j (Py.drop i s)
    /\ (lo <= j <= hi)%nat
    /\ Py.len (group0 s m) = j
    /\ Py.all_str (fun c => in_set no_flags items c) (group0 s m) = true.
Proof.
  unfold re_search. intros H. apply search_from_try in H.
  destruct H as (i & prev' & H). cbn [Nat.add] in H.
  unfold try_at in H.
  destruct (rmatch _ _ _ _) as [st|] eqn:M; [|discriminate].
  apply (inj Some) in H. subst m.
  unfold times in M. cbn [rmatch] in M.
  apply (rep_loop_step_bound (fun c => in_set no_flags items c)) in M.
  - destruct M as (j & Hpos & Hall & Hlo & Hhi). cbn [m_pos m_rest] in Hpos, Hall.
    exists i, j. unfold group0, Py.slice. cbn [m_start m_end]. rewrite Hpos.
    replace (i + j - i)%nat with j by lia.
    destruct (all_prefix_take _ _ _ Hall) as [Hl Ha].
    split; [reflexivity|]. split; [lia|]. split; assumption.
  - intros k st0. cbn [rmatch]. unfold step.
    destruct (m_rest st0) as [|c t]; [reflexivity|].
    destruct (in_set no_flags items c); reflexivity.
Qed.

End BoundedRuns.

Lemma invoice_token_character (c : ascii) :
  Re.in_set Re.no_flags [Re.rg "A" "Z"; Re.rg "0" "9"; Re.ch "-"; Re.ch "_"] c = true ->
  Py.isupper c || Py.isdigit c || Ascii.eqb c "-" || Ascii.eqb c "_" = true.
Proof. destruct c as [[] [] [] [] [] [] [] []]; vm_compute; congruence. Qed.

(** X8.  An invoice number accepted by [_post_process_qa_answer] is a run
    of 3 to 20 characters of the trimmed, upper-cased answer, each of them
    a capital letter, a digit, a hyphen or an underscore. *)
Theorem X8_qa_invoice_number_shape (answer value : string) :
  Transformer._post_process_qa_answer "invoice_number" answer = Some value ->
  (3 <= Py.len value <= 20)%nat
  /\ Py.all_str (fun c => Py.isupper c || Py.isdigit c || Ascii.eqb c "-" || Ascii.eqb c "_")
                value = true
  /\ exists i : nat,
       value = Py.slice i (i + Py.len value) (Py.upper (Py.strip answer)).
Proof.
  unfold Transformer._post_process_qa_answer.
  change (String.eqb "invoice_number" "invoice_number") with true. cbv iota zeta.
  destruct (Re.re_search _ _ _) as [m|] eqn:S; [|discriminate].
  intros H. apply (inj Some) in H. subst value.
  unfold Transformer.invoice_token, Re.set in S.
  apply search_bounded_run in S. destruct S as (i & j & Hg & Hj & Hl & Ha).
  split; [rewrite Hl; exact Hj|]. split.
  - eapply all_str_weaken; [exact invoice_token_character | exact Ha].
  - exists i. rewrite Hl. unfold Py.slice.
    replace (i + j - i)%nat with j by lia. exact Hg.
Qed.

Lemma X8_witness :
  Transformer._post_process_qa_answer "invoice_number" " no. inv-2024-7 "
  = Some "INV-2024-7"
  /\ (3 <= Py.len "INV-2024-7" <= 20)%nat.
Proof.
  assert (H : Transformer._post_process_qa_answer "invoice_number" " no. inv-2024-7 "
              = Some "INV-2024-7") by (vm_compute; reflexivity).
  split; [exact H|].
  exact (proj1 (X8_qa_invoice_number_shape " no. inv-2024-7 " "INV-2024-7" H)).
Defined.

(* ===================================================================== *)
(** ** The chunks handed to the entity model *)
(* ===================================================================== *)

Section Chunks.

Lemma take_add (a b : nat) (s : string) :
  Py.take a s ++ Py.take b (Py.drop a s) = Py.take (a + b) s.
Proof.
  revert s. induction a as [|a IH]; intros s; [reflexivity|].
  destruct s as [|c t].
  - destruct b; reflexivity.
  - change (String c (Py.take a t ++ Py.take b (Py.drop a t))
            = String c (Py.take (a + b) t)).
    rewrite IH. reflexivity.
Qed.

Lemma len_take (n : nat) (s : string) : Py.len (Py.take n s) = Nat.min n (Py.len s).
Proof.
  revert s. induction n as [|n IH]; intros [|c t]; simpl; try reflexivity.
  specialize (IH t). unfold Py.len in *. rewrite IH. reflexivity.
Qed.

Lemma append_empty_r (s : string) : s ++ "" = s.
Proof.
  induction s as [|c t IH]; [reflexivity|].
  change (String c (t ++ "") = String c t). rewrite IH. reflexivity.
Qed.

Lemma append_assoc (a b c : string) : (a ++ b) ++ c = a ++ (b ++ c).
Proof.
  induction a as [|x a IH]; [reflexivity|].
  change (String x ((a ++ b) ++ c) = String x (a ++ (b ++ c))).
  rewrite IH. reflexivity.
Qed.

Lemma join_cons (x : string) (l : list string) :
  Py.join "" (x :: l) = x ++ Py.join "" l.
Proof.
  destruct l as [|y l]; cbn [Py.join]; [rewrite append_empty_r|]; reflexivity.
Qed.

Lemma join_snoc (l : list string) (x : string) :
  Py.join "" (l ++ [x]) = Py.join "" l ++ x.
Proof.
  induction l as [|y l IH]; [reflexivity|].
  change ((y :: l) ++ [x])%list with (y :: (l ++ [x]))%list.
  rewrite !join_cons, IH, append_assoc. reflexivity.
Qed.

(** The first [m] slices of width [k] make up the first [m * k] characters. *)
Lemma join_slices (k m : nat) (s : string) :
  Py.join "" (List.map (fun i => Py.slice i (i + k) s)
                       (List.map (fun j => j * k)%nat (List.seq 0 m)))
  = Py.take (m * k) s.
Proof.
  induction m as [|m IH]; [reflexivity|].
  rewrite List.seq_S, !List.map_app. cbn [List.map Nat.add].
  rewrite join_snoc, IH. unfold Py.slice.
  replace (m * k + k - m * k)%nat with k by lia.
  rewrite take_add. f_equal. lia.
Qed.

Lemma chunk_count_covers (n : nat) :
  (n <= (n + 512 - 1) / 512 * 512)%nat /\ ((n + 512 - 1) / 512 * 512 < n + 512)%nat.
Proof.
  pose proof (Nat.div_mod_eq (n + 512 - 1) 512) as E.
  pose proof (Nat.mod_upper_bound (n + 512 - 1) 512 ltac:(lia)) as U.
  lia.
Qed.

End Chunks.

(** X9.  The chunks that [_extract_with_ner] hands to the entity model
    make up the whole text, in order and without overlap; every chunk has
    between 1 and 512 characters, and there are ceil(len / 512) of them. *)
Theorem X9_chunks_cover_text (text : string) :
  Py.join "" (Transformer.chunks text) = text
  /\ Forall (fun chunk => (1 <= Py.len chunk <= 512)%nat) (Transformer.chunks text)
  /\ List.length (Transformer.chunks text) = ((Py.len text + 511) / 512)%nat.
Proof.
  unfold Transformer.chunks, Transformer.range_step. cbv zeta.
  destruct (chunk_count_covers (Py.len text)) as [Hge Hlt].
  split; [|split].
  - rewrite join_slices. apply take_all. exact Hge.
  - apply List.Forall_forall. intros chunk Hin.
    apply List.in_map_iff in Hin. destruct Hin as (i & <- & Hin).
    apply List.in_map_iff in Hin. destruct Hin as (j & <- & Hin).
    apply List.in_seq in Hin. unfold Py.slice.
    replace (j * 512 + 512 - j * 512)%nat with 512%nat by lia.
    rewrite len_take, len_drop.
    assert ((S j) * 512 <= (Py.len text + 512 - 1) / 512 * 512)%nat
      by (apply Nat.mul_le_mono_r; lia).
    lia.
  - rewrite !List.length_map, List.length_seq.
    replace (Py.len text + 512 - 1)%nat with (Py.len text + 511)%nat by lia. reflexivity.
Qed.

(* ===================================================================== *)
(** ** What the entity pass returns *)
(* ===================================================================== *)

Section EntityPass.

Lemma ner_step_domain (acc : gmap string string * gmap string Q) (e : Transformer.entity) :
  (forall key, (is_Some (fst acc !! key) <-> is_Some (snd acc !! key))
               /\ (is_Some (fst acc !! key)
                   -> In key ["vendor_name"; "total_amount"; "invoice_date"])) ->
  forall key, (is_Some (fst (Transformer.ner_step acc e) !! key)
               <-> is_Some (snd (Transformer.ner_step acc e) !! key))
              /\ (is_Some (fst (Transformer.ner_step acc e) !! key)
                  -> In key ["vendor_name"; "total_amount"; "invoice_date"]).
Proof.
  intros Inv. destruct acc as [fields confidence].
  assert (Ins : forall k (v : string) (c : Q),
             In k ["vendor_name"; "total_amount"; "invoice_date"] ->
             forall key,
               (is_Some (fst (<[k := v]> fields, <[k := c]> confidence) !! key)
                <-> is_Some (snd (<[k := v]> fields, <[k := c]> confidence) !! key))
               /\ (is_Some (fst (<[k := v]> fields, <[k := c]> confidence) !! key)
                   -> In key ["vendor_name"; "total_amount"; "invoice_date"])).
  { intros k v c Hk key. cbn [fst snd]. destruct (decide (k = key)) as [<- | Hne].
    - rewrite !lookup_insert_eq. split; [split; eauto | intros _; exact Hk].
    - rewrite !lookup_insert_ne by exact Hne. apply Inv. }
  unfold Transformer.ner_step.
  repeat match goal with
         | |- forall key, (is_Some (fst (if ?b then _ else _) !! _) <-> _) /\ _ => destruct b
         end; try exact Inv; apply Ins; cbn; auto.
Qed.

Lemma all_entities_raises (ner : string -> option (list Transformer.entity))
  (cs : list string) (chunk : string) :
  In chunk cs -> ner chunk = None -> Transformer.all_entities ner cs = None.
Proof.
  induction cs as [|c cs IH]; intros Hin Hraise; [destruct Hin|].
  cbn [Transformer.all_entities]. destruct Hin as [-> | Hin].
  - rewrite Hraise. reflexivity.
  - destruct (ner c); [|reflexivity]. rewrite (IH Hin Hraise). reflexivity.
Qed.

(** A step on an entity that is no organisation leaves the vendor name. *)
Lemma ner_step_not_org (acc : gmap string string * gmap string Q) (e : Transformer.entity) :
  String.eqb (Transformer.entity_group e) "ORG"
  || String.eqb (Transformer.entity_group e) "ORGANIZATION" = false ->
  fst (Transformer.ner_step acc e) !! "vendor_name" = fst acc !! "vendor_name"
  /\ snd (Transformer.ner_step acc e) !! "vendor_name" = snd acc !! "vendor_name".
Proof.
  intros Horg. destruct acc as [fields confidence].
  unfold Transformer.ner_step. rewrite Horg.
  repeat match goal with
         | |- fst (if ?b then _ else _) !! _ = _ /\ _ => destruct b
         end; cbn [fst snd]; rewrite ?lookup_insert_ne by discriminate; split; reflexivity.
Qed.

Lemma ner_fold_vendor_name (entities : list Transformer.entity) :
  let acc := fold_left Transformer.ner_step entities (∅, ∅) in
  match snd acc !! "vendor_name" with
  | None =>
      fst acc !! "vendor_name" = None
      /\ forall e, In e entities ->
           String.eqb (Transformer.entity_group e) "ORG"
           || String.eqb (Transformer.entity_group e) "ORGANIZATION" = false
  | Some c =>
      exists e, In e entities
        /\ String.eqb (Transformer.entity_group e) "ORG"
           || String.eqb (Transformer.entity_group e) "ORGANIZATION" = true
        /\ c = Transformer.score e
        /\ fst acc !! "vendor_name" = Some (Transformer.word e)
        /\ forall e', In e' entities ->
             String.eqb (Transformer.entity_group e') "ORG"
             || String.eqb (Transformer.entity_group e') "ORGANIZATION" = true ->
             Transformer.score e' <= c
  end.
Proof.
  induction entities as [|x l IH] using rev_ind.
  - cbn. rewrite !lookup_empty. split; [reflexivity | intros e []].
  - cbv zeta in *. rewrite fold_left_app. cbn [fold_left].
    set (acc := fold_left Transformer.ner_step l (∅, ∅)) in *.
    destruct (String.eqb (Transformer.entity_group x) "ORG"
              || String.eqb (Transformer.entity_group x) "ORGANIZATION") eqn:Horg.
    + destruct acc as [fields confidence] eqn:Eacc. cbn [fst snd] in IH.
      unfold Transformer.ner_step. rewrite Horg.
      destruct (Transformer.absent fields "vendor_name"
                || Qgtb (Transformer.score x) (Transformer.get0 confidence "vendor_name"))
        eqn:B; cbn [fst snd].
      * rewrite !lookup_insert_eq. exists x.
        split; [apply in_or_app; right; left; reflexivity|].
        split; [exact Horg|]. split; [reflexivity|]. split; [reflexivity|].
        intros e' Hin Ho. apply in_app_or in Hin. destruct Hin as [Hin | [<- | []]].
        2: apply Qle_refl.
        unfold Transformer.absent, Transformer.get0 in B.
        destruct (confidence !! "vendor_name") as [c0|] eqn:Ec.
        -- destruct IH as (e & _ & _ & _ & Hf & Hmax). rewrite Hf in B. cbn in B.
           apply Qgtb_true in B. apply Qlt_le_weak.
           eapply Qle_lt_trans; [apply (Hmax e' Hin Ho) | exact B].
        -- destruct IH as [_ Hno]. rewrite (Hno e' Hin) in Ho. discriminate.
      * apply orb_false_iff in B. destruct B as [Ba Bq].
        unfold Transformer.absent in Ba. unfold Transformer.get0 in Bq.
        destruct (confidence !! "vendor_name") as [c0|] eqn:Ec.
        -- destruct IH as (e & Hin & Ho & Hc & Hf & Hmax). exists e.
           split; [apply in_or_app; left; exact Hin|].
           split; [exact Ho|]. split; [exact Hc|]. split; [exact Hf|].
           intros e' Hin' Ho'. apply in_app_or in Hin'. destruct Hin' as [Hin' | [<- | []]].
           ++ apply Hmax; assumption.
           ++ apply Qgtb_false. exact Bq.
        -- destruct IH as [Hf _]. rewrite Hf in Ba. discriminate.
    + destruct (ner_step_not_org acc x Horg) as [Ef Es]. rewrite Ef, Es.
      destruct (snd acc !! "vendor_name") as [c0|].
      * destruct IH as (e & Hin & Ho & Hc & Hf & Hmax). exists e.
        split; [apply in_or_app; left; exact Hin|].
        split; [exact Ho|]. split; [exact Hc|]. split; [exact Hf|].
        intros e' Hin' Ho'. apply in_app_or in Hin'. destruct Hin' as [Hin' | [<- | []]].
        -- apply Hmax; assumption.
        -- rewrite Horg in Ho'. discriminate.
      * destruct IH as [Hf Hno]. split; [exact Hf|].
        intros e Hin. apply in_app_or in Hin. destruct Hin as [Hin | [<- | []]].
        -- apply Hno, Hin.
        -- exact Horg.
Qed.

Lemma extract_with_ner_domain (ner : string -> option (list Transformer.entity))
  (text key : string) :
  (is_Some (fst (Transformer._extract_with_ner ner text) !! key)
   <-> is_Some (snd (Transformer._extract_with_ner ner text) !! key))
  /\ (is_Some (fst (Transformer._extract_with_ner ner text) !! key)
      -> In key ["vendor_name"; "total_amount"; "invoice_date"]).
Proof.
  revert key. unfold Transformer._extract_with_ner.
  assert (E0 : forall key : string,
             (is_Some (fst ((∅, ∅) : gmap string string * gmap string Q) !! key)
              <-> is_Some (snd ((∅, ∅) : gmap string string * gmap string Q) !! key))
             /\ (is_Some (fst ((∅, ∅) : gmap string string * gmap string Q) !! key)
                 -> In key ["vendor_name"; "total_amount"; "invoice_date"])).
  { intros key. cbn [fst snd]. rewrite !lookup_empty.
    split; [split|]; intros [? ?]; discriminate. }
  destruct (Transformer.all_entities ner (Transformer.chunks text)) as [entities|];
    [|exact E0].
  apply (fold_left_invariant
           (fun acc : gmap string string * gmap string Q =>
              forall key, (is_Some (fst acc !! key) <-> is_Some (snd acc !! key))
                          /\ (is_Some (fst acc !! key)
                              -> In key ["vendor_name"; "total_amount"; "invoice_date"]))).
  - exact E0.
  - intros acc e _ Inv. apply ner_step_domain, Inv.
Qed.

End EntityPass.

(** X10.  The entity pass [_extract_with_ner] proposes a value for
    exactly the fields it scores, and only for the vendor name, the total
    amount and the invoice date, whatever the entity model returns. *)
Theorem X10_ner_pass_keys (ner : string -> option (list Transformer.entity))
  (text key : string) :
  (is_Some (fst (Transformer._extract_with_ner ner text) !! key)
   <-> is_Some (snd (Transformer._extract_with_ner ner text) !! key))
  /\ (is_Some (fst (Transformer._extract_with_ner ner text) !! key)
      -> In key ["vendor_name"; "total_amount"; "invoice_date"]).
Proof. apply extract_with_ner_domain. Qed.

(** X11.  When the entity model raises on any one chunk of the text, the
    entity pass returns nothing at all: the entities found in the other
    chunks are discarded with it. *)
Theorem X11_ner_pass_all_or_nothing (ner : string -> option (list Transformer.entity))
  (text chunk : string) :
  In chunk (Transformer.chunks text) ->
  ner chunk = None ->
  Transformer._extract_with_ner ner text = (∅, ∅).
Proof.
  intros Hin Hraise. unfold Transformer._extract_with_ner.
  rewrite (all_entities_raises ner _ chunk Hin Hraise). reflexivity.
Qed.

Lemma X11_witness :
  Transformer._extract_with_ner
    (fun chunk => if Py.contains "?" chunk then None
                  else Some [Transformer.Entity "Acme Corp" "ORG" 0.9])
    "Acme Corp ?"
  = (∅, ∅).
Proof.
  apply (X11_ner_pass_all_or_nothing _ "Acme Corp ?" "Acme Corp ?").
  - vm_compute. left. reflexivity.
  - vm_compute. reflexivity.
Defined.

(** X12.  The vendor name of the entity pass is the word of an
    organisation entity (ORG or ORGANIZATION) whose score no other
    organisation entity of the text exceeds, and the confidence recorded
    for it is that score; without an organisation entity the pass proposes
    no vendor name. *)
Theorem X12_ner_vendor_is_best (ner : string -> option (list Transformer.entity))
  (text : string) (entities : list Transformer.entity) :
  Transformer.all_entities ner (Transformer.chunks text) = Some entities ->
  match snd (Transformer._extract_with_ner ner text) !! "vendor_name" with
  | None =>
      fst (Transformer._extract_with_ner ner text) !! "vendor_name" = None
      /\ forall e, In e entities ->
           String.eqb (Transformer.entity_group e) "ORG"
           || String.eqb (Transformer.entity_group e) "ORGANIZATION" = false
  | Some c =>
      exists e, In e entities
        /\ String.eqb (Transformer.entity_group e) "ORG"
           || String.eqb (Transformer.entity_group e) "ORGANIZATION" = true
        /\ c = Transformer.score e
        /\ fst (Transformer._extract_with_ner ner text) !! "vendor_name"
           = Some (Transformer.word e)
        /\ forall e', In e' entities ->
             String.eqb (Transformer.entity_group e') "ORG"
             || String.eqb (Transformer.entity_group e') "ORGANIZATION" = true ->
             Transformer.score e' <= c
  end.
Proof.
  intros Hall. unfold Transformer._extract_with_ner. rewrite Hall.
  exact (ner_fold_vendor_name entities).
Qed.

Lemma X12_witness :
  exists e, In e [Transformer.Entity "Acme" "ORG" 0.7;
                  Transformer.Entity "Globex Ltd" "ORGANIZATION" 0.9;
                  Transformer.Entity "Initech" "ORG" 0.8]
    /\ fst (Transformer._extract_with_ner
              (fun _ => Some [Transformer.Entity "Acme" "ORG" 0.7;
                              Transformer.Entity "Globex Ltd" "ORGANIZATION" 0.9;
                              Transformer.Entity "Initech" "ORG" 0.8])
              "Acme, Globex Ltd, Initech") !! "vendor_name"
       = Some (Transformer.word e).
Proof.
  pose proof (X12_ner_vendor_is_best
                (fun _ => Some [Transformer.Entity "Acme" "ORG" 0.7;
                                Transformer.Entity "Globex Ltd" "ORGANIZATION" 0.9;
                                Transformer.Entity "Initech" "ORG" 0.8])
                "Acme, Globex Ltd, Initech"
                [Transformer.Entity "Acme" "ORG" 0.7;
                 Transformer.Entity "Globex Ltd" "ORGANIZATION" 0.9;
                 Transformer.Entity "Initech" "ORG" 0.8]
                eq_refl) as H.
  destruct (snd _ !! "vendor_name") as [c|] eqn:E in H.
  - destruct H as (e & Hin & _ & _ & Hf & _). exists e. split; [exact Hin | exact Hf].
  - vm_compute in E. discriminate E.
Defined.

(* ===================================================================== *)
(** ** The fields a strategy reports, and the scores of the coordinator *)
(* ===================================================================== *)

Section ReportedFields.

Lemma heuristic_confidence_bounds (field_name field_value text : string) :
  0.60 <= PDF._calculate_heuristic_confidence field_name field_value text
  /\ PDF._calculate_heuristic_confidence field_name field_value text <= 0.95.
Proof.
  unfold PDF._calculate_heuristic_confidence.
  repeat match goal with
         | |- _ <= (if ?b then _ else _) /\ _ => destruct b
         end; split; vm_compute; discriminate.
Qed.

Lemma extract_with_qa_keys (qa : string -> string -> option Transformer.qa_answer)
  (text key : string) :
  is_Some (Transformer._extract_with_qa qa text !! key) ->
  In key (List.map fst Transformer.questions).
Proof.
  revert key. unfold Transformer._extract_with_qa.
  apply (fold_left_invariant
           (fun results : gmap string (string * Q) =>
              forall key, is_Some (results !! key)
                          -> In key (List.map fst Transformer.questions))).
  - intros key [? H]. rewrite lookup_empty in H. discriminate.
  - intros results [field question] Hin IH key. unfold Transformer.qa_step.
    repeat match goal with
           | |- is_Some (match ?x with _ => _ end !! _) -> _ => destruct x
           end; try apply IH.
    destruct (decide (field = key)) as [<- | Hne].
    + intros _. apply (List.in_map fst) in Hin. exact Hin.
    + rewrite lookup_insert_ne by exact Hne. apply IH.
Qed.

Lemma lightweight_fold_keys (text : string) :
  forall key,
    ~ In key (List.map fst Lightweight.patterns) ->
    fst (fold_left (Lightweight.field_step text) Lightweight.patterns (∅, ∅)) !! key = None
    /\ snd (fold_left (Lightweight.field_step text) Lightweight.patterns (∅, ∅)) !! key
       = None.
Proof.
  apply (fold_left_invariant
           (fun acc : gmap string string * gmap string Q =>
              forall key, ~ In key (List.map fst Lightweight.patterns) ->
                          fst acc !! key = None /\ snd acc !! key = None)).
  - intros key _. cbn [fst snd]. rewrite !lookup_empty. split; reflexivity.
  - intros acc [field rules] Hin IH key Hk. unfold Lightweight.field_step.
    destruct (Lightweight.best_candidate _ _ _ _) as [[v|] c]; [|apply IH, Hk].
    destruct (Py.truthy v); [|apply IH, Hk].
    cbn [fst snd]. apply (List.in_map fst) in Hin. cbn [fst] in Hin.
    rewrite !lookup_insert_ne by (intros ->; exact (Hk Hin)). apply IH, Hk.
Qed.

(** No strategy reports a field outside the six of the question table. *)
Lemma strategy_reports_known_fields (self : Transformer.processor) (text key : string) :
  ~ In key (List.map fst Transformer.questions) ->
  extracted_fields (Transformer.extract_with_transformers self text) !! key = None
  /\ confidence_scores (Transformer.extract_with_transformers self text) !! key = None.
Proof.
  intros Hk. unfold Transformer.extract_with_transformers.
  destruct (Transformer.use_lightweight self).
  - unfold Lightweight.extract_with_lightweight_ai.
    pose proof (lightweight_fold_keys text key) as L.
    destruct (fold_left _ _ _) as [fields scores]. cbn [fst snd] in L.
    cbn [extracted_fields confidence_scores]. apply L.
    intros Hin. apply Hk. cbn in Hin |- *. intuition.
  - cbv zeta. cbn [extracted_fields confidence_scores].
    set (acc0 := match Transformer.ner_pipeline self with
                 | Some ner => Transformer._extract_with_ner ner text
                 | None => (∅, ∅)
                 end).
    assert (H0 : fst acc0 !! key = None /\ snd acc0 !! key = None).
    { unfold acc0. destruct (Transformer.ner_pipeline self) as [ner|].
      - destruct (extract_with_ner_domain ner text key) as [Hiff Hin].
        assert (F : fst (Transformer._extract_with_ner ner text) !! key = None).
        { destruct (fst _ !! key) eqn:E; [|reflexivity].
          exfalso. apply Hk. specialize (Hin (ltac:(eauto))). cbn in Hin |- *. intuition. }
        split; [exact F|].
        destruct (snd _ !! key) eqn:E; [|reflexivity].
        destruct (proj2 Hiff (ltac:(eauto))) as [v Hv]. rewrite F in Hv. discriminate.
      - cbn [fst snd]. rewrite !lookup_empty. split; reflexivity. }
    set (acc1 := match Transformer.qa_pipeline self with
                 | Some qa => map_fold Transformer.merge_qa acc0
                                (Transformer._extract_with_qa qa text)
                 | None => acc0
                 end).
    assert (H1 : fst acc1 !! key = None /\ snd acc1 !! key = None).
    { unfold acc1. destruct (Transformer.qa_pipeline self) as [qa|]; [|exact H0].
      pose proof (merge_qa_lookup (Transformer._extract_with_qa qa text) acc0 key) as M.
      cbv zeta in M.
      destruct (Transformer._extract_with_qa qa text !! key) eqn:E.
      - exfalso. apply Hk. apply (extract_with_qa_keys qa text). rewrite E. eauto.
      - destruct H0 as [F S]. rewrite F, S in M. injection M as -> ->.
        split; reflexivity. }
    pose proof (merge_regex_lookup (Transformer._extract_with_enhanced_regex text) acc1 key)
      as M.
    cbv zeta in M. rewrite enhanced_regex_other in M.
    2: { intros Hin. apply Hk. cbn in Hin |- *. intuition. }
    destruct H1 as [F S]. rewrite F, S in M. injection M as EF ES.
    split; [|exact ES].
    unfold Transformer._validate_and_enhance_fields.
    rewrite map_lookup_imap, EF. reflexivity.
Qed.

Lemma confidence_scores_lookup (self : PDF.PDFProcessor) (fields : gmap string string)
  (text key : string) :
  PDF.get_confidence_scores self fields text !! key
  = match fields !! key with
    | Some value =>
        Some (match PDF.ai_processor self text with
              | Some ai =>
                  match confidence_scores ai !! key with
                  | Some score => score
                  | None => PDF._calculate_heuristic_confidence key value text
                  end
              | None => 0.70
              end)
    | None => None
    end.
Proof.
  unfold PDF.get_confidence_scores, PDF._calculate_basic_confidence.
  destruct (PDF.ai_processor self text) as [ai|].
  - rewrite map_lookup_imap. destruct (fields !! key); reflexivity.
  - rewrite lookup_fmap. destruct (fields !! key); reflexivity.
Qed.

End ReportedFields.

(** X13.  [get_confidence_scores] returns one score for each of the
    caller's fields and for nothing else, whether or not the strategy
    raises; each score is either the one the strategy reports for that
    field or lies between 0.60 and 0.95. *)
Theorem X13_one_score_per_field (self : PDF.PDFProcessor) (fields : gmap string string)
  (text key : string) :
  (is_Some (PDF.get_confidence_scores self fields text !! key) <-> is_Some (fields !! key))
  /\ forall c, PDF.get_confidence_scores self fields text !! key = Some c ->
       (exists ai, PDF.ai_processor self text = Some ai
                   /\ confidence_scores ai !! key = Some c)
       \/ (0.60 <= c /\ c <= 0.95).
Proof.
  rewrite confidence_scores_lookup. destruct (fields !! key) as [value|].
  - split; [split; eauto|]. intros c E. apply (inj Some) in E. subst c.
    destruct (PDF.ai_processor self text) as [ai|].
    + destruct (confidence_scores ai !! key) as [score|] eqn:S.
      * left. exists ai. split; [reflexivity | exact S].
      * right. apply heuristic_confidence_bounds.
    + right. split; vm_compute; discriminate.
  - split; [split; intros [? ?]; discriminate|]. intros c E. discriminate.
Qed.

(** X14.  Whatever the models answer, a strategy reports values and
    scores only for the six fields of the question table: invoice number,
    total amount, invoice date, due date, vendor name and vendor address. *)
Theorem X14_strategy_fields (self : Transformer.processor) (text key : string) :
  is_Some (extracted_fields (Transformer.extract_with_transformers self text) !! key)
  \/ is_Some (confidence_scores (Transformer.extract_with_transformers self text) !! key) ->
  In key ["invoice_number"; "total_amount"; "invoice_date"; "due_date"; "vendor_name";
          "vendor_address"].
Proof.
  intros H.
  destruct (List.in_dec string_dec key (List.map fst Transformer.questions)) as [Hin | Hk];
    [exact Hin|].
  destruct (strategy_reports_known_fields self text key Hk) as [F S].
  rewrite F, S in H. destruct H as [[? H] | [? H]]; discriminate.
Qed.

Lemma X14_witness :
  is_Some (extracted_fields
             (Transformer.extract_with_transformers
                (Transformer.Processor true None None) "Invoice No: INV-2024-7")
             !! "invoice_number")
  /\ In "invoice_number"
        ["invoice_number"; "total_amount"; "invoice_date"; "due_date"; "vendor_name";
         "vendor_address"].
Proof.
  assert (H : is_Some (extracted_fields
                         (Transformer.extract_with_transformers
                            (Transformer.Processor true None None) "Invoice No: INV-2024-7")
                         !! "invoice_number"))
    by (vm_compute; eauto).
  split; [exact H|].
  exact (X14_strategy_fields (Transformer.Processor true None None)
           "Invoice No: INV-2024-7" "invoice_number" (or_introl H)).
Defined.

(** X15.  Extraction followed by scoring, as the upload route calls them
    on a [PDFProcessor]: an e-mail address or a telephone number among the
    extracted fields is always scored 0.90, because no strategy reports a
    score for these two fields. *)
Theorem X15_contact_fields_score (p : Transformer.processor) (text key : string) :
  key = "vendor_email" \/ key = "vendor_phone" ->
  is_Some (PDF.extract_invoice_fields (PDF.init p) text !! key) ->
  PDF.get_confidence_scores (PDF.init p) (PDF.extract_invoice_fields (PDF.init p) text) text
    !! key = Some 0.90.
Proof.
  intros Hkey [value Hv]. rewrite confidence_scores_lookup, Hv.
  cbn [PDF.init PDF.ai_processor].
  assert (Hk : ~ In key (List.map fst Transformer.questions)).
  { destruct Hkey as [-> | ->]; cbn; intuition discriminate. }
  rewrite (proj2 (strategy_reports_known_fields p text key Hk)).
  destruct Hkey as [-> | ->]; reflexivity.
Qed.

Lemma X15_witness :
  is_Some (PDF.extract_invoice_fields (PDF.init (Transformer.Processor false None None))
             "Contact: support@acme.com Phone: 555-123-4567" !! "vendor_phone")
  /\ PDF.get_confidence_scores (PDF.init (Transformer.Processor false None None))
       (PDF.extract_invoice_fields (PDF.init (Transformer.Processor false None None))
          "Contact: support@acme.com Phone: 555-123-4567")
       "Contact: support@acme.com Phone: 555-123-4567" !! "vendor_phone" = Some 0.90.
Proof.
  assert (H : is_Some (PDF.extract_invoice_fields
                         (PDF.init (Transformer.Processor false None None))
                         "Contact: support@acme.com Phone: 555-123-4567" !! "vendor_phone"))
    by (vm_compute; eauto).
  split; [exact H|].
  exact (X15_contact_fields_score (Transformer.Processor false None None)
           "Contact: support@acme.com Phone: 555-123-4567" "vendor_phone"
           (or_intror eq_refl) H).
Defined.

(* ===================================================================== *)
(** ** The vendor name of the fallback extraction *)
(* ===================================================================== *)

Section FallbackVendor.


End FallbackVendor.



(* ===================================================================== *)
(** ** learning_service.py: training examples and learned values *)
(* ===================================================================== *)

Section LearnedValues.

Lemma length_last_n {E} (n : nat) (l : list E) :
  List.length (Learning.last_n n l) = Nat.min n (List.length l).
Proof. unfold Learning.last_n. rewrite List.length_skipn. lia. Qed.

Lemma last_n_suffix {E} (n : nat) (l : list E) :
  l = (firstn (List.length l - n) l ++ Learning.last_n n l)%list.
Proof. unfold Learning.last_n. symmetry. apply List.firstn_skipn. Qed.

Lemma last_n_lookup {E} (n i : nat) (l : list E) :
  Learning.last_n n l !! i = l !! (List.length l - n + i)%nat.
Proof. unfold Learning.last_n. apply lookup_drop. Qed.

(** A new list object does not take the address of an object in use. *)
Lemma new_address_other {E} (h : gmap nat (list E)) (a : nat) (l : list E) :
  h !! a = Some l -> fresh (dom h) <> a.
Proof.
  intros Hl Heq. apply (is_fresh (dom h)). rewrite Heq.
  apply elem_of_dom. rewrite Hl. eauto.
Qed.

(** The row in the session after [update_model_training] on a loaded row. *)
Lemma update_loaded_row {E} (stored : list E) (v : nat) (training_example : E) :
  Learning.update_model_training (Some (Learning.load stored v)) training_example
  = match stored with
    | [] =>
        let a := fresh (dom ({[0%nat := []]} : gmap nat (list E))) in
        Learning.Training (<[a := [training_example]]> (<[a := []]> {[0%nat := []]}))
                          (Some a) (Some 0%nat) (v + 1)
    | _ :: _ =>
        let h : gmap nat (list E) :=
          <[0%nat := (stored ++ [training_example])%list]> {[0%nat := stored]} in
        if (100 <? List.length stored + 1)%nat
        then Learning.Training
               (<[fresh (dom h) := Learning.last_n 100 (stored ++ [training_example])%list]> h)
               (Some (fresh (dom h))) (Some 0%nat) (v + 1)
        else Learning.Training h (Some 0%nat) (Some 0%nat) (v + 1)
    end.
Proof.
  unfold Learning.update_model_training, Learning.load.
  cbn [Learning.objects Learning.training_data Learning.loaded_training_data Learning.version].
  unfold Learning.list_at at 1. rewrite lookup_singleton_eq.
  destruct stored as [|x stored']; cbv beta iota zeta.
  - unfold Learning.new_list. cbv beta iota zeta.
    unfold Learning.list_at. rewrite !lookup_insert_eq.
    change (([] ++ [training_example])%list) with [training_example].
    change (100 <? List.length [training_example])%nat with false. reflexivity.
  - set (old := x :: stored').
    unfold Learning.list_at. rewrite lookup_singleton_eq, !lookup_insert_eq.
    replace (List.length (old ++ [training_example])) with (List.length old + 1)%nat
      by (rewrite List.length_app; reflexivity).
    destruct (100 <? List.length old + 1)%nat; reflexivity.
Qed.

Lemma first_known_value_first (patterns : list (option string)) (text value : string) :
  Learning.first_known_value patterns text = Some value ->
  exists i : nat,
    patterns !! i = Some (Some value)
    /\ (2 < Py.len value)%nat
    /\ Py.contains (Py.lower value) (Py.lower text) = true
    /\ forall (j : nat) (earlier : string),
         (j < i)%nat -> patterns !! j = Some (Some earlier) ->
         (2 <? Py.len earlier)%nat && Py.contains (Py.lower earlier) (Py.lower text) = false.
Proof.
  induction patterns as [|pattern tl IH]; intros H; [discriminate|].
  cbn [Learning.first_known_value] in H. cbv zeta in H.
  destruct pattern as [v|].
  - destruct (Py.truthy v && (2 <? Py.len v)%nat
              && Py.contains (Py.lower v) (Py.lower text)) eqn:T.
    + apply (inj Some) in H. subst v. exists 0%nat.
      apply andb_true_iff in T. destruct T as [T T3].
      apply andb_true_iff in T. destruct T as [_ T2]. apply Nat.ltb_lt in T2.
      repeat split; try assumption. intros j earlier Hj. lia.
    + destruct (IH H) as (i & Hl & Hlen & Hc & Hfirst).
      exists (S i). repeat split; try assumption.
      intros [|j] earlier Hj Hlook.
      * cbn in Hlook. apply (inj Some) in Hlook. apply (inj Some) in Hlook. subst earlier.
        destruct (2 <? Py.len v)%nat eqn:L; [|reflexivity].
        assert (Tv : Py.truthy v = true)
          by (destruct v; [cbn in L; discriminate | reflexivity]).
        rewrite Tv in T. exact T.
      * apply (Hfirst j earlier); [lia | exact Hlook].
  - cbn in H. destruct (IH H) as (i & Hl & Hlen & Hc & Hfirst).
    exists (S i). repeat split; try assumption.
    intros [|j] earlier Hj Hlook.
    + cbn in Hlook. apply (inj Some) in Hlook. discriminate.
    + apply (Hfirst j earlier); [lia | exact Hlook].
Qed.

End LearnedValues.

(** X17.  [update_model_training] on a row loaded from the database adds
    one to the version and leaves in the session the stored list with the
    new example appended, cut to its last 100 entries.  The commit writes
    that list only when the stored list was empty or had 100 entries or
    more: a stored list of 1 to 99 entries is changed in place and assigned
    back as the same object, so the column keeps the old list, without the
    new example. *)
Theorem X17_training_data_committed {E : Type} `{EqDecision E} (stored : list E) (v : nat)
  (training_example : E) :
  Learning.version
    (Learning.update_model_training (Some (Learning.load stored v)) training_example)
  = (v + 1)%nat
  /\ Learning.deref
       (Learning.objects
          (Learning.update_model_training (Some (Learning.load stored v)) training_example))
       (Learning.training_data
          (Learning.update_model_training (Some (Learning.load stored v)) training_example))
     = Some (if (100 <? List.length stored + 1)%nat
             then Learning.last_n 100 (stored ++ [training_example])%list
             else (stored ++ [training_example])%list)
  /\ Learning.committed_training_data stored
       (Learning.update_model_training (Some (Learning.load stored v)) training_example)
     = Some (match stored with
             | [] => [training_example]
             | _ :: _ =>
                 if (100 <? List.length stored + 1)%nat
                 then Learning.last_n 100 (stored ++ [training_example])%list
                 else stored
             end).
Proof.
  rewrite update_loaded_row. unfold Learning.committed_training_data.
  destruct stored as [|x stored'].
  - cbv zeta.
    set (a := fresh (dom ({[0%nat := []]} : gmap nat (list E)))).
    assert (Ha : a <> 0%nat) by (apply (new_address_other _ 0%nat []), lookup_singleton_eq).
    cbn [Learning.objects Learning.training_data Learning.loaded_training_data
         Learning.version Learning.deref].
    rewrite lookup_insert_eq, !lookup_insert_ne, lookup_singleton_eq by exact Ha.
    split; [reflexivity|]. split; [reflexivity|].
    destruct (decide (Some [training_example] = Some [])) as [Heq|_];
      [discriminate | reflexivity].
  - set (old := x :: stored'). cbv zeta.
    set (h := <[0%nat := (old ++ [training_example])%list]>
                ({[0%nat := old]} : gmap nat (list E))).
    assert (H0 : h !! 0%nat = Some (old ++ [training_example])%list)
      by apply lookup_insert_eq.
    destruct (100 <? List.length old + 1)%nat eqn:L.
    + assert (Ha : fresh (dom h) <> 0%nat) by exact (new_address_other h 0%nat _ H0).
      cbn [Learning.objects Learning.training_data Learning.loaded_training_data
           Learning.version Learning.deref].
      rewrite lookup_insert_eq, lookup_insert_ne, H0 by exact Ha.
      split; [reflexivity|]. split; [reflexivity|].
      destruct (decide (Some (Learning.last_n 100 (old ++ [training_example])%list)
                        = Some (old ++ [training_example])%list)) as [Heq|_]; [|reflexivity].
      exfalso. apply (inj Some) in Heq. apply (f_equal (@List.length E)) in Heq.
      rewrite length_last_n, List.length_app in Heq. cbn [List.length] in Heq.
      apply Nat.ltb_lt in L. lia.
    + cbn [Learning.objects Learning.training_data Learning.loaded_training_data
           Learning.version Learning.deref].
      rewrite H0.
      split; [reflexivity|]. split; [reflexivity|].
      destruct (decide (Some (old ++ [training_example])%list
                        = Some (old ++ [training_example])%list)) as [_|Hne];
        [reflexivity | contradiction].
Qed.

(** X18.  [improve_field_extraction] returns a learned value only if it
    is the value of one of the last ten patterns, has more than two
    characters and occurs in the text in some letter case; it is the first
    such value among these ten patterns. *)
Theorem X18_learned_value (patterns : list (option string)) (text value : string) :
  Learning.improve_field_extraction patterns text = Some value ->
  exists i : nat,
    (List.length patterns - 10 <= i)%nat
    /\ patterns !! i = Some (Some value)
    /\ (2 < Py.len value)%nat
    /\ Py.contains (Py.lower value) (Py.lower text) = true
    /\ forall (j : nat) (earlier : string),
         (List.length patterns - 10 <= j < i)%nat ->
         patterns !! j = Some (Some earlier) ->
         (2 <? Py.len earlier)%nat && Py.contains (Py.lower earlier) (Py.lower text) = false.
Proof.
  intros H.
  assert (H' : Learning.first_known_value (Learning.last_n 10 patterns) text = Some value).
  { unfold Learning.improve_field_extraction in H. destruct patterns; [discriminate|exact H]. }
  destruct (first_known_value_first _ _ _ H') as (i & Hl & Hlen & Hc & Hfirst).
  rewrite last_n_lookup in Hl.
  exists (List.length patterns - 10 + i)%nat.
  split; [lia|]. split; [exact Hl|]. split; [exact Hlen|]. split; [exact Hc|].
  intros j earlier Hj Hlook. apply (Hfirst (j - (List.length patterns - 10))%nat earlier).
  - lia.
  - rewrite last_n_lookup.
    replace (List.length patterns - 10 + (j - (List.length patterns - 10)))%nat with j by lia.
    exact Hlook.
Qed.

Lemma X18_witness :
  Learning.improve_field_extraction [Some "Globex"; None; Some "AC"; Some "Acme Corp"]
    "Invoice from ACME CORP" = Some "Acme Corp"
  /\ exists i : nat,
       [Some "Globex"; None; Some "AC"; Some "Acme Corp"] !! i = Some (Some "Acme Corp").
Proof.
  assert (H : Learning.improve_field_extraction
                [Some "Globex"; None; Some "AC"; Some "Acme Corp"]
                "Invoice from ACME CORP" = Some "Acme Corp")
    by (vm_compute; reflexivity).
  split; [exact H|].
  destruct (X18_learned_value _ _ _ H) as (i & _ & Hl & _). exists i. exact Hl.
Defined.

(* ===================================================================== *)
(** ** The scores of the lightweight strategy *)
(* ===================================================================== *)

Section LightweightScores.

Lemma round2_unit (x : Q) :
  0 <= x -> x <= 1 -> exists n : Z, round2 x = (n # 100) /\ (0 <= n <= 100)%Z.
Proof.
  destruct x as [num den]. unfold Qle. cbn [Qnum Qden]. intros H0 H1.
  unfold round2. cbn [Qnum Qden]. cbv zeta.
  pose proof (Z.div_mod (num * 100) (Z.pos den) ltac:(lia)) as E.
  pose proof (Z.mod_pos_bound (num * 100) (Z.pos den) ltac:(lia)) as B.
  set (q := (num * 100 / Z.pos den)%Z) in *.
  set (r := ((num * 100) mod Z.pos den)%Z) in *.
  assert (Hq0 : (0 <= q)%Z) by nia.
  assert (Hq1 : (q <= 100)%Z) by nia.
  destruct (Z.compare_spec (2 * r) (Z.pos den)) as [C | C | C].
  - destruct (Z.odd q) eqn:O.
    + exists (q + 1)%Z. split; [reflexivity|].
      assert (q <> 100%Z) by (intros ->; discriminate O). lia.
    + exists q. split; [reflexivity | lia].
  - exists q. split; [reflexivity | lia].
  - exists (q + 1)%Z. split; [reflexivity|]. nia.
Qed.

Lemma best_candidate_bounds (field_name text clean : string) (rules : list (Re.regex * Q)) :
  0 <= snd (Lightweight.best_candidate field_name text clean rules)
  /\ snd (Lightweight.best_candidate field_name text clean rules) <= 1.
Proof.
  unfold Lightweight.best_candidate.
  apply (fold_left_invariant (fun best : option string * Q => 0 <= snd best /\ snd best <= 1)).
  - split; discriminate.
  - intros best [pattern base] _ [B0 B1].
    unfold Lightweight.try_rule, Lightweight.rule_candidate.
    destruct (Re.re_search _ _ _) as [m|]; cbn [keep_best]; [|split; assumption].
    destruct (Qgtb _ (snd best)) eqn:G; [|split; assumption].
    cbn [snd]. apply Qgtb_true in G. split.
    + apply Qlt_le_weak. eapply Qle_lt_trans; [exact B0 | exact G].
    + unfold Lightweight._calculate_confidence. cbv zeta.
      eapply Qle_trans; [apply Q.le_min_r | vm_compute; discriminate].
Qed.

Lemma lightweight_fold_scores (text : string) (table : list (string * list (Re.regex * Q))) :
  forall key,
    (is_Some (fst (fold_left (Lightweight.field_step text) table (∅, ∅)) !! key)
     <-> is_Some (snd (fold_left (Lightweight.field_step text) table (∅, ∅)) !! key))
    /\ forall c, snd (fold_left (Lightweight.field_step text) table (∅, ∅)) !! key = Some c ->
         exists n : Z, c = (n # 100) /\ (0 <= n <= 100)%Z.
Proof.
  apply (fold_left_invariant
           (fun acc : gmap string string * gmap string Q =>
              forall key, (is_Some (fst acc !! key) <-> is_Some (snd acc !! key))
                          /\ forall c, snd acc !! key = Some c ->
                               exists n : Z, c = (n # 100) /\ (0 <= n <= 100)%Z)).
  - intros key. cbn [fst snd]. rewrite !lookup_empty.
    split; [split; intros [? ?]; discriminate | intros c; discriminate].
  - intros acc [field rules] _ IH key. unfold Lightweight.field_step.
    pose proof (best_candidate_bounds field text (Lightweight.clean_text text) rules) as B.
    destruct (Lightweight.best_candidate _ _ _ _) as [[v|] conf]; [|apply IH].
    destruct (Py.truthy v); [|apply IH].
    cbn [fst snd] in *. destruct (decide (field = key)) as [<- | Hne].
    + rewrite !lookup_insert_eq. split; [split; eauto|].
      intros c E. apply (inj Some) in E. subst c. apply round2_unit; apply B.
    + rewrite !lookup_insert_ne by exact Hne. apply IH.
Qed.

End LightweightScores.

(** X19.  The lightweight strategy [extract_with_lightweight_ai] scores
    exactly the fields it extracts, and every score is a whole number of
    hundredths between 0 and 1. *)
Theorem X19_lightweight_scores (text key : string) :
  (is_Some (extracted_fields (Lightweight.extract_with_lightweight_ai text) !! key)
   <-> is_Some (confidence_scores (Lightweight.extract_with_lightweight_ai text) !! key))
  /\ forall c,
       confidence_scores (Lightweight.extract_with_lightweight_ai text) !! key = Some c ->
       exists n : Z, c = (n # 100) /\ (0 <= n <= 100)%Z.
Proof.
  unfold Lightweight.extract_with_lightweight_ai.
  pose proof (lightweight_fold_scores text Lightweight.patterns key) as H.
  destruct (fold_left _ _ _) as [fields scores].
  cbn [fst snd extracted_fields confidence_scores] in *. exact H.
Qed.

(* ===================================================================== *)
(** ** The score of a field that the strategy returns *)
(* ===================================================================== *)

Section StrategyScores.

Lemma strategy_scores_its_fields (self : Transformer.processor) (text key : string) :
  is_Some (extracted_fields (Transformer.extract_with_transformers self text) !! key) ->
  is_Some (confidence_scores (Transformer.extract_with_transformers self text) !! key).
Proof.
  unfold Transformer.extract_with_transformers.
  destruct (Transformer.use_lightweight self).
  - unfold Lightweight.extract_with_lightweight_ai.
    pose proof (lightweight_fold_scores text Lightweight.patterns key) as H.
    destruct (fold_left _ _ _) as [fields scores].
    cbn [fst snd extracted_fields confidence_scores] in *. apply H.
  - cbv zeta. cbn [extracted_fields confidence_scores].
    destruct (merged_passes_lookup self text key) as [F S].
    unfold Transformer._validate_and_enhance_fields. rewrite map_lookup_imap.
    intros [v Hv]. rewrite F in Hv.
    destruct (Spec.merged _ _ _) as [w|]; [|discriminate].
    rewrite (S (ltac:(eauto))). eauto.
Qed.

End StrategyScores.

(** X20.  Every field that a strategy returns has a score of the strategy;
    and when the upload route extracts and then scores with a
    [PDFProcessor], that field is scored with the strategy's score, never
    with a heuristic one. *)
Theorem X20_strategy_fields_keep_their_score (p : Transformer.processor)
  (text key value : string) :
  extracted_fields (Transformer.extract_with_transformers p text) !! key = Some value ->
  exists c : Q,
    confidence_scores (Transformer.extract_with_transformers p text) !! key = Some c
    /\ PDF.get_confidence_scores (PDF.init p)
         (PDF.extract_invoice_fields (PDF.init p) text) text !! key = Some c.
Proof.
  intros H.
  destruct (strategy_scores_its_fields p text key (ltac:(eauto))) as [c Hc].
  exists c. split; [exact Hc|].
  rewrite confidence_scores_lookup.
  assert (Hf : is_Some (PDF.extract_invoice_fields (PDF.init p) text !! key)).
  { unfold PDF.extract_invoice_fields. cbn [PDF.init PDF.ai_processor].
    apply lookup_union_is_Some. right. rewrite H. eauto. }
  destruct Hf as [v Hv]. rewrite Hv. cbn [PDF.init PDF.ai_processor].
  rewrite Hc. reflexivity.
Qed.

Lemma X20_witness :
  extracted_fields
    (Transformer.extract_with_transformers (Transformer.Processor false None None)
       "Total: 5.00") !! "total_amount" = Some "5.00"
  /\ exists c : Q,
       PDF.get_confidence_scores (PDF.init (Transformer.Processor false None None))
         (PDF.extract_invoice_fields (PDF.init (Transformer.Processor false None None))
            "Total: 5.00")
         "Total: 5.00" !! "total_amount" = Some c.
Proof.
  assert (H : extracted_fields
                (Transformer.extract_with_transformers
                   (Transformer.Processor false None None) "Total: 5.00")
                !! "total_amount" = Some "5.00")
    by (vm_compute; reflexivity).
  split; [exact H|].
  destruct (X20_strategy_fields_keep_their_score _ _ _ _ H) as (c & _ & Hc).
  exists c. exact Hc.
Defined.

(* ===================================================================== *)
(** ** The letter case of the values the lightweight strategy scores *)
(* ===================================================================== *)

Section LowerCase.

Import Re.

(** [re.sub] with a literal replacement builds its result from the
    characters of the subject and of the replacement. *)
Lemma sub_from_alphabet (q : ascii -> bool) (fl : flags) (r : regex) (repl : string)
  (s : string) (pos : nat) (prev : option ascii) (skip : nat) :
  Py.all_str q repl = true -> Py.all_str q s = true ->
  Py.all_str q (sub_from fl r repl pos prev s skip) = true.
Proof.
  intros Hrepl. revert pos prev skip.
  induction s as [|c t IH]; intros pos prev skip Hs.
  - destruct skip as [|skip]; [|reflexivity].
    rewrite sub_from_nil. destruct (try_at fl r pos prev EmptyString); [|reflexivity].
    rewrite all_str_app, Hrepl. reflexivity.
  - cbn [Py.all_str] in Hs. apply andb_true_iff in Hs. destruct Hs as [Hc Ht].
    destruct skip as [|skip]; [|cbn [sub_from]; apply IH, Ht].
    rewrite sub_from_cons. destruct (try_at fl r pos prev (String c t)) as [m|].
    + rewrite all_str_app, Hrepl. cbn [andb].
      destruct (m_end m =? pos)%nat; [|apply IH, Ht].
      cbn [Py.all_str]. rewrite Hc. apply IH, Ht.
    + cbn [Py.all_str]. rewrite Hc. apply IH, Ht.
Qed.

Lemma all_str_group (q : ascii -> bool) (n : nat) (s : string) (m : mobj) :
  Py.all_str q s = true -> Py.all_str q (group n s m) = true.
Proof.
  intros H. unfold group. destruct (cap_lookup n (m_groups m)) as [[a b]|]; [|reflexivity].
  unfold Py.slice. apply all_str_take, all_str_drop, H.
Qed.

Lemma lower_char_not_upper (c : ascii) : negb (Py.isupper (Py.lower_char c)) = true.
Proof. destruct c as [[] [] [] [] [] [] [] []]; vm_compute; reflexivity. Qed.

Lemma clean_text_lowercase (text : string) :
  Py.all_str (fun c => negb (Py.isupper c)) (Lightweight.clean_text text) = true.
Proof.
  unfold Lightweight.clean_text, re_sub.
  apply sub_from_alphabet; [reflexivity|].
  apply all_str_strip. unfold Py.lower. apply all_str_map. exact lower_char_not_upper.
Qed.

(** A pattern that must begin with a character of [p] finds nothing in a
    subject without such a character. *)
Lemma search_needs_first (fl : flags) (r : regex) (p : ascii -> bool) (s : string) :
  (forall st, match m_rest st with
              | String c _ => p c = false
              | EmptyString => True
              end -> rmatch fl r Some st = None) ->
  Py.all_str (fun c => negb (p c)) s = true ->
  re_search fl r s = None.
Proof.
  intros Hr. unfold re_search. generalize 0%nat (@None ascii).
  induction s as [|c t IH]; intros pos prev Hs; cbn [search_from]; unfold try_at.
  - rewrite Hr by exact Logic.I. reflexivity.
  - cbn [Py.all_str] in Hs. apply andb_true_iff in Hs. destruct Hs as [Hc Ht].
    rewrite Hr by (cbn [m_rest]; apply negb_true_iff, Hc). apply IH, Ht.
Qed.

Lemma upper_letter_is_upper (c : ascii) :
  in_set no_flags [rg "A" "Z"] c = Py.isupper c.
Proof. destruct c as [[] [] [] [] [] [] [] []]; vm_compute; reflexivity. Qed.

Lemma search_INV_lowercase (value : string) :
  Py.all_str (fun c => negb (Py.isupper c)) value = true ->
  re_search no_flags (str "INV") value = None.
Proof.
  intros H. apply (search_needs_first _ _ (fun c => Ascii.eqb "I" c)).
  - intros st Hst. cbn [str rmatch]. unfold step.
    destruct (m_rest st) as [|c t]; [reflexivity|].
    unfold lit_eq. cbn [IGNORECASE no_flags]. rewrite Hst. reflexivity.
  - revert H. apply all_str_weaken. intros c Hc.
    destruct (Ascii.eqb_spec "I" c) as [<- | _]; [discriminate Hc | reflexivity].
Qed.

Lemma search_capital_lowercase (value : string) :
  Py.all_str (fun c => negb (Py.isupper c)) value = true ->
  re_search no_flags (cat [Bol; set [rg "A" "Z"]]) value = None.
Proof.
  intros H. apply (search_needs_first _ _ Py.isupper); [|exact H].
  intros st Hst. cbn [cat rmatch]. unfold set. cbn [rmatch].
  destruct (at_bol no_flags st); [|reflexivity]. unfold step.
  destruct (m_rest st) as [|c t]; [reflexivity|].
  rewrite upper_letter_is_upper, Hst. reflexivity.
Qed.

End LowerCase.

(** X21.  The lightweight strategy searches the lower-cased text, so a
    value it scores has no upper-case letter; the bonus patterns [INV] (of
    the invoice number) and [^[A-Z]] (of the vendor name), which are tried
    on that value without IGNORECASE, therefore never find a match. *)
Theorem X21_lightweight_values_lowercase (field_name text value : string)
  (rule : Re.regex * Q) (c : Q) :
  Lightweight.rule_candidate field_name text (Lightweight.clean_text text) rule
  = Some (value, c) ->
  Py.exists_str Py.isupper value = false
  /\ Re.found (Re.re_search Re.no_flags (Re.str "INV") value) = false
  /\ Re.found (Re.re_search Re.no_flags (Re.cat [Re.Bol; Re.set [Re.rg "A" "Z"]]) value)
     = false.
Proof.
  destruct rule as [pattern base]. unfold Lightweight.rule_candidate.
  destruct (Re.re_search _ pattern _) as [m|]; [|discriminate].
  intros E. apply (inj Some) in E. injection E as Ev _.
  assert (H : Py.all_str (fun c => negb (Py.isupper c)) value = true).
  { rewrite <- Ev. apply all_str_strip, all_str_group, clean_text_lowercase. }
  split; [|split].
  - clear Ev. induction value as [|x t IH]; [reflexivity|].
    cbn [Py.all_str Py.exists_str] in *. apply andb_true_iff in H. destruct H as [Hx Ht].
    apply negb_true_iff in Hx. rewrite Hx. apply IH, Ht.
  - rewrite (search_INV_lowercase value H). reflexivity.
  - rewrite (search_capital_lowercase value H). reflexivity.
Qed.

Lemma X21_witness :
  Lightweight.rule_candidate "invoice_number" "Ref #INV-2024-7"
    (Lightweight.clean_text "Ref #INV-2024-7")
    (Re.cat [Re.Lit "#"; Re.star Re.s_;
             Re.Grp 1 (Re.cat [Re.str "INV"; Re.plus (Re.set [Re.IWord; Re.ch "-"])])], 0.9)
  = Some ("inv-2024-7", 1.0)
  /\ Py.exists_str Py.isupper "inv-2024-7" = false.
Proof.
  assert (H : Lightweight.rule_candidate "invoice_number" "Ref #INV-2024-7"
                (Lightweight.clean_text "Ref #INV-2024-7")
                (Re.cat [Re.Lit "#"; Re.star Re.s_;
                         Re.Grp 1 (Re.cat [Re.str "INV";
                                           Re.plus (Re.set [Re.IWord; Re.ch "-"])])], 0.9)
              = Some ("inv-2024-7", 1.0))
    by (vm_compute; reflexivity).
  split; [exact H|].
  exact (proj1 (X21_lightweight_values_lowercase _ _ _ _ _ H)).
Defined.
